(** * The monitor runtime of uptime-kuma (server/model/monitor.js)

    A shallow embedding of the beat loop, the transition classifier, the
    notification path, the TLS expiry bookkeeping and the uptime
    aggregation, followed by the properties of the specification that
    were checked against them.

    Conventions.
    - JavaScript numbers that hold integers (ids, seconds, milliseconds,
      counters) are [Z]; numbers that may be fractional (the timeout, the
      uptime ratio) are exact rationals [Q]: rounding of IEEE doubles is
      not modelled.
    - [undefined]/[null] is [None].
    - A time is the milliseconds since the epoch of its UTC reading.
      Where the code goes through the text of a time (the start of the
      uptime window, written to the second and compared as text; the
      times of two beats read back as local time) the definition says
      so.
    - Everything the runtime obtains by awaiting a collaborator (clock,
      repository queries other than the heartbeat table, probe drivers)
      is read from a per-tick record of observations. *)

From Stdlib Require Import ZArith QArith List String Ascii Bool Lia Lqa.
From Stdlib Require Import DecimalString.
Import ListNotations.

#[local] Set Warnings "-notation-for-abbreviation".

Local Open Scope string_scope.
Local Open Scope Z_scope.

(* ===================================================================== *)
(** ** Constants and helpers of src/util.js *)
(* ===================================================================== *)

Module Util.

(** Modelled from the spec: the status constants of src/util.js, which
    is not among the sources ("Status in {DOWN=0, UP=1, PENDING=2,
    MAINTENANCE=3}"). *)
Inductive Status : Set := DOWN | UP | PENDING | MAINTENANCE.

Definition statusCode (s : Status) : Z :=
  match s with DOWN => 0 | UP => 1 | PENDING => 2 | MAINTENANCE => 3 end.

Definition status_eqb (a b : Status) : bool :=
  statusCode a =? statusCode b.

(** Modelled from the spec: [flipStatus] of src/util.js ("upsideDown
    flips UP<->DOWN only; MAINTENANCE and PENDING are never
    inverted"). *)
Definition flipStatus (s : Status) : Status :=
  match s with UP => DOWN | DOWN => UP | other => other end.

(** [x === C] where [x] may be [undefined] (as in
    [previousBeat?.status]). *)
Definition strictEq (x : option Status) (c : Status) : bool :=
  match x with Some s => status_eqb s c | None => false end.

(** Template-literal rendering of an integer. *)
Definition string_of_Z (z : Z) : string := NilZero.string_of_int (Z.to_int z).

(** [${x}] for a string that may be [undefined]. *)
Definition render (x : option string) : string :=
  match x with Some s => s | None => "undefined" end.

(** [xs.join(sep)]. *)
Fixpoint join (sep : string) (xs : list string) : string :=
  match xs with
  | [] => ""
  | [x] => x
  | x :: rest => x ++ sep ++ join sep rest
  end.

(** [s.includes(k)]. *)
Definition includes (s k : string) : bool :=
  match index 0 k s with Some _ => true | None => false end.

(** White space removed by [String.prototype.trim] (the ASCII part). *)
Definition isSpace (c : ascii) : bool :=
  let n := nat_of_ascii c in
  ((n =? 32) || ((9 <=? n) && (n <=? 13)))%nat.

Fixpoint trimStart (s : string) : string :=
  match s with
  | String c rest => if isSpace c then trimStart rest else s
  | EmptyString => EmptyString
  end.

Fixpoint rev_string (s acc : string) : string :=
  match s with
  | String c rest => rev_string rest (String c acc)
  | EmptyString => acc
  end.

Definition trim (s : string) : string :=
  rev_string (trimStart (rev_string (trimStart s) "")) "".

(** Truthiness of a string. *)
Definition nonEmpty (s : string) : bool :=
  match s with EmptyString => false | _ => true end.

End Util.
Import Util.

(* ===================================================================== *)
(** ** Data model *)
(* ===================================================================== *)

(** The monitor bean: the configuration columns the runtime reads. *)
Record Monitor : Set := {
  monId : Z;
  monName : string;
  monUrl : string;
  monType : string;
  active : bool;
  interval : Z;                      (* seconds *)
  retryInterval : Z;                 (* seconds *)
  resendInterval : Z;                (* beats *)
  maxretries : Z;
  timeout : option Q;                (* seconds; None when unset *)
  upsideDown : bool;
  ignoreTls : bool;
  expiryNotification : bool;
  keyword : string;
  invertKeyword : bool;
  expectedValue : string;
  check_content_parameter : bool;
  pre_up_command : option string;
  pre_down_command : option string
}.

Definition isUpsideDown (m : Monitor) : bool := upsideDown m.
Definition getIgnoreTls (m : Monitor) : bool := ignoreTls m.
Definition isEnabledExpiryNotification (m : Monitor) : bool := expiryNotification m.
Definition isInvertKeyword (m : Monitor) : bool := invertKeyword m.
Definition getCheckContentParameter (m : Monitor) : bool := check_content_parameter m.

Definition setTimeout_ (m : Monitor) (t : option Q) : Monitor :=
  {| monId := monId m; monName := monName m; monUrl := monUrl m;
     monType := monType m; active := active m; interval := interval m;
     retryInterval := retryInterval m; resendInterval := resendInterval m;
     maxretries := maxretries m; timeout := t; upsideDown := upsideDown m;
     ignoreTls := ignoreTls m; expiryNotification := expiryNotification m;
     keyword := keyword m; invertKeyword := invertKeyword m;
     expectedValue := expectedValue m;
     check_content_parameter := check_content_parameter m;
     pre_up_command := pre_up_command m;
     pre_down_command := pre_down_command m |}.

(** The heartbeat bean. [hbTime] is the UTC instant in milliseconds. *)
Record Heartbeat : Set := {
  monitor_id : Z;
  hbTime : Z;
  status : Status;
  msg : option string;
  ping : option Z;
  duration : Z;
  important : bool;
  downCount : Z
}.

Definition withStatus (b : Heartbeat) (s : Status) : Heartbeat :=
  {| monitor_id := monitor_id b; hbTime := hbTime b; status := s; msg := msg b;
     ping := ping b; duration := duration b; important := important b;
     downCount := downCount b |}.

Definition withMsg (b : Heartbeat) (t : option string) : Heartbeat :=
  {| monitor_id := monitor_id b; hbTime := hbTime b; status := status b; msg := t;
     ping := ping b; duration := duration b; important := important b;
     downCount := downCount b |}.

Definition withPing (b : Heartbeat) (p : option Z) : Heartbeat :=
  {| monitor_id := monitor_id b; hbTime := hbTime b; status := status b; msg := msg b;
     ping := p; duration := duration b; important := important b;
     downCount := downCount b |}.

Definition withImportant (b : Heartbeat) (i : bool) : Heartbeat :=
  {| monitor_id := monitor_id b; hbTime := hbTime b; status := status b; msg := msg b;
     ping := ping b; duration := duration b; important := i;
     downCount := downCount b |}.

Definition withDownCount (b : Heartbeat) (d : Z) : Heartbeat :=
  {| monitor_id := monitor_id b; hbTime := hbTime b; status := status b; msg := msg b;
     ping := ping b; duration := duration b; important := important b;
     downCount := d |}.

(** A row of the [notification] table joined to the monitor; [sendThrows]
    tells whether [Notification.send] raises for this provider. *)
Record Provider : Set := {
  providerName : string;
  sendThrows : bool
}.

(** What the runtime does to the outside world, in order. Cache
    invalidation, socket emission and metrics are left out. *)
Inductive Effect : Set :=
| PreCommand (statusText command : string)
| NotificationSend (provider text : string)
| ResendLog (count every : Z).

(* ===================================================================== *)
(** ** Transition classifier *)
(* ===================================================================== *)

Definition isImportantBeat (isFirstBeat : bool) (previousBeatStatus : option Status)
    (currentBeatStatus : Status) : bool :=
  isFirstBeat ||
  (strictEq previousBeatStatus DOWN && status_eqb currentBeatStatus MAINTENANCE) ||
  (strictEq previousBeatStatus UP && status_eqb currentBeatStatus MAINTENANCE) ||
  (strictEq previousBeatStatus MAINTENANCE && status_eqb currentBeatStatus DOWN) ||
  (strictEq previousBeatStatus MAINTENANCE && status_eqb currentBeatStatus UP) ||
  (strictEq previousBeatStatus UP && status_eqb currentBeatStatus DOWN) ||
  (strictEq previousBeatStatus DOWN && status_eqb currentBeatStatus UP) ||
  (strictEq previousBeatStatus PENDING && status_eqb currentBeatStatus DOWN).

Definition isImportantForNotification (isFirstBeat : bool)
    (previousBeatStatus : option Status) (currentBeatStatus : Status) : bool :=
  isFirstBeat ||
  (strictEq previousBeatStatus MAINTENANCE && status_eqb currentBeatStatus DOWN) ||
  (strictEq previousBeatStatus UP && status_eqb currentBeatStatus DOWN) ||
  (strictEq previousBeatStatus DOWN && status_eqb currentBeatStatus UP) ||
  (strictEq previousBeatStatus PENDING && status_eqb currentBeatStatus DOWN).

(* ===================================================================== *)
(** ** Notification path *)
(* ===================================================================== *)

(** [executePreCommand] of server/pre-command.js: which command is handed
    to the shell. The rewriting of the command text
    ([processMultiLineCommand]) and the outcome of the shell are not
    modelled; a failing command is only logged. *)
Definition executePreCommand (st : Status) (m : Monitor) : list Effect :=
  let chosen :=
    match st, pre_up_command m, pre_down_command m with
    | UP, Some c, _ => if nonEmpty c then Some ("UP", trim c) else None
    | DOWN, _, Some c => if nonEmpty c then Some ("DOWN", trim c) else None
    | _, _, _ => None
    end in
  match chosen with
  | Some (statusText, command) =>
      if nonEmpty command then [PreCommand statusText command] else []
  | None => []
  end.

(** [Monitor.sendNotification]; [notificationList] is the result of
    [Monitor.getNotificationList]. *)
Definition sendNotification (isFirstBeat : bool) (monitor : Monitor)
    (bean : Heartbeat) (notificationList : list Provider) : list Effect :=
  if negb isFirstBeat || status_eqb (status bean) DOWN then
    let text := if status_eqb (status bean) UP then "✅ Up" else "🔴 Down" in
    let message := "[" ++ monName monitor ++ "] [" ++ text ++ "] " ++ render (msg bean) in
    (executePreCommand (status bean) monitor
      ++ map (fun n => NotificationSend (providerName n) message) notificationList)%list
  else [].

(* ===================================================================== *)
(** ** What one tick observes *)
(* ===================================================================== *)

Record JsError : Set := {
  errName : string;
  errMessage : string
}.

(** [new Error(message)]. *)
Definition Error (message : string) : JsError :=
  {| errName := "Error"; errMessage := message |}.

(** The [TypeError] of a call of something that is not a function. *)
Definition TypeError (message : string) : JsError :=
  {| errName := "TypeError"; errMessage := message |}.

(** A child of a group, as the group branch sees it: the [active] column
    and the status of the row [Monitor.getPreviousHeartbeat] returns. *)
Record Child : Set := {
  childActive : bool;
  lastBeat : option Status
}.

(** An HTTP response that passed [validateStatus]. The body is kept in the
    digested forms the branch works on: its text, the text after the tag
    and white-space clean-up of the keyword branch, the fields whose key
    ends in "content" with whether each value is [null], and the string
    form of the JSONata result. *)
Record HttpResponse : Set := {
  resStatus : Z;
  resStatusText : string;
  resData : string;
  resDataCleaned : string;
  contentFields : list (string * bool);
  jsonataResult : string
}.

(** Either the request pipeline raised before a response was accepted
    (invalid body, token failure, network error, rejected status code,
    abort), or a response came back. *)
Inductive AxiosOutcome : Set :=
| AxiosRejected (e : JsError)
| AxiosResolved (res : HttpResponse).

(** What a driver other than group, http, push and grpc-keyword did to the bean before
    it finished or raised. *)
Record DriverOutcome : Set := {
  setsStatus : option Status;
  setsMsg : option string;
  setsPing : option Z;
  raises : option JsError
}.

(** The answer of [grpcQuery]: the status code of the call, the error
    message and the data, in their string form. *)
Record GrpcResponse : Set := {
  grpcCode : Z;
  grpcErrorMessage : string;
  grpcData : string
}.

Inductive GrpcOutcome : Set :=
| GrpcRejected (e : JsError)
| GrpcResolved (response : GrpcResponse).

(** [zoneOffset] is the offset of the server's local time zone from UTC,
    in milliseconds, at a wall-clock reading: [dayjs(text)], without
    [utc], reads the text of a time as local time. *)
Record Observations : Set := {
  now : Z;                           (* clock when the bean is created, ms *)
  probeNow : Z;                      (* clock read by the push branch, ms *)
  underMaintenance : bool;           (* Monitor.isUnderMaintenance(this.id) *)
  children : list Child;             (* Monitor.getChildren(this.id) *)
  axios : AxiosOutcome;              (* this.makeAxiosRequest(options) *)
  grpc : GrpcOutcome;                (* grpcQuery(options) *)
  driver : DriverOutcome;
  elapsed : Z;                       (* dayjs().valueOf() - startTime *)
  notificationList : list Provider;  (* Monitor.getNotificationList(this) *)
  zoneOffset : Z -> Z
}.

(** [dayjs(text)] for the text of a time that was written in UTC
    ([R.isoDateTimeMillis(dayjs.utc())]): the instant the server's local
    zone gives that wall-clock reading. *)
Definition parseLocal (obs : Observations) (text : Z) : Z :=
  text - zoneOffset obs text.

(** How the body of the [try] ends. *)
Inductive Completion : Set :=
| Normal (bean : Heartbeat)
| Throw (e : JsError) (bean : Heartbeat)
| Return (delay : Z).

(* ===================================================================== *)
(** ** The beat loop *)
(* ===================================================================== *)

(** The closure of [start]: the monitor, [previousBeat], [retries], the
    stop flag and the rows of the [heartbeat] table in insertion order. *)
Record Runtime : Set := {
  self : Monitor;
  previousBeat : option Heartbeat;
  retries : Z;
  isStop : bool;
  heartbeat : list Heartbeat
}.

Record Tick : Set := {
  next : Runtime;
  stored : option Heartbeat;         (* the bean given to R.store *)
  heartbeatInterval : option Z;      (* delay of the timer that was set, ms *)
  effects : list Effect
}.

(** [R.findOne("heartbeat", " monitor_id = ? ORDER BY time DESC")]: the
    row of the monitor with the greatest time; among rows of equal time
    the one inserted last. *)
Fixpoint newest (rows : list Heartbeat) : option Heartbeat :=
  match rows with
  | [] => None
  | r :: rest =>
      match newest rest with
      | None => Some r
      | Some r' => if hbTime r' <? hbTime r then Some r else Some r'
      end
  end.

Definition findLatest (table : list Heartbeat) (monitorID : Z) : option Heartbeat :=
  newest (filter (fun r => monitor_id r =? monitorID) table).

(** The group branch. *)
Definition childStep (st : Status) (child : Child) : Status :=
  if negb (childActive child) then st
  else match lastBeat child with
       | None => PENDING
       | Some last =>
           if status_eqb st UP && (status_eqb last PENDING || status_eqb last DOWN)
           then last
           else if status_eqb st PENDING && status_eqb last DOWN
           then last
           else st
       end.

Definition groupBranch (kids : list Child) (bean : Heartbeat) : Heartbeat :=
  if (0 <? List.length kids)%nat then
    let bean := withMsg (withStatus bean UP) (Some "All children up and running") in
    let bean := withStatus bean (fold_left childStep kids (status bean)) in
    if negb (status_eqb (status bean) UP)
    then withMsg bean (Some "Child inaccessible")
    else bean
  else withMsg (withStatus bean PENDING) (Some "Group empty").

(** The push branch. *)
Definition bufferTime : Z := 1000.

Definition pushBranch (m : Monitor) (previous : option Heartbeat) (beatInterval : Z)
    (obs : Observations) (bean : Heartbeat) : Completion :=
  match previous with
  | Some pb =>
      let msSinceLastBeat := probeNow obs - hbTime pb in
      if negb (status_eqb (status pb) (if isUpsideDown m then DOWN else UP))
         || (beatInterval * 1000 + bufferTime <? msSinceLastBeat)
      then Throw (Error "No heartbeat in the time window") bean
      else
        let t := beatInterval * 1000 - msSinceLastBeat in
        Return (if t <? 0 then bufferTime else t + bufferTime)
  | None => Throw (Error "No heartbeat in the time window") bean
  end.

(** The http / keyword / json-query branch, after the request. Capturing
    the certificate belongs to the TLS tracker below. *)
Definition excerpt (data : string) : string :=
  if (50 <? String.length data)%nat then substring 0 47 data ++ "..." else data.

Definition httpBranch (m : Monitor) (obs : Observations) (bean : Heartbeat) : Completion :=
  match axios obs with
  | AxiosRejected e => Throw e bean
  | AxiosResolved res =>
      let line := string_of_Z (resStatus res) ++ " - " ++ resStatusText res in
      let bean := withPing (withMsg bean (Some line)) (Some (elapsed obs)) in
      if (monType m =? "http")%string then
        let bean := withStatus bean UP in
        if getCheckContentParameter m
           && (0 <? List.length (contentFields res))%nat
           && forallb snd (contentFields res)
        then
          let text := line ++ ", but all content parameters are null: ["
                        ++ join ", " (map fst (contentFields res)) ++ "]" in
          let bean := withMsg (withStatus bean DOWN) (Some text) in
          Throw (Error text) bean
        else Normal bean
      else if (monType m =? "keyword")%string then
        let keywordFound := includes (resData res) (keyword m) in
        if Bool.eqb keywordFound (negb (isInvertKeyword m)) then
          Normal (withStatus
                    (withMsg bean (Some (line ++ ", keyword "
                                           ++ (if keywordFound then "is" else "not")
                                           ++ " found")))
                    UP)
        else
          Throw (Error (line ++ ", but keyword is "
                          ++ (if keywordFound then "present" else "not")
                          ++ " in [" ++ excerpt (resDataCleaned res) ++ "]"))
                bean
      else
        if (jsonataResult res =? expectedValue m)%string then
          Normal (withStatus (withMsg bean (Some (line ++ ", expected value is found"))) UP)
        else
          Throw (Error (line ++ ", but value is not equal to expected value, value was: ["
                          ++ jsonataResult res ++ "]"))
                bean
  end.

(** Every other driver. *)
Definition driverBranch (obs : Observations) (bean : Heartbeat) : Completion :=
  let d := driver obs in
  let bean := match setsStatus d with Some s => withStatus bean s | None => bean end in
  let bean := match setsMsg d with Some t => withMsg bean (Some t) | None => bean end in
  let bean := match setsPing d with Some p => withPing bean (Some p) | None => bean end in
  match raises d with
  | Some e => Throw e bean
  | None => Normal bean
  end.

(** The double quote in the message of the grpc-keyword branch. *)
Definition doubleQuote : string := String (ascii_of_nat 34) EmptyString.

(** The grpc-keyword branch. A call that is answered never raises: a
    status code other than 1 and a keyword that is not as asked both set
    the bean DOWN and let the [try] run to its end. *)
Definition grpcBranch (m : Monitor) (obs : Observations) (bean : Heartbeat)
    : Completion :=
  match grpc obs with
  | GrpcRejected e => Throw e bean
  | GrpcResolved response =>
      let bean := withPing bean (Some (elapsed obs)) in
      let responseData := excerpt (grpcData response) in
      if negb (grpcCode response =? 1) then
        Normal (withMsg (withStatus bean DOWN)
                  (Some ("Error in send gRPC " ++ string_of_Z (grpcCode response)
                           ++ " " ++ grpcErrorMessage response)))
      else
        let keywordFound := includes (grpcData response) (keyword m) in
        if Bool.eqb keywordFound (negb (isInvertKeyword m)) then
          Normal (withMsg (withStatus bean UP)
                    (Some (responseData ++ ", keyword [" ++ keyword m ++ "] "
                             ++ (if keywordFound then "is" else "not")
                             ++ " found")))
        else
          Normal (withMsg (withStatus bean DOWN)
                    (Some (", but keyword [" ++ keyword m ++ "] is "
                             ++ (if keywordFound then "present" else "not")
                             ++ " in [" ++ doubleQuote ++ " + " ++ responseData
                             ++ " + " ++ doubleQuote ++ "]")))
  end.

Definition builtinDrivers : list string :=
  [ "port"; "ping"; "dns"; "steam"; "gamedig"; "docker"; "mqtt"; "sqlserver";
    "postgres"; "mysql"; "mongodb"; "radius"; "redis"; "kafka-producer" ].

(** The names every object inherits from [Object.prototype]: for these
    [name in object] holds although the object has no such key, and
    [object[name]] is the inherited member, which has no [check]. *)
Definition inheritedNames : list string :=
  [ "constructor"; "__defineGetter__"; "__defineSetter__"; "hasOwnProperty";
    "__lookupGetter__"; "__lookupSetter__"; "isPrototypeOf";
    "propertyIsEnumerable"; "toString"; "valueOf"; "__proto__";
    "toLocaleString" ].

Definition mem (s : string) (l : list string) : bool :=
  existsb (String.eqb s) l.

(** The importance and resend block that follows the [try]. *)
Definition importanceBlock (m : Monitor) (isFirstBeat : bool)
    (previousStatus : option Status) (providers : list Provider)
    (bean : Heartbeat) : Heartbeat * list Effect :=
  if isImportantBeat isFirstBeat previousStatus (status bean) then
    let bean := withImportant bean true in
    let sent :=
      if isImportantForNotification isFirstBeat previousStatus (status bean)
      then sendNotification isFirstBeat m bean providers
      else [] in
    (withDownCount bean 0, sent)
  else
    let bean := withImportant bean false in
    if status_eqb (status bean) DOWN && (0 <? resendInterval m) then
      let bean := withDownCount bean (downCount bean + 1) in
      if resendInterval m <=? downCount bean then
        (withDownCount bean 0,
         ResendLog (downCount bean) (resendInterval m)
           :: sendNotification isFirstBeat m bean providers)
      else (bean, [])
    else (bean, []).

Section Beat.

(** [demoMode] of server/config.js. *)
Variable demoMode : bool.
(** Template-literal rendering of a number that may be fractional. *)
Variable numberToString : Q -> string.
(** The keys of [UptimeKumaServer.monitorTypeList], a plain object that
    the monitor types are registered in. *)
Variable monitorTypeList : list string.

Definition normalInterval (m : Monitor) : Z :=
  let beatInterval := if interval m =? 0 then 1 else interval m in
  if demoMode && (beatInterval <? 20) then 20 else beatInterval.

(** "Runtime patch timeout if it is 0". *)
Definition patchTimeout (m : Monitor) : Monitor :=
  match timeout m with
  | Some t =>
      if Qle_bool t 0
      then setTimeout_ m (Some (inject_Z (interval m) * 1000 * (8 # 10))%Q)
      else m
  | None => setTimeout_ m (Some (inject_Z (interval m) * 1000 * (8 # 10))%Q)
  end.

Definition renderTimeout (m : Monitor) : string :=
  match timeout m with Some t => numberToString t | None => "undefined" end.

(** The chain of [if (this.type === ...)] inside the [try]. The test
    [this.type in UptimeKumaServer.monitorTypeList] holds for the keys of
    the list and for the inherited names; for an inherited name the call
    of [monitorType.check] raises. *)
Definition dispatch (m : Monitor) (previous : option Heartbeat) (beatInterval : Z)
    (obs : Observations) (bean : Heartbeat) : Completion :=
  if underMaintenance obs then
    Normal (withStatus (withMsg bean (Some "Monitor under maintenance")) MAINTENANCE)
  else if (monType m =? "group")%string then
    Normal (groupBranch (children obs) bean)
  else if ((monType m =? "http") || (monType m =? "keyword")
           || (monType m =? "json-query"))%string then
    httpBranch m obs bean
  else if (monType m =? "push")%string then
    pushBranch m previous beatInterval obs bean
  else if (monType m =? "grpc-keyword")%string then
    grpcBranch m obs bean
  else if mem (monType m) builtinDrivers || mem (monType m) monitorTypeList then
    driverBranch obs bean
  else if mem (monType m) inheritedNames then
    Throw (TypeError "monitorType.check is not a function") bean
  else Throw (Error "Unknown Monitor Type") bean.

(** The whole body of the [try]: dispatch, then the post-probe flip. *)
Definition tryBody (m : Monitor) (previous : option Heartbeat) (beatInterval : Z)
    (obs : Observations) (bean : Heartbeat) : Completion :=
  match dispatch m previous beatInterval obs bean with
  | Normal bean =>
      if isUpsideDown m then
        let bean := withStatus bean (flipStatus (status bean)) in
        if status_eqb (status bean) DOWN
        then Throw (Error "Flip UP to DOWN") bean
        else Normal bean
      else Normal bean
  | other => other
  end.

(** The [catch]: the message, then the retry accounting. *)
Definition catchBlock (m : Monitor) (count : Z) (e : JsError) (bean : Heartbeat)
    : Heartbeat * Z :=
  let bean :=
    if (errName e =? "CanceledError")%string
    then withMsg bean (Some ("timeout by AbortSignal (" ++ renderTimeout m ++ "s)"))
    else withMsg bean (Some (errMessage e)) in
  if isUpsideDown m && status_eqb (status bean) UP then (bean, 0)
  else if (0 <? maxretries m) && (count <? maxretries m)
  then (withStatus bean PENDING, count + 1)
  else (bean, count).

(** What follows the [try]/[catch]: importance, the delay of the next
    tick, the store and the timer. *)
Definition afterTry (rt : Runtime) (m : Monitor) (previous : option Heartbeat)
    (beatInterval : Z) (obs : Observations) (bean : Heartbeat) (count : Z) : Tick :=
  let isFirstBeat := match previous with Some _ => false | None => true end in
  let '(bean, fx) :=
    importanceBlock m isFirstBeat (option_map status previous)
      (notificationList obs) bean in
  let beatInterval :=
    if status_eqb (status bean) PENDING && (0 <? retryInterval m)
    then retryInterval m else beatInterval in
  {| next := {| self := m; previousBeat := Some bean; retries := count;
                isStop := isStop rt;
                heartbeat := (heartbeat rt ++ [bean])%list |};
     stored := Some bean;
     heartbeatInterval := if isStop rt then None else Some (beatInterval * 1000);
     effects := fx |}.

(** [if (!previousBeat || this.type === "push")]: the previous beat is
    read again from the table. *)
Definition reloadPrevious (rt : Runtime) : option Heartbeat :=
  match previousBeat rt with
  | Some pb => if (monType (self rt) =? "push")%string
               then findLatest (heartbeat rt) (monId (self rt)) else Some pb
  | None => findLatest (heartbeat rt) (monId (self rt))
  end.

(** The bean as it is before the [try]. The duration is
    [dayjs(bean.time).diff(dayjs(previousBeat.time), "second")]: both
    texts are read as local time, and the difference is cut to whole
    seconds. *)
Definition dispense (m : Monitor) (previous : option Heartbeat) (obs : Observations)
    : Heartbeat :=
  {| monitor_id := monId m;
     hbTime := now obs;
     status := if isUpsideDown m then flipStatus DOWN else DOWN;
     msg := None;
     ping := None;
     duration := match previous with
                 | Some pb =>
                     Z.quot (parseLocal obs (now obs) - parseLocal obs (hbTime pb))
                       1000
                 | None => 0
                 end;
     important := false;
     downCount := match previous with Some pb => downCount pb | None => 0 end |}.

(** One call of [beat]. *)
Definition beat (rt : Runtime) (obs : Observations) : Tick :=
  let beatInterval := normalInterval (self rt) in
  let previous := reloadPrevious rt in
  let bean := dispense (self rt) previous obs in
  let m := patchTimeout (self rt) in
  match tryBody m previous beatInterval obs bean with
  | Return delay =>
      {| next := {| self := m; previousBeat := previous; retries := 0;
                    isStop := isStop rt; heartbeat := heartbeat rt |};
         stored := None;
         heartbeatInterval := Some delay;
         effects := [] |}
  | Normal bean => afterTry rt m previous beatInterval obs bean 0
  | Throw e bean =>
      let '(bean, count) := catchBlock m (retries rt) e bean in
      afterTry rt m previous beatInterval obs bean count
  end.

(** [start]: a fresh closure over the monitor and the table. *)
Definition start (m : Monitor) (table : list Heartbeat) : Runtime :=
  {| self := m; previousBeat := None; retries := 0; isStop := false;
     heartbeat := table |}.

(** Successive ticks of one runtime. *)
Fixpoint run (rt : Runtime) (ticks : list Observations) : list Tick :=
  match ticks with
  | [] => []
  | obs :: rest => let t := beat rt obs in t :: run (next t) rest
  end.

End Beat.

(* ===================================================================== *)
(** ** TLS tracker *)
(* ===================================================================== *)

(** One certificate of the chain [checkCertificate] returns; the issuer
    link ends at the root. *)
#[warnings="-register-all"]
Inductive CertInfo : Set :=
  mkCert (subjectCN certType fingerprint256 : string) (daysRemaining : Z)
         (issuerCertificate : option CertInfo).

Definition subjectCN (c : CertInfo) := let '(mkCert cn _ _ _ _) := c in cn.
Definition certType (c : CertInfo) := let '(mkCert _ ty _ _ _) := c in ty.
Definition fingerprint256 (c : CertInfo) := let '(mkCert _ _ fp _ _) := c in fp.
Definition daysRemaining (c : CertInfo) := let '(mkCert _ _ _ d _) := c in d.
Definition issuerCertificate (c : CertInfo) := let '(mkCert _ _ _ _ i) := c in i.

Record TlsInfo : Set := {
  valid : bool;
  certInfo : option CertInfo
}.

(** A row of [notification_sent_history]. *)
Record SentHistory : Set := {
  sentType : string;
  sentMonitor : Z;
  sentDays : Z
}.

(** A message handed to [Notification.send] by the expiry check, with the
    threshold whose check produced it. *)
Record CertNotification : Set := {
  toProvider : string;
  certText : string;
  forTargetDays : Z
}.

(** The tables and the setting the tracker works on, and what it sent. *)
Record TlsStore : Set := {
  monitor_tls_info : list (Z * TlsInfo);
  notification_sent_history : list SentHistory;
  tlsExpiryNotifyDays : option (list Z);   (* None: unset or not an array *)
  outbox : list CertNotification
}.

Definition withHistory (w : TlsStore) (h : list SentHistory) : TlsStore :=
  {| monitor_tls_info := monitor_tls_info w; notification_sent_history := h;
     tlsExpiryNotifyDays := tlsExpiryNotifyDays w; outbox := outbox w |}.

Definition withOutbox (w : TlsStore) (o : list CertNotification) : TlsStore :=
  {| monitor_tls_info := monitor_tls_info w;
     notification_sent_history := notification_sent_history w;
     tlsExpiryNotifyDays := tlsExpiryNotifyDays w; outbox := o |}.

Definition withTlsInfo (w : TlsStore) (t : list (Z * TlsInfo)) : TlsStore :=
  {| monitor_tls_info := t;
     notification_sent_history := notification_sent_history w;
     tlsExpiryNotifyDays := tlsExpiryNotifyDays w; outbox := outbox w |}.

Definition withNotifyDays (w : TlsStore) (d : option (list Z)) : TlsStore :=
  {| monitor_tls_info := monitor_tls_info w;
     notification_sent_history := notification_sent_history w;
     tlsExpiryNotifyDays := d; outbox := outbox w |}.

Definition isCertificateRowOf (monitorID : Z) (r : SentHistory) : bool :=
  (sentType r =? "certificate")%string && (sentMonitor r =? monitorID).

(** [R.findOne("monitor_tls_info", "monitor_id = ?")]. *)
Definition findTlsInfo (t : list (Z * TlsInfo)) (monitorID : Z) : option TlsInfo :=
  option_map snd (find (fun row => fst row =? monitorID) t).

(** [R.store(tlsInfoBean)]: the monitor's row is replaced, or added. *)
Fixpoint storeTlsInfo (t : list (Z * TlsInfo)) (monitorID : Z) (info : TlsInfo)
    : list (Z * TlsInfo) :=
  match t with
  | [] => [(monitorID, info)]
  | row :: rest =>
      if fst row =? monitorID then (monitorID, info) :: rest
      else row :: storeTlsInfo rest monitorID info
  end.

Definition updateTlsInfo (m : Monitor) (checkCertificateResult : TlsInfo)
    (w : TlsStore) : TlsStore :=
  let w :=
    match findTlsInfo (monitor_tls_info w) (monId m) with
    | None => w
    | Some oldCertInfo =>
        match certInfo oldCertInfo, certInfo checkCertificateResult with
        | Some old, Some new =>
            if negb (fingerprint256 old =? fingerprint256 new)%string
            then withHistory w
                   (filter (fun r => negb (isCertificateRowOf (monId m) r))
                      (notification_sent_history w))
            else w
        | _, _ => w
        end
    end in
  withTlsInfo w (storeTlsInfo (monitor_tls_info w) (monId m) checkCertificateResult).

Definition sendCertNotificationByTargetDays (m : Monitor) (certCN certType : string)
    (daysRemaining targetDays : Z) (providers : list Provider) (w : TlsStore)
    : TlsStore :=
  let row :=
    find (fun r => isCertificateRowOf (monId m) r && (sentDays r <=? targetDays))
      (notification_sent_history w) in
  match row with
  | Some _ => w
  | None =>
      let text := "[" ++ monName m ++ "][" ++ monUrl m ++ "] " ++ certType
                    ++ " certificate " ++ certCN ++ " will be expired in "
                    ++ string_of_Z daysRemaining ++ " days" in
      let w := withOutbox w
                 (outbox w
                    ++ map (fun n => {| toProvider := providerName n; certText := text;
                                        forTargetDays := targetDays |}) providers)%list in
      let sent := existsb (fun n => negb (sendThrows n)) providers in
      if sent then
        withHistory w
          (notification_sent_history w
             ++ [ {| sentType := "certificate"; sentMonitor := monId m;
                     sentDays := targetDays |} ])%list
      else w
  end.

Section Tls.

(** [rootCertificates.has]: the fingerprints of the known root CAs
    ([rootCertificatesFingerprints()] of server/util-server.js). *)
Variable rootCertificates : string -> bool.

(** The [while (certInfo)] walk for one threshold. *)
Fixpoint walkChain (m : Monitor) (targetDays : Z) (providers : list Provider)
    (c : CertInfo) (w : TlsStore) : TlsStore :=
  match c with
  | mkCert cn ty fp days issuer =>
      if rootCertificates fp then w
      else
        let w :=
          if targetDays <? days then w
          else sendCertNotificationByTargetDays m cn ty days targetDays providers w in
        match issuer with
        | Some up => walkChain m targetDays providers up w
        | None => w
        end
  end.

Definition checkCertExpiryNotifications (m : Monitor) (tlsInfoObject : TlsInfo)
    (providers : list Provider) (w : TlsStore) : TlsStore :=
  match certInfo tlsInfoObject with
  | Some leaf =>
      if daysRemaining leaf =? 0 then w
      else if negb (0 <? List.length providers)%nat then w
      else
        let '(notifyDays, w) :=
          match tlsExpiryNotifyDays w with
          | Some days => (days, w)
          | None => ([7; 14; 21], withNotifyDays w (Some [7; 14; 21]))
          end in
        fold_left (fun w targetDays => walkChain m targetDays providers leaf w)
          notifyDays w
  | None => w
  end.

Definition handleTlsInfo (m : Monitor) (tlsInfo : TlsInfo)
    (providers : list Provider) (w : TlsStore) : TlsStore :=
  let w := updateTlsInfo m tlsInfo w in
  if negb (getIgnoreTls m) && isEnabledExpiryNotification m
  then checkCertExpiryNotifications m tlsInfo providers w
  else w.

(** Certificates that give no reason to notify at thresholds up to
    [limit]: the walk stops at a known root, and any certificate before
    it has more than [limit] days left. *)
Fixpoint silentFrom (limit : Z) (c : CertInfo) : Prop :=
  match c with
  | mkCert _ _ fp days issuer =>
      rootCertificates fp = true
      \/ (limit < days
          /\ match issuer with
             | Some up => silentFrom limit up
             | None => True
             end)
  end.

Definition silentAbove (limit : Z) (issuer : option CertInfo) : Prop :=
  match issuer with Some up => silentFrom limit up | None => True end.

End Tls.

(* ===================================================================== *)
(** ** Uptime aggregation *)
(* ===================================================================== *)

(** [R.isoDateTime(dayjs.utc().subtract(duration, "hour"))]: the start of
    the window is written to the whole second ("YYYY-MM-DD HH:mm:ss"), so
    the milliseconds of the clock are dropped. Instants are milliseconds
    since the epoch. *)
Definition windowStart (duration_ nowMs : Z) : Z :=
  (nowMs - duration_ * 3600 * 1000) / 1000 * 1000.

(** [time > ?]: a comparison of two texts. The time of a beat is written
    with its milliseconds after the seconds
    ([R.isoDateTimeMillis]), the start of the window without them, so a
    beat of the starting second compares greater whatever its
    milliseconds are. [startTime] is a whole second. *)
Definition inWindow (startTime : Z) (r : Heartbeat) : bool :=
  startTime <=? hbTime r.

(** [(JULIANDAY(time) - JULIANDAY(?)) * 86400]: seconds from the start of
    the window to the beat, the milliseconds of the beat included. Exact
    rationals stand for the doubles of SQLite. *)
Definition secondsInWindow (startTime : Z) (r : Heartbeat) : Q :=
  (hbTime r - startTime) # 1000.

(** The [CASE] that trims a beat reaching out of the window. *)
Definition trimmed (startTime : Z) (r : Heartbeat) : Q :=
  if Qle_bool (inject_Z (duration r)) (secondsInWindow startTime r)
  then inject_Z (duration r)
  else secondsInWindow startTime r.

(** SQL [SUM]: NULLs are skipped, and the sum of no value is NULL. *)
Definition sqlSum (xs : list (option Q)) : option Q :=
  fold_left
    (fun acc x =>
       match x, acc with
       | None, _ => acc
       | Some v, None => Some v
       | Some v, Some a => Some (a + v)%Q
       end)
    xs None.

(** The number JavaScript arithmetic sees in a sum that may be [null]. *)
Definition toNumber (x : option Q) : Q :=
  match x with Some v => v | None => 0%Q end.

Definition countsAsUp (r : Heartbeat) : bool :=
  (statusCode (status r) =? 1) || (statusCode (status r) =? 3).

(** The computation of [calcUptime] after a cache miss. [table] holds the
    heartbeat rows in the order the engine returns them. *)
Definition computeUptime (duration_ : Z) (monitorID : Z) (nowMs : Z)
    (table : list Heartbeat) : Q :=
  let startTime := windowStart duration_ nowMs in
  let rows := filter (fun r => inWindow startTime r && (monitor_id r =? monitorID))
                table in
  let totalDuration := sqlSum (map (fun r => Some (trimmed startTime r)) rows) in
  let uptimeDuration :=
    sqlSum (map (fun r => if countsAsUp r then Some (trimmed startTime r) else None)
              rows) in
  if negb (Qle_bool (toNumber totalDuration) 0) then
    let uptime := (toNumber uptimeDuration / toNumber totalDuration)%Q in
    if negb (Qle_bool 0 uptime) then 0%Q else uptime
  else
    match find (fun r => monitor_id r =? monitorID) table with
    | Some r => if status_eqb (status r) UP then 1%Q else 0%Q
    | None => 0%Q
    end.

(** [Monitor.calcUptime]; [cachedUptime] is what
    [UptimeCacheList.getUptime] answers. *)
Definition calcUptime (duration_ : Z) (monitorID : Z) (forceNoCache : bool)
    (cachedUptime : option Q) (nowMs : Z) (table : list Heartbeat) : Q :=
  match (if forceNoCache then None else cachedUptime) with
  | Some cached => cached
  | None => computeUptime duration_ monitorID nowMs table
  end.

(* ===================================================================== *)
(** ** Vocabulary of the properties *)
(* ===================================================================== *)

(** The rule of the specification for one child, in its words: an
    inactive child is skipped; an active child with no heartbeat gives
    PENDING; a PENDING or DOWN child degrades UP to its status; a DOWN
    child degrades PENDING to DOWN. *)
Definition degrade (st : Status) (child : Child) : Status :=
  if childActive child then
    match lastBeat child, st with
    | None, _ => PENDING
    | Some PENDING, UP => PENDING
    | Some DOWN, UP => DOWN
    | Some DOWN, PENDING => DOWN
    | Some _, _ => st
    end
  else st.

(** The heartbeat a push tick looks at missed its window. *)
Definition missedWindow (m : Monitor) (bi : Z) (obs : Observations)
    (previous : option Heartbeat) : Prop :=
  match previous with
  | None => True
  | Some pb =>
      status pb <> (if isUpsideDown m then DOWN else UP)
      \/ bi * 1000 + 1000 < probeNow obs - hbTime pb
  end.

(** The four ways the importance block leaves the counter. *)
Inductive CounterStep (m : Monitor) (first : bool) (providers : list Provider)
    (d : Z) : Heartbeat -> list Effect -> Prop :=
| StepImportant b fx :
    important b = true -> downCount b = 0 ->
    (forall c e, ~ In (ResendLog c e) fx) ->
    CounterStep m first providers d b fx
| StepResend b b0 :
    important b = false -> downCount b = 0 ->
    0 < resendInterval m -> resendInterval m <= d + 1 ->
    CounterStep m first providers d b
      (ResendLog (d + 1) (resendInterval m) :: sendNotification first m b0 providers)
| StepCount b :
    important b = false -> downCount b = d + 1 -> d + 1 < resendInterval m ->
    CounterStep m first providers d b []
| StepKeep b :
    important b = false -> downCount b = d ->
    CounterStep m first providers d b [].

(** The state a runtime keeps between ticks is consistent with the
    resend interval: every counter it can read back is below it. *)
Definition countersBelow (rt : Runtime) : Prop :=
  (forall hb, In hb (heartbeat rt) -> monitor_id hb = monId (self rt) ->
              0 <= downCount hb < resendInterval (self rt))
  /\ (forall pb, previousBeat rt = Some pb ->
                 0 <= downCount pb < resendInterval (self rt)).

(** What the claim says of one tick: [previous] is the beat the tick
    looked at, [obs] what it observed and [t] what it did. The stored
    counter is within [0, every); it is 0 on an important beat, which
    does not send again; a beat that is not important keeps the counter
    unless it is DOWN, and counts one up if it is; it counts up to
    [every] and no further: the notifications then go to every provider
    again, after the log line with the count, and 0 is stored. *)
Definition counterLaw (every : Z) (previous : option Heartbeat) (obs : Observations)
    (t : Tick) : Prop :=
  let d := match previous with Some pb => downCount pb | None => 0 end in
  match stored t with
  | None => effects t = []
  | Some b =>
      0 <= downCount b < every
      /\ (important b = true ->
          downCount b = 0 /\ forall c e, ~ In (ResendLog c e) (effects t))
      /\ (important b = false -> status b <> DOWN ->
          downCount b = d /\ effects t = [])
      /\ (important b = false -> status b = DOWN -> d + 1 < every ->
          downCount b = d + 1 /\ effects t = [])
      /\ (important b = false -> status b = DOWN -> every <= d + 1 ->
          d + 1 = every
          /\ downCount b = 0
          /\ effects t
             = ResendLog every every
                 :: sendNotification false (self (next t)) b (notificationList obs))
  end.

(** The body of the [try] raises and leaves the bean DOWN: the probe
    failed (or, upside-down, succeeded and was flipped). [types] are the
    keys of [UptimeKumaServer.monitorTypeList]. *)
Definition probeFails (types : list string) (m : Monitor) (obs : Observations)
    : Prop :=
  forall previous bi,
  exists e b,
    tryBody types (patchTimeout m) previous bi obs (dispense m previous obs)
    = Throw e b
    /\ status b = DOWN.

(** The body of the [try] runs to its end and leaves the bean UP. *)
Definition probeSucceeds (types : list string) (m : Monitor) (obs : Observations)
    : Prop :=
  forall previous bi,
  exists b,
    tryBody types (patchTimeout m) previous bi obs (dispense m previous obs)
    = Normal b
    /\ status b = UP.

(** The body of the [try] runs to its end and leaves the bean DOWN: the
    probe failed without raising. *)
Definition probeSettlesDown (types : list string) (m : Monitor) (obs : Observations)
    : Prop :=
  forall previous bi,
  exists b,
    tryBody types (patchTimeout m) previous bi obs (dispense m previous obs)
    = Normal b
    /\ status b = DOWN.

(** The call of a grpc-keyword monitor is answered, outside a
    maintenance window, but not as asked: the status code is not 1, or
    the keyword is in the data when it should not be, or is not when it
    should. *)
Definition grpcFails (m : Monitor) (obs : Observations) : Prop :=
  underMaintenance obs = false
  /\ exists response,
       grpc obs = GrpcResolved response
       /\ (grpcCode response <> 1
           \/ includes (grpcData response) (keyword m) = isInvertKeyword m).

(** The call is answered as asked: status code 1, and the keyword in the
    data exactly when the check is not inverted. *)
Definition grpcSucceeds (m : Monitor) (obs : Observations) : Prop :=
  underMaintenance obs = false
  /\ exists response,
       grpc obs = GrpcResolved response
       /\ grpcCode response = 1
       /\ includes (grpcData response) (keyword m) = negb (isInvertKeyword m).

Definition timeoutUnset (m : Monitor) : Prop :=
  match timeout m with
  | None => True
  | Some t => (t <= 0)%Q
  end.

(** The monitor of the example: interval 60 s, timeout 0 (never set). *)
Definition everyMinute : Monitor :=
  {| monId := 1; monName := "api"; monUrl := "https://example.test/";
     monType := "http"; active := true; interval := 60; retryInterval := 30;
     resendInterval := 0; maxretries := 2; timeout := Some 0%Q;
     upsideDown := false; ignoreTls := false; expiryNotification := true;
     keyword := ""; invertKeyword := false; expectedValue := "";
     check_content_parameter := false; pre_up_command := None;
     pre_down_command := None |}.

(** The sums of the specification: plain sums of trimmed durations. *)
Definition sumQ (xs : list Q) : Q := fold_right Qplus 0%Q xs.

Fixpoint values (xs : list (option Q)) : list Q :=
  match xs with
  | [] => []
  | Some v :: rest => v :: values rest
  | None :: rest => values rest
  end.

(** No row of the history belongs to the certificate checks of the
    monitor. *)
Definition noCertificateRow (monitorID : Z) (h : list SentHistory) : Prop :=
  forall r, In r h -> isCertificateRowOf monitorID r = false.

(** The notifications one threshold check hands to the providers. *)
Definition certNotifications (m : Monitor) (cn ty : string) (days targetDays : Z)
    (providers : list Provider) : list CertNotification :=
  map (fun n =>
         {| toProvider := providerName n;
            certText := "[" ++ monName m ++ "][" ++ monUrl m ++ "] " ++ ty
                          ++ " certificate " ++ cn ++ " will be expired in "
                          ++ string_of_Z days ++ " days";
            forTargetDays := targetDays |})
      providers.

Definition certificateRow (m : Monitor) (days : Z) : SentHistory :=
  {| sentType := "certificate"; sentMonitor := monId m; sentDays := days |}.

(* ===================================================================== *)
(** ** Monitors and observations of the worked examples *)
(* ===================================================================== *)

(** Rendering of a whole number, enough for the examples. *)
Definition wholeNumber (q : Q) : string := string_of_Z (Qnum q / Zpos (Qden q)).

Definition exampleMonitor (ty : string) (flip : bool) (maxr resend : Z) : Monitor :=
  {| monId := 1; monName := "api"; monUrl := "https://example.test/";
     monType := ty; active := true; interval := 60; retryInterval := 30;
     resendInterval := resend; maxretries := maxr; timeout := Some 48%Q;
     upsideDown := flip; ignoreTls := false; expiryNotification := true;
     keyword := ""; invertKeyword := false; expectedValue := "";
     check_content_parameter := false; pre_up_command := None;
     pre_down_command := None |}.

Definition ops : Provider := {| providerName := "ops"; sendThrows := false |}.

Definition ok200 : HttpResponse :=
  {| resStatus := 200; resStatusText := "OK"; resData := "<html></html>";
     resDataCleaned := ""; contentFields := []; jsonataResult := "" |}.

Definition refused : DriverOutcome :=
  {| setsStatus := None; setsMsg := None; setsPing := None;
     raises := Some (Error "connect ECONNREFUSED") |}.

Definition connected : DriverOutcome :=
  {| setsStatus := Some UP; setsMsg := Some ""; setsPing := Some 12; raises := None |}.

(** A gRPC answer with status code 1 and the data "SERVING". *)
Definition found : GrpcResponse :=
  {| grpcCode := 1; grpcErrorMessage := ""; grpcData := "SERVING" |}.

(** The server's zone is UTC in the examples, unless said otherwise. *)
Definition observe (at_ : Z) (kids : list Child) (d : DriverOutcome) : Observations :=
  {| now := at_; probeNow := at_; underMaintenance := false; children := kids;
     axios := AxiosResolved ok200; grpc := GrpcResolved found; driver := d;
     elapsed := 12; notificationList := [ops]; zoneOffset := fun _ => 0 |}.

Definition beatAt (at_ : Z) (st : Status) (len : Z) : Heartbeat :=
  {| monitor_id := 1; hbTime := at_; status := st; msg := Some ""; ping := None;
     duration := len; important := false; downCount := 0 |}.

Definition leafCertificate : CertInfo :=
  mkCert "example.test" "server" "AA:BB:CC" 10 None.

Definition capturedChain : TlsInfo :=
  {| valid := true; certInfo := Some leafCertificate |}.

Definition emptyStore : TlsStore :=
  {| monitor_tls_info := []; notification_sent_history := [];
     tlsExpiryNotifyDays := Some [7; 14; 21]; outbox := [] |}.

Definition noRoots (fp : string) : bool := false.

(** A gRPC answer with a status code other than 1. *)
Definition unavailable : GrpcResponse :=
  {| grpcCode := 14; grpcErrorMessage := "UNAVAILABLE"; grpcData := "" |}.

(** A tick of a grpc-keyword monitor whose call is answered. *)
Definition observeGrpc (at_ : Z) (response : GrpcResponse) : Observations :=
  {| now := at_; probeNow := at_; underMaintenance := false; children := [];
     axios := AxiosResolved ok200; grpc := GrpcResolved response;
     driver := refused; elapsed := 12; notificationList := [ops];
     zoneOffset := fun _ => 0 |}.

(** A DOWN beat that was stored with the counter at 7, while the resend
    interval of the monitor was larger than it is now. *)
Definition staleCounter : Heartbeat :=
  {| monitor_id := 1; hbTime := 0; status := DOWN; msg := Some ""; ping := None;
     duration := 0; important := false; downCount := 7 |}.

(** A zone one hour ahead of UTC until the wall clock reads [change],
    and two hours ahead from then on: the clocks go forward. *)
Definition clocksForwardAt (change : Z) (text : Z) : Z :=
  if text <? change then 3600000 else 7200000.

(** A tick of a server in a zone of its own. *)
Definition observeInZone (at_ : Z) (zone : Z -> Z) (d : DriverOutcome)
    : Observations :=
  {| now := at_; probeNow := at_; underMaintenance := false; children := [];
     axios := AxiosResolved ok200; grpc := GrpcResolved found; driver := d;
     elapsed := 12; notificationList := [ops]; zoneOffset := zone |}.

(** A monitor that was DOWN, then UP, and has been paused for days. *)
Definition pausedTable : list Heartbeat :=
  [ beatAt 0 DOWN 0; beatAt 60000 UP 60 ].

(** Three beats one minute apart inside the last 24 hours. *)
Definition recentTable : list Heartbeat :=
  [ beatAt 20000000 UP 60; beatAt 20060000 DOWN 60; beatAt 20120000 UP 60 ].

(* ===================================================================== *)
(** ** Vocabulary of the further properties of the beat loop *)
(* ===================================================================== *)

(** The runtime after a sequence of ticks. *)
Definition runtimeAfter (demoMode : bool) (numberToString : Q -> string)
    (types : list string) (rt : Runtime) (observed : list Observations) : Runtime :=
  fold_left (fun rt obs => next (beat demoMode numberToString types rt obs))
    observed rt.

(** The beans a sequence of ticks stored, in order. *)
Definition storedBeans (ts : list Tick) : list Heartbeat :=
  flat_map (fun t => match stored t with Some b => [b] | None => [] end) ts.

(** The type names for which the [try] of [beat] has a branch of their
    own: the names it compares with [===] and the keys of the list of
    monitor types. *)
Definition knownType (types : list string) (ty : string) : bool :=
  ((ty =? "group") || (ty =? "http") || (ty =? "keyword") || (ty =? "json-query")
   || (ty =? "push") || (ty =? "grpc-keyword"))%string
  || mem ty builtinDrivers || mem ty types.

(** The status of a child does no harm to its group. *)
Definition harmless (child : Child) : Prop :=
  childActive child = true ->
  lastBeat child = Some UP \/ lastBeat child = Some MAINTENANCE.


(** No retry is left. *)
Definition retriesExhausted (rt : Runtime) : Prop :=
  (0 <? maxretries (self rt)) && (retries rt <? maxretries (self rt)) = false.


(** The fields of the bean that only the code around the [try] writes. *)
Definition sameFrame (a b : Heartbeat) : Prop :=
  monitor_id b = monitor_id a /\ hbTime b = hbTime a
  /\ duration b = duration a /\ downCount b = downCount a.

(** The message the [catch] of [beat] stores for an error. *)
Definition catchMessage (numberToString : Q -> string) (m : Monitor) (e : JsError)
    : string :=
  if (errName e =? "CanceledError")%string
  then "timeout by AbortSignal (" ++ renderTimeout numberToString m ++ "s)"
  else errMessage e.

(** The status and the retry count the [catch] of [beat] leaves for a
    probe that raised before it set a status. *)
Definition statusAfterRaise (m : Monitor) (count : Z) : Status :=
  if isUpsideDown m then UP
  else if (0 <? maxretries m) && (count <? maxretries m) then PENDING else DOWN.

Definition retriesAfterRaise (m : Monitor) (count : Z) : Z :=
  if isUpsideDown m then 0
  else if (0 <? maxretries m) && (count <? maxretries m) then count + 1 else count.

(* ===================================================================== *)
(** ** Reading the certificate back *)
(* ===================================================================== *)

(** The answer of [getCertExpiry]; [None] stands for the empty string of
    [certExpiryDaysRemaining]. *)
Record CertExpiry : Set := {
  certExpiryDaysRemaining : option Z;
  validCert : bool
}.

(** [getCertExpiry]: the stored row of the monitor, when it is valid and
    its leaf has a number of days other than 0. *)
Definition getCertExpiry (t : list (Z * TlsInfo)) (monitorID : Z) : CertExpiry :=
  let none := {| certExpiryDaysRemaining := None; validCert := false |} in
  match findTlsInfo t monitorID with
  | Some tlsInfo =>
      match certInfo tlsInfo with
      | Some c =>
          if valid tlsInfo && negb (daysRemaining c =? 0)
          then {| certExpiryDaysRemaining := Some (daysRemaining c);
                  validCert := true |}
          else none
      | None => none
      end
  | None => none
  end.

(** The stored certificate of the monitor and the new one both exist and
    differ in their fingerprint. *)
Definition fingerprintChanged (w : TlsStore) (m : Monitor) (new : TlsInfo) : bool :=
  match findTlsInfo (monitor_tls_info w) (monId m) with
  | Some old =>
      match certInfo old, certInfo new with
      | Some oc, Some nc => negb (fingerprint256 oc =? fingerprint256 nc)%string
      | _, _ => false
      end
  | None => false
  end.

(** The thresholds a check runs over. *)
Definition notifyDaysOf (w : TlsStore) : list Z :=
  match tlsExpiryNotifyDays w with Some days => days | None => [7; 14; 21] end.

(** The row of the sent history that silences threshold [targetDays]. *)
Definition sentAlready (m : Monitor) (targetDays : Z) (w : TlsStore) : bool :=
  existsb (fun r => isCertificateRowOf (monId m) r && (sentDays r <=? targetDays))
    (notification_sent_history w).

(* ===================================================================== *)
(** ** The request of the http probes *)
(* ===================================================================== *)

(** The part of the axios options [makeAxiosRequest] writes:
    [options.headers] and [options.httpsAgent.keepAlive]. *)
Record RequestOptions : Set := {
  headers : list (string * string);
  keepAlive : bool
}.

(** [object[key] = value] on an object kept as its list of entries. *)
Fixpoint setProperty (o : list (string * string)) (key value : string)
    : list (string * string) :=
  match o with
  | [] => [(key, value)]
  | entry :: rest =>
      if (fst entry =? key)%string then (key, value) :: rest
      else entry :: setProperty rest key value
  end.

(** [object[key]]. *)
Definition getProperty (o : list (string * string)) (key : string) : option string :=
  option_map snd (find (fun entry => (fst entry =? key)%string) o).

(** [e.message.includes("maxContentLength size of -1 exceeded")]. *)
Definition incompleteResponse (e : JsError) : bool :=
  includes (errMessage e) "maxContentLength size of -1 exceeded".

(** One run of [makeAxiosRequest]: how it completed, the options of the
    requests it made, in order, and the caller's options object as the
    run left it. *)
Record RequestRun : Set := {
  outcome : AxiosOutcome;
  sent : list RequestOptions;
  optionsAfter : RequestOptions
}.

Section Request.

(** What the [n]-th request of a run answers to the options it is sent
    with; the flag tells [httpNtlm] from [axios.request]. *)
Variable transport : nat -> bool -> RequestOptions -> AxiosOutcome.
(** [this.auth_method === "ntlm"]. *)
Variable ntlm : bool.

(** [makeAxiosRequest]; [n] counts the requests made before this call,
    and [fuel] bounds the depth of the recursion. *)
Fixpoint makeAxiosRequest (fuel n : nat) (options : RequestOptions)
    (finalCall : bool) : option RequestRun :=
  match fuel with
  | O => None
  | S fuel =>
      let options :=
        if ntlm then {| headers := headers options; keepAlive := true |}
        else options in
      match transport n ntlm options with
      | AxiosResolved res =>
          Some {| outcome := AxiosResolved res; sent := [options];
                  optionsAfter := options |}
      | AxiosRejected e =>
          if negb finalCall && incompleteResponse e then
            let retried :=
              {| headers := setProperty (headers options) "Accept-Encoding"
                              "gzip, deflate";
                 keepAlive := keepAlive options |} in
            match makeAxiosRequest fuel (S n) retried true with
            | Some r => Some {| outcome := outcome r; sent := options :: sent r;
                                optionsAfter := optionsAfter r |}
            | None => None
            end
          else
            let e :=
              if incompleteResponse e
              then {| errName := errName e;
                      errMessage :=
                        "response timeout: incomplete response within a interval" |}
              else e in
            Some {| outcome := AxiosRejected e; sent := [options];
                    optionsAfter := options |}
      end
  end.

End Request.

(* ===================================================================== *)
(** ** Groups: parents and children *)
(* ===================================================================== *)

(** The columns of a [monitor] row the hierarchy reads. *)
Record MonitorRow : Set := {
  rowId : Z;
  rowName : string;
  rowParent : option Z;
  rowActive : bool
}.

Definition isChildOf (parentID : Z) (r : MonitorRow) : bool :=
  match rowParent r with Some p => p =? parentID | None => false end.

(** [Monitor.getParent]: the first row of the join of [monitor] (as
    parent) with [monitor] (as child) on [child.parent = parent.id] whose
    child has the id asked for; [R.getRow] answers [null] when there is
    none. *)
Definition getParent (table : list MonitorRow) (monitorID : Z) : option MonitorRow :=
  find (fun parent =>
          existsb (fun child => isChildOf (rowId parent) child
                                && (rowId child =? monitorID)) table)
    table.

(** [Monitor.getChildren]. *)
Definition getChildren (table : list MonitorRow) (monitorID : Z) : list MonitorRow :=
  filter (isChildOf monitorID) table.

(** [Monitor.unlinkAllChildren]. *)
Definition unlinkAllChildren (table : list MonitorRow) (groupID : Z)
    : list MonitorRow :=
  map (fun r =>
         if isChildOf groupID r
         then {| rowId := rowId r; rowName := rowName r; rowParent := None;
                 rowActive := rowActive r |}
         else r)
    table.

(** [Monitor.isParentActive]; [None]: the recursion is deeper than
    [fuel]. *)
Fixpoint isParentActive (fuel : nat) (table : list MonitorRow) (monitorID : Z)
    : option bool :=
  match fuel with
  | O => None
  | S fuel =>
      match getParent table monitorID with
      | None => Some true
      | Some parent =>
          match isParentActive fuel table (rowId parent) with
          | Some parentActive => Some (rowActive parent && parentActive)
          | None => None
          end
      end
  end.

(** [isActive]. *)
Definition isActive (fuel : nat) (table : list MonitorRow) (this : MonitorRow)
    : option bool :=
  match isParentActive fuel table (rowId this) with
  | Some parentActive => Some (rowActive this && parentActive)
  | None => None
  end.

(** [Monitor.isUnderMaintenance]. [monitor_maintenance] holds the pairs
    (monitor, maintenance); [maintenanceActive] tells of a maintenance id
    whether the server knows it and it is under maintenance now. *)
Fixpoint isUnderMaintenance (fuel : nat) (table : list MonitorRow)
    (monitor_maintenance : list (Z * Z)) (maintenanceActive : Z -> bool)
    (monitorID : Z) : option bool :=
  match fuel with
  | O => None
  | S fuel =>
      let maintenanceIDList :=
        map snd (filter (fun row => fst row =? monitorID) monitor_maintenance) in
      if existsb maintenanceActive maintenanceIDList then Some true
      else
        match getParent table monitorID with
        | Some parent =>
            isUnderMaintenance fuel table monitor_maintenance maintenanceActive
              (rowId parent)
        | None => Some false
        end
  end.

(** The [while (parent !== null)] of [getPathName]. *)
Fixpoint pathLoop (fuel : nat) (table : list MonitorRow) (parent : option MonitorRow)
    (path : string) : option string :=
  match parent with
  | None => Some path
  | Some p =>
      match fuel with
      | O => None
      | S fuel =>
          pathLoop fuel table (getParent table (rowId p))
            (rowName p ++ " / " ++ path)
      end
  end.

(** [getPathName]. *)
Definition getPathName (fuel : nat) (table : list MonitorRow) (this : MonitorRow)
    : option string :=
  match rowParent this with
  | None => Some (rowName this)
  | Some _ => pathLoop fuel table (getParent table (rowId this)) (rowName this)
  end.

(** [Monitor.getAllChildrenIDs]. *)
Fixpoint getAllChildrenIDs (fuel : nat) (table : list MonitorRow) (monitorID : Z)
    : option (list Z) :=
  match fuel with
  | O => None
  | S fuel =>
      fold_left
        (fun childrenIDs child =>
           match childrenIDs, getAllChildrenIDs fuel table (rowId child) with
           | Some ids, Some below => Some ((ids ++ [rowId child]) ++ below)%list
           | _, _ => None
           end)
        (getChildren table monitorID) (Some [])
  end.

(** The rows [getParent] walks through from a monitor up to the root. *)
Fixpoint lineage (table : list MonitorRow) (monitorID : Z) (chain : list MonitorRow)
    : Prop :=
  match chain with
  | [] => getParent table monitorID = None
  | parent :: above =>
      getParent table monitorID = Some parent
      /\ lineage table (rowId parent) above
  end.

(** The monitors below a monitor. *)
Inductive Descendant (table : list MonitorRow) (monitorID : Z) : Z -> Prop :=
| DescendantChild r :
    In r table -> rowParent r = Some monitorID ->
    Descendant table monitorID (rowId r)
| DescendantBelow r via :
    Descendant table monitorID via ->
    In r table -> rowParent r = Some via ->
    Descendant table monitorID (rowId r).

(** Whether a monitor has a maintenance that is active now. *)
Definition ownMaintenance (monitor_maintenance : list (Z * Z))
    (maintenanceActive : Z -> bool) (monitorID : Z) : bool :=
  existsb maintenanceActive
    (map snd (filter (fun row => fst row =? monitorID) monitor_maintenance)).

(* ===================================================================== *)
(** ** Further worked examples *)
(* ===================================================================== *)

(** A tick whose request is rejected. *)
Definition observeRejected (at_ : Z) (e : JsError) : Observations :=
  {| now := at_; probeNow := at_; underMaintenance := false; children := [];
     axios := AxiosRejected e; grpc := GrpcRejected e; driver := refused;
     elapsed := 12; notificationList := [ops]; zoneOffset := fun _ => 0 |}.

(** A tick during a maintenance window. *)
Definition observeMaintenance (at_ : Z) : Observations :=
  {| now := at_; probeNow := at_; underMaintenance := true; children := [];
     axios := AxiosResolved ok200; grpc := GrpcResolved found; driver := connected;
     elapsed := 12; notificationList := [ops]; zoneOffset := fun _ => 0 |}.


(** A provider whose send throws. *)
Definition pager : Provider := {| providerName := "pager"; sendThrows := true |}.

Definition freshCertificate : CertInfo :=
  mkCert "example.test" "server" "DD:EE:FF" 90 None.

Definition steadyTable : list Heartbeat :=
  [ beatAt 20000000 UP 60; beatAt 20060000 MAINTENANCE 60 ].

(** A server that cuts the first answer short and answers the second
    request. *)
Definition truncatedOnce (n : nat) (ntlm : bool) (options : RequestOptions)
    : AxiosOutcome :=
  match n with
  | O => AxiosRejected (Error "maxContentLength size of -1 exceeded")
  | S _ => AxiosResolved ok200
  end.

Definition plainOptions : RequestOptions :=
  {| headers := [("Accept", "*/*")]; keepAlive := false |}.

Definition prodGroup : MonitorRow :=
  {| rowId := 1; rowName := "prod"; rowParent := None; rowActive := true |}.
Definition webGroup : MonitorRow :=
  {| rowId := 2; rowName := "web"; rowParent := Some 1; rowActive := false |}.
Definition apiMonitor : MonitorRow :=
  {| rowId := 3; rowName := "api"; rowParent := Some 2; rowActive := true |}.

Definition groupTable : list MonitorRow := [prodGroup; webGroup; apiMonitor].

(** A group that was made its own parent. *)
Definition knotTable : list MonitorRow :=
  [ {| rowId := 1; rowName := "knot"; rowParent := Some 1; rowActive := true |} ].

(* ===================================================================== *)
(** * Properties *)
(* ===================================================================== *)

(** ** Basic facts about the helpers *)

Lemma status_eqb_eq a b : status_eqb a b = true <-> a = b.
Proof. destruct a, b; cbv; split; congruence. Qed.

Lemma status_eqb_refl a : status_eqb a a = true.
Proof. now destruct a. Qed.

Lemma status_eqb_neq a b : status_eqb a b = false <-> a <> b.
Proof. destruct a, b; cbv; split; congruence. Qed.

Lemma strictEq_true x c : strictEq x c = true <-> x = Some c.
Proof.
  destruct x as [s|]; simpl.
  - rewrite status_eqb_eq. split; congruence.
  - split; discriminate.
Qed.

(** ** Transition classifier *)

(** C3. [isImportantForNotification first prev curr] holds exactly when
    the beat is the first one, or the transition is UP->DOWN, DOWN->UP,
    PENDING->DOWN or MAINTENANCE->DOWN. In particular no transition into
    MAINTENANCE, and not MAINTENANCE->UP, is important for
    notification. *)
Theorem notify_classifier_definition :
  (forall (first : bool) (prev : option Status) (curr : Status),
      isImportantForNotification first prev curr = true <->
      (first = true
       \/ (prev = Some UP /\ curr = DOWN)
       \/ (prev = Some DOWN /\ curr = UP)
       \/ (prev = Some PENDING /\ curr = DOWN)
       \/ (prev = Some MAINTENANCE /\ curr = DOWN)))
  /\ (forall prev, isImportantForNotification false prev MAINTENANCE = false)
  /\ isImportantForNotification false (Some MAINTENANCE) UP = false.
Proof.
  split; [| split].
  - intros first prev curr.
    destruct first, prev as [[]|], curr; cbv; split;
      intuition (discriminate || congruence).
  - intros [[]|]; reflexivity.
  - reflexivity.
Qed.

(** ** Notification path *)

Lemma sendNotification_open first m bean providers :
  first = false \/ status bean = DOWN ->
  exists text,
    sendNotification first m bean providers
    = (executePreCommand (status bean) m
         ++ map (fun n => NotificationSend (providerName n) text) providers)%list.
Proof.
  intros H. unfold sendNotification.
  assert (G : negb first || status_eqb (status bean) DOWN = true).
  { destruct H as [-> | ->]; [reflexivity | now rewrite orb_true_r]. }
  rewrite G. eexists. reflexivity.
Qed.

Lemma sendNotification_closed m bean providers :
  status bean <> DOWN -> sendNotification true m bean providers = [].
Proof.
  intros H. unfold sendNotification. simpl.
  apply status_eqb_neq in H. now rewrite H.
Qed.

(** C10. [sendNotification] runs the pre-command and dispatches to the
    providers only when the beat is not the first one or its status is
    DOWN. A first beat that is UP, PENDING or MAINTENANCE therefore sends
    nothing and runs no pre-command, although
    [isImportantForNotification true _ _] holds for it and the beat loop
    does call [sendNotification]. *)
Theorem first_beat_notification_gate :
  forall (m : Monitor) (bean : Heartbeat) (providers : list Provider),
    (forall first,
        sendNotification first m bean providers <> [] ->
        first = false \/ status bean = DOWN)
    /\ (forall first,
          first = false \/ status bean = DOWN ->
          exists text,
            sendNotification first m bean providers
            = (executePreCommand (status bean) m
                 ++ map (fun n => NotificationSend (providerName n) text)
                      providers)%list)
    /\ (status bean <> DOWN -> sendNotification true m bean providers = [])
    /\ (forall prev, isImportantForNotification true prev (status bean) = true)
    /\ (status bean <> DOWN ->
        forall prev,
          importanceBlock m true prev providers bean
          = (withDownCount (withImportant bean true) 0, [])).
Proof.
  intros m bean providers. split; [| split; [| split; [| split]]].
  - intros first Hne. destruct first; [| now left].
    right. destruct (status bean) eqn:E; trivial;
      exfalso; apply Hne; apply sendNotification_closed; rewrite E; discriminate.
  - intros first H. now apply sendNotification_open.
  - apply sendNotification_closed.
  - reflexivity.
  - intros H prev. unfold importanceBlock. simpl.
    now rewrite (sendNotification_closed m (withImportant bean true) providers H).
Qed.

(** ** Group aggregation *)

Lemma childStep_degrade st child : childStep st child = degrade st child.
Proof.
  unfold childStep, degrade.
  destruct (childActive child), (lastBeat child) as [[]|], st; reflexivity.
Qed.

Lemma fold_left_pointwise {A B} (f g : A -> B -> A) (l : list B) (a : A) :
  (forall x y, f x y = g x y) -> fold_left f l a = fold_left g l a.
Proof.
  intros E. revert a. induction l as [|y l IH]; intros a; simpl; [reflexivity|].
  now rewrite E, IH.
Qed.

Lemma groupBranch_status_msg kids bean :
  status (groupBranch kids bean)
  = match kids with [] => PENDING | _ => fold_left childStep kids UP end
  /\ msg (groupBranch kids bean)
     = Some (match kids with
             | [] => "Group empty"
             | _ => if status_eqb (fold_left childStep kids UP) UP
                    then "All children up and running"
                    else "Child inaccessible"
             end).
Proof.
  destruct kids as [|k rest]; [split; reflexivity|].
  unfold groupBranch.
  change (0 <? List.length (k :: rest))%nat with true. cbv iota.
  cbn [status withStatus withMsg msg].
  destruct (status_eqb (fold_left childStep (k :: rest) UP) UP) eqn:E;
    cbn [negb status withStatus withMsg msg]; split; reflexivity.
Qed.

Lemma importanceBlock_keeps m first prev providers bean :
  let b := fst (importanceBlock m first prev providers bean) in
  status b = status bean /\ msg b = msg bean /\ ping b = ping bean
  /\ hbTime b = hbTime bean /\ monitor_id b = monitor_id bean
  /\ duration b = duration bean.
Proof.
  unfold importanceBlock.
  destruct (isImportantBeat first prev (status bean)); cbn.
  - repeat split.
  - destruct (status_eqb (status bean) DOWN && (0 <? resendInterval m)); cbn.
    + destruct (resendInterval m <=? downCount bean + 1); cbn; repeat split.
    + repeat split.
Qed.

Section BeatProperties.

Variable demoMode : bool.
Variable numberToString : Q -> string.
Variable monitorTypeList : list string.

Local Notation tick := (beat demoMode numberToString monitorTypeList).
Local Notation ticks := (run demoMode numberToString monitorTypeList).
Local Notation attempt := (tryBody monitorTypeList).
Local Notation basicInterval := (normalInterval demoMode).
Local Notation recover := (catchBlock numberToString).

Lemma patchTimeout_same m :
  monType (patchTimeout m) = monType m
  /\ monId (patchTimeout m) = monId m
  /\ isUpsideDown (patchTimeout m) = isUpsideDown m
  /\ maxretries (patchTimeout m) = maxretries m
  /\ resendInterval (patchTimeout m) = resendInterval m
  /\ retryInterval (patchTimeout m) = retryInterval m
  /\ interval (patchTimeout m) = interval m
  /\ getCheckContentParameter (patchTimeout m) = getCheckContentParameter m.
Proof.
  unfold patchTimeout.
  destruct (timeout m) as [t|]; [destruct (Qle_bool t 0)|]; repeat split.
Qed.

Lemma normalInterval_patch m : basicInterval (patchTimeout m) = basicInterval m.
Proof.
  unfold normalInterval.
  now destruct (patchTimeout_same m) as (_ & _ & _ & _ & _ & _ & -> & _).
Qed.

Lemma dispatch_group m previous bi obs bean :
  monType m = "group" -> underMaintenance obs = false ->
  dispatch monitorTypeList m previous bi obs bean
  = Normal (groupBranch (children obs) bean).
Proof.
  intros Ht Hm. unfold dispatch. now rewrite Hm, Ht.
Qed.

(** C6. The group branch: an empty group is PENDING with "Group empty";
    otherwise the status is obtained from UP by going through the
    children with the rule [degrade] (inactive children skipped, a
    missing heartbeat gives PENDING, PENDING/DOWN degrade UP, DOWN
    degrades PENDING), and the message is "All children up and running"
    for UP and "Child inaccessible" otherwise; children UP, PENDING, UP
    give PENDING. The beat of a group monitor that is neither under
    maintenance nor upside-down carries that status and message. *)
Theorem group_aggregation :
  (forall bean,
      status (groupBranch [] bean) = PENDING
      /\ msg (groupBranch [] bean) = Some "Group empty")
  /\ (forall child rest bean,
        let st := fold_left degrade (child :: rest) UP in
        status (groupBranch (child :: rest) bean) = st
        /\ msg (groupBranch (child :: rest) bean)
           = Some (if status_eqb st UP then "All children up and running"
                   else "Child inaccessible"))
  /\ (forall bean,
        let kid s := {| childActive := true; lastBeat := Some s |} in
        status (groupBranch [kid UP; kid PENDING; kid UP] bean) = PENDING
        /\ msg (groupBranch [kid UP; kid PENDING; kid UP] bean)
           = Some "Child inaccessible")
  /\ (forall rt obs,
        monType (self rt) = "group" ->
        underMaintenance obs = false ->
        isUpsideDown (self rt) = false ->
        exists b,
          stored (tick rt obs) = Some b
          /\ status b = status (groupBranch (children obs) b)
          /\ msg b = msg (groupBranch (children obs) b)).
Proof.
  split; [| split; [| split]].
  - intros bean. split; reflexivity.
  - intros child rest bean st.
    assert (E : fold_left childStep (child :: rest) UP = st).
    { unfold st. apply fold_left_pointwise. intros. apply childStep_degrade. }
    destruct (groupBranch_status_msg (child :: rest) bean) as [Hs Hm].
    rewrite Hs, Hm, E. split; reflexivity.
  - intros bean kid. split; reflexivity.
  - intros rt obs Ht Hm Hu.
    destruct (patchTimeout_same (self rt)) as (Ty & _ & Up & _).
    unfold beat, tryBody.
    rewrite dispatch_group by (rewrite ?Ty; assumption).
    rewrite Up, Hu.
    unfold afterTry.
    match goal with
    | |- context [importanceBlock ?m ?f ?p ?n ?b] =>
        pose proof (importanceBlock_keeps m f p n b) as K;
        destruct (importanceBlock m f p n b) as [b' fx] eqn:E
    end.
    cbn in K. destruct K as (Ks & Km & _).
    exists b'. cbn [stored]. split; [reflexivity|].
    rewrite Ks, Km.
    match goal with
    | |- context [groupBranch ?k ?x] =>
        destruct (groupBranch_status_msg k x) as [-> ->]
    end.
    destruct (groupBranch_status_msg (children obs) b') as [-> ->].
    split; reflexivity.
Qed.

(** ** Push monitors *)

Lemma pushBranch_cases m previous bi obs bean :
  pushBranch m previous bi obs bean
  = match previous with
    | None => Throw (Error "No heartbeat in the time window") bean
    | Some pb =>
        if negb (status_eqb (status pb) (if isUpsideDown m then DOWN else UP))
           || (bi * 1000 + 1000 <? probeNow obs - hbTime pb)
        then Throw (Error "No heartbeat in the time window") bean
        else Return (Z.max 0 (bi * 1000 - (probeNow obs - hbTime pb)) + 1000)
    end.
Proof.
  unfold pushBranch, bufferTime. destruct previous as [pb|]; [|reflexivity].
  destruct (negb _ || _); [reflexivity|].
  destruct (bi * 1000 - (probeNow obs - hbTime pb) <? 0) eqn:E.
  - apply Z.ltb_lt in E. now rewrite Z.max_l by lia.
  - apply Z.ltb_ge in E. now rewrite Z.max_r by lia.
Qed.

Lemma tryBody_push m previous bi obs bean :
  monType m = "push" -> underMaintenance obs = false ->
  attempt m previous bi obs bean = pushBranch m previous bi obs bean.
Proof.
  intros Ht Hm. unfold tryBody, dispatch. rewrite Hm, Ht. cbn.
  rewrite pushBranch_cases.
  destruct previous as [pb|]; [|reflexivity].
  now destruct (negb _ || _).
Qed.

Lemma previous_of_push rt :
  monType (self rt) = "push" ->
  reloadPrevious rt = findLatest (heartbeat rt) (monId (self rt)).
Proof. unfold reloadPrevious. intros ->. now destruct (previousBeat rt). Qed.

Lemma missedWindow_dec m bi obs previous :
  {missedWindow m bi obs previous} + {~ missedWindow m bi obs previous}.
Proof.
  destruct previous as [pb|]; [|left; exact I]. simpl.
  destruct (status_eqb (status pb) (if isUpsideDown m then DOWN else UP)) eqn:E.
  - apply status_eqb_eq in E.
    destruct (Z_lt_dec (bi * 1000 + 1000) (probeNow obs - hbTime pb)).
    + left; now right.
    + right; intros [H|H]; contradiction.
  - apply status_eqb_neq in E. left; now left.
Qed.

Lemma pushBranch_missed m previous bi obs bean :
  missedWindow m bi obs previous ->
  pushBranch m previous bi obs bean
  = Throw (Error "No heartbeat in the time window") bean.
Proof.
  intros H. rewrite pushBranch_cases. destruct previous as [pb|]; [|reflexivity].
  simpl in H.
  destruct H as [H|H].
  - apply status_eqb_neq in H. now rewrite H.
  - apply Z.ltb_lt in H. rewrite H. now rewrite orb_true_r.
Qed.

Lemma pushBranch_in_window m pb bi obs bean :
  ~ missedWindow m bi obs (Some pb) ->
  pushBranch m (Some pb) bi obs bean
  = Return (Z.max 0 (bi * 1000 - (probeNow obs - hbTime pb)) + 1000).
Proof.
  intros H. rewrite pushBranch_cases. simpl in H.
  destruct (status_eqb (status pb) (if isUpsideDown m then DOWN else UP)) eqn:E.
  - destruct (bi * 1000 + 1000 <? probeNow obs - hbTime pb) eqn:L; [|reflexivity].
    apply Z.ltb_lt in L. exfalso; apply H; now right.
  - apply status_eqb_neq in E. exfalso; apply H; now left.
Qed.

(** C7. A tick of a push monitor that is not under maintenance raises
    "No heartbeat in the time window" exactly when there is no previous
    heartbeat, or its status is not the good one (UP, or DOWN when
    upside-down), or more than [beatInterval * 1000 + 1000] ms passed
    since it. Otherwise the tick sets [retries] to 0, sets the timer to
    the time left until the deadline plus the 1000 ms buffer, and stores
    no heartbeat. *)
Theorem push_window_check :
  forall (rt : Runtime) (obs : Observations),
    monType (self rt) = "push" ->
    underMaintenance obs = false ->
    let m := self rt in
    let previous := findLatest (heartbeat rt) (monId m) in
    let beatInterval := basicInterval m in
    let raised :=
      forall bean,
        attempt (patchTimeout m) previous beatInterval obs bean
        = Throw (Error "No heartbeat in the time window") bean in
    (raised <-> missedWindow m beatInterval obs previous)
    /\ (missedWindow m beatInterval obs previous ->
        exists b, stored (tick rt obs) = Some b
                  /\ msg b = Some "No heartbeat in the time window")
    /\ (forall pb,
          previous = Some pb ->
          ~ missedWindow m beatInterval obs previous ->
          let t := tick rt obs in
          retries (next t) = 0
          /\ heartbeatInterval t
             = Some (Z.max 0 (beatInterval * 1000 - (probeNow obs - hbTime pb)) + 1000)
          /\ stored t = None
          /\ heartbeat (next t) = heartbeat rt
          /\ effects t = []).
Proof.
  intros rt obs Ht Hm m previous beatInterval raised.
  destruct (patchTimeout_same m) as (Ty & _ & Up & _).
  assert (Ht' : monType (patchTimeout m) = "push") by (rewrite Ty; exact Ht).
  assert (Same : forall p, missedWindow (patchTimeout m) beatInterval obs p
                           <-> missedWindow m beatInterval obs p).
  { intros [pb|]; simpl; [rewrite Up|]; tauto. }
  split; [| split].
  - unfold raised. split.
    + intros R.
      destruct (missedWindow_dec m beatInterval obs previous) as [M|M]; [exact M|].
      exfalso. destruct previous as [pb|] eqn:P; [|apply M; exact I].
      set (b0 := {| monitor_id := 0; hbTime := 0; status := DOWN; msg := None;
                    ping := None; duration := 0; important := false;
                    downCount := 0 |}).
      specialize (R b0).
      rewrite tryBody_push in R by assumption.
      rewrite pushBranch_in_window in R by (now rewrite Same).
      discriminate R.
    + intros M bean. rewrite tryBody_push by assumption.
      apply pushBranch_missed. now apply Same.
  - intros M. unfold beat. fold m.
    rewrite previous_of_push by exact Ht. fold previous. fold beatInterval.
    rewrite tryBody_push by assumption.
    rewrite pushBranch_missed by (now apply Same).
    unfold catchBlock, afterTry. cbn [Error errName errMessage].
    change ("Error" =? "CanceledError")%string with false. cbv iota.
    match goal with
    | |- context [withMsg ?b (Some "No heartbeat in the time window")] =>
        set (b1 := withMsg b (Some "No heartbeat in the time window"))
    end.
    assert (K : forall b c, msg b = Some "No heartbeat in the time window" ->
              exists b',
                stored (let '(bean, fx) :=
                          importanceBlock (patchTimeout m)
                            match previous with Some _ => false | None => true end
                            (option_map status previous) (notificationList obs) b in
                        {| next := {| self := patchTimeout m; previousBeat := Some bean;
                                      retries := c; isStop := isStop rt;
                                      heartbeat := (heartbeat rt ++ [bean])%list |};
                           stored := Some bean;
                           heartbeatInterval :=
                             if isStop rt then None
                             else Some ((if status_eqb (status bean) PENDING
                                            && (0 <? retryInterval (patchTimeout m))
                                         then retryInterval (patchTimeout m)
                                         else beatInterval) * 1000);
                           effects := fx |}) = Some b'
                /\ msg b' = Some "No heartbeat in the time window").
    { intros b c Hb.
      match goal with
      | |- context [importanceBlock ?mm ?f ?p ?n b] =>
          pose proof (importanceBlock_keeps mm f p n b) as Kp;
          destruct (importanceBlock mm f p n b) as [b' fx]
      end.
      cbn in Kp. destruct Kp as (_ & Km & _).
      exists b'. split; [reflexivity | now rewrite Km]. }
    destruct (isUpsideDown (patchTimeout m) && status_eqb (status b1) UP).
    + apply K. reflexivity.
    + destruct ((0 <? maxretries (patchTimeout m))
                && (retries rt <? maxretries (patchTimeout m))).
      * apply K. reflexivity.
      * apply K. reflexivity.
  - intros pb P M t. unfold t, beat. fold m.
    rewrite previous_of_push by exact Ht. fold previous. fold beatInterval.
    rewrite tryBody_push by assumption.
    change (findLatest (heartbeat rt) (monId (self rt))) with previous.
    rewrite P in M |- *.
    rewrite pushBranch_in_window by (now rewrite Same).
    cbn. repeat split.
Qed.

(** ** What a tick does with the outcome of the [try] *)

Lemma importanceBlock_important m first prev providers bean :
  important (fst (importanceBlock m first prev providers bean))
  = isImportantBeat first prev (status bean).
Proof.
  unfold importanceBlock.
  destruct (isImportantBeat first prev (status bean)); cbn; [reflexivity|].
  destruct (status_eqb (status bean) DOWN && (0 <? resendInterval m)); cbn;
    [|reflexivity].
  destruct (resendInterval m <=? downCount bean + 1); reflexivity.
Qed.

Lemma afterTry_stored rt m previous bi obs bean count :
  let t := afterTry rt m previous bi obs bean count in
  let first := match previous with Some _ => false | None => true end in
  let b := fst (importanceBlock m first (option_map status previous)
                  (notificationList obs) bean) in
  stored t = Some b
  /\ effects t = snd (importanceBlock m first (option_map status previous)
                        (notificationList obs) bean)
  /\ next t = {| self := m; previousBeat := Some b; retries := count;
                 isStop := isStop rt; heartbeat := (heartbeat rt ++ [b])%list |}.
Proof.
  unfold afterTry.
  destruct (importanceBlock m _ _ _ bean) as [b fx]. cbn. repeat split.
Qed.

Lemma catchBlock_plain m count e bean :
  errName e = "Error" ->
  recover m count e bean
  = let bean := withMsg bean (Some (errMessage e)) in
    if isUpsideDown m && status_eqb (status bean) UP then (bean, 0)
    else if (0 <? maxretries m) && (count <? maxretries m)
         then (withStatus bean PENDING, count + 1)
         else (bean, count).
Proof. intros H. unfold catchBlock. now rewrite H. Qed.

(** ** Upside-down monitors *)

Lemma tryBody_http_flip m previous bi obs bean res :
  monType m = "http" ->
  isUpsideDown m = true ->
  underMaintenance obs = false ->
  axios obs = AxiosResolved res ->
  getCheckContentParameter m
    && (0 <? List.length (contentFields res))%nat
    && forallb snd (contentFields res) = false ->
  attempt m previous bi obs bean
  = Throw (Error "Flip UP to DOWN")
      (withStatus
         (withPing
            (withMsg bean
               (Some (string_of_Z (resStatus res) ++ " - " ++ resStatusText res)))
            (Some (elapsed obs)))
         DOWN).
Proof.
  intros Ht Hu Hm Ha Hc.
  unfold tryBody, dispatch, httpBranch. rewrite Hm, Ht, Ha, Hu.
  cbn [String.eqb Ascii.eqb Bool.eqb orb]. cbv iota.
  rewrite Hc. reflexivity.
Qed.

(** C8 (as the code has it). For an upside-down http monitor whose
    request comes back with an accepted response (e.g. 200), the flip
    turns UP into DOWN and raises "Flip UP to DOWN": the tick is that of
    a failed probe. The stored beat has that text as its whole message
    (the "200 - OK" line of the probe is overwritten), the probe's ping,
    and goes through the retry accounting of a failed probe: PENDING
    with [retries + 1] while retries are left, DOWN otherwise; its
    importance is that of this status. *)
Theorem upside_down_inversion :
  forall (rt : Runtime) (obs : Observations) (res : HttpResponse),
    monType (self rt) = "http" ->
    isUpsideDown (self rt) = true ->
    underMaintenance obs = false ->
    axios obs = AxiosResolved res ->
    getCheckContentParameter (self rt)
      && (0 <? List.length (contentFields res))%nat
      && forallb snd (contentFields res) = false ->
    let m := self rt in
    let previous := reloadPrevious rt in
    let first := match previous with Some _ => false | None => true end in
    let retry := (0 <? maxretries m) && (retries rt <? maxretries m) in
    let t := tick rt obs in
    probeFails monitorTypeList m obs
    /\ exists b,
        stored t = Some b
        /\ msg b = Some "Flip UP to DOWN"
        /\ ping b = Some (elapsed obs)
        /\ status b = (if retry then PENDING else DOWN)
        /\ retries (next t) = (if retry then retries rt + 1 else retries rt)
        /\ important b
           = isImportantBeat first (option_map status previous) (status b).
Proof.
  intros rt obs res Ht Hu Hm Ha Hc m previous first retry t.
  subst m first.
  split.
  { intros p bi.
    destruct (patchTimeout_same (self rt)) as (Ty & _ & Up & _ & _ & _ & _ & Cc).
    rewrite (tryBody_http_flip _ _ _ _ _ res);
      try assumption; try (rewrite ?Ty, ?Up, ?Cc; assumption).
    do 2 eexists. split; reflexivity. }
  destruct (patchTimeout_same (self rt)) as (Ty & _ & Up & Mx & _ & _ & _ & Cc).
  unfold t, beat. fold previous.
  rewrite (tryBody_http_flip _ _ _ _ _ res);
    try assumption; try (rewrite ?Ty, ?Up, ?Cc; assumption).
  rewrite catchBlock_plain by reflexivity.
  cbn [Error errMessage withMsg withStatus withPing status].
  rewrite Up, Hu, Mx. cbn [andb status_eqb statusCode Z.eqb].
  fold retry.
  destruct retry;
    match goal with
    | |- context [afterTry rt ?mm ?p ?bi ?o ?b ?c] =>
        destruct (afterTry_stored rt mm p bi o b c) as (S1 & _ & S3);
        pose proof (importanceBlock_keeps mm
                      match p with Some _ => false | None => true end
                      (option_map status p) (notificationList o) b) as K;
        pose proof (importanceBlock_important mm
                      match p with Some _ => false | None => true end
                      (option_map status p) (notificationList o) b) as I
    end;
    cbv zeta in K; destruct K as (Ks & Km & Kp & _);
    (eexists; split; [exact S1|]);
    rewrite S3, Ks, Km, Kp, I; cbn; repeat split.
Qed.

(** ** The down counter *)

Lemma sendNotification_no_log first m bean providers c e :
  ~ In (ResendLog c e) (sendNotification first m bean providers).
Proof.
  unfold sendNotification.
  destruct (negb first || status_eqb (status bean) DOWN); [|intros []].
  intros H. apply in_app_or in H. destruct H as [H|H].
  - unfold executePreCommand in H.
    destruct (status bean), (pre_up_command m) as [u|], (pre_down_command m) as [d|];
      cbn in H;
      repeat match type of H with
             | context [if ?x then _ else _] => destruct x; cbn in H
             end;
      try contradiction; destruct H as [H|[]]; discriminate H.
  - apply in_map_iff in H. destruct H as (n & H & _). discriminate H.
Qed.

Lemma importanceBlock_counter m first prev providers bean :
  CounterStep m first providers (downCount bean)
    (fst (importanceBlock m first prev providers bean))
    (snd (importanceBlock m first prev providers bean)).
Proof.
  unfold importanceBlock.
  destruct (isImportantBeat first prev (status bean)); cbn [fst snd].
  - apply StepImportant; [reflexivity | reflexivity |].
    intros c e. destruct (isImportantForNotification _ _ _).
    + apply sendNotification_no_log.
    + intros [].
  - cbn [status withImportant].
    destruct (status_eqb (status bean) DOWN && (0 <? resendInterval m)) eqn:E;
      cbn [fst snd].
    + apply andb_true_iff in E. destruct E as [_ E]. apply Z.ltb_lt in E.
      cbn [downCount withDownCount withImportant].
      destruct (resendInterval m <=? downCount bean + 1) eqn:L; cbn [fst snd].
      * apply Z.leb_le in L. now apply StepResend.
      * apply Z.leb_gt in L. now apply StepCount.
    + now apply StepKeep.
Qed.

Lemma groupBranch_counters kids bean :
  downCount (groupBranch kids bean) = downCount bean.
Proof.
  unfold groupBranch. destruct (0 <? List.length kids)%nat; [|reflexivity].
  now destruct (negb _).
Qed.

Lemma tryBody_counters m previous bi obs bean :
  match attempt m previous bi obs bean with
  | Normal b | Throw _ b => downCount b = downCount bean
  | Return _ => True
  end.
Proof.
  assert (D : match dispatch monitorTypeList m previous bi obs bean with
              | Normal b | Throw _ b => downCount b = downCount bean
              | Return _ => True
              end).
  { unfold dispatch.
    destruct (underMaintenance obs); [reflexivity|].
    destruct (monType m =? "group")%string; [apply groupBranch_counters|].
    destruct ((monType m =? "http") || (monType m =? "keyword")
              || (monType m =? "json-query"))%string.
    { unfold httpBranch. destruct (axios obs) as [e|res]; [reflexivity|].
      destruct (monType m =? "http")%string.
      - now destruct (getCheckContentParameter m && _ && _).
      - destruct (monType m =? "keyword")%string.
        + now destruct (Bool.eqb _ _).
        + now destruct (jsonataResult res =? expectedValue m)%string. }
    destruct (monType m =? "push")%string.
    { rewrite pushBranch_cases. destruct previous as [pb|]; [|reflexivity].
      now destruct (negb _ || _). }
    destruct (monType m =? "grpc-keyword")%string.
    { unfold grpcBranch. destruct (grpc obs) as [e|response]; [reflexivity|].
      destruct (negb _); [reflexivity|]. now destruct (Bool.eqb _ _). }
    destruct (mem (monType m) builtinDrivers || mem (monType m) monitorTypeList);
      [|now destruct (mem (monType m) inheritedNames)].
    unfold driverBranch.
    destruct (setsStatus (driver obs)), (setsMsg (driver obs)),
      (setsPing (driver obs)), (raises (driver obs)); reflexivity. }
  unfold tryBody.
  destruct (dispatch monitorTypeList m previous bi obs bean) as [b|e b|d];
    try exact D.
  destruct (isUpsideDown m); [|exact D].
  now destruct (status_eqb _ DOWN).
Qed.

Lemma catchBlock_counters m count e bean :
  downCount (fst (recover m count e bean)) = downCount bean.
Proof.
  unfold catchBlock.
  destruct (errName e =? "CanceledError")%string;
    (destruct (isUpsideDown m && _); [reflexivity|]);
    now destruct ((0 <? maxretries m) && (count <? maxretries m)).
Qed.

(** Every tick either returns early (push inside its window) and leaves
    the table alone, or stores one bean whose counter comes from the
    counter of the previous beat by one [CounterStep]. *)
Lemma tick_counter rt obs :
  let t := tick rt obs in
  let previous := reloadPrevious rt in
  let first := match previous with Some _ => false | None => true end in
  let d := match previous with Some pb => downCount pb | None => 0 end in
  self (next t) = patchTimeout (self rt)
  /\ ((stored t = None /\ effects t = [] /\ heartbeat (next t) = heartbeat rt
       /\ previousBeat (next t) = previous)
      \/ (exists b,
            stored t = Some b
            /\ heartbeat (next t) = (heartbeat rt ++ [b])%list
            /\ previousBeat (next t) = Some b
            /\ CounterStep (patchTimeout (self rt)) first (notificationList obs) d b
                 (effects t))).
Proof.
  intros t previous first d. unfold t, beat. fold previous.
  pose proof (tryBody_counters (patchTimeout (self rt)) previous
                (basicInterval (self rt)) obs (dispense (self rt) previous obs)) as C.
  destruct (attempt (patchTimeout (self rt)) previous (basicInterval (self rt)) obs
              (dispense (self rt) previous obs)) as [b|e b|delay].
  - destruct (afterTry_stored rt (patchTimeout (self rt)) previous
                (basicInterval (self rt)) obs b 0) as (S1 & S2 & S3).
    rewrite S3. split; [reflexivity|]. right. eexists. split; [exact S1|].
    split; [reflexivity|]. split; [reflexivity|].
    rewrite S2. replace d with (downCount b) by (rewrite C; reflexivity).
    apply importanceBlock_counter.
  - pose proof (catchBlock_counters (patchTimeout (self rt)) (retries rt) e b) as K.
    destruct (recover (patchTimeout (self rt)) (retries rt) e b) as [b' c].
    cbn [fst] in K.
    destruct (afterTry_stored rt (patchTimeout (self rt)) previous
                (basicInterval (self rt)) obs b' c) as (S1 & S2 & S3).
    rewrite S3. split; [reflexivity|]. right. eexists. split; [exact S1|].
    split; [reflexivity|]. split; [reflexivity|].
    rewrite S2. replace d with (downCount b') by (rewrite K, C; reflexivity).
    apply importanceBlock_counter.
  - split; [reflexivity|]. left. repeat split.
Qed.

Lemma newest_In rows r : newest rows = Some r -> In r rows.
Proof.
  revert r. induction rows as [|x rows IH]; intros r H; [discriminate|].
  simpl in H. destruct (newest rows) as [r'|].
  - destruct (hbTime r' <? hbTime x).
    + injection H as <-. now left.
    + injection H as <-. right. now apply IH.
  - injection H as <-. now left.
Qed.

Lemma findLatest_In table monitorID r :
  findLatest table monitorID = Some r -> In r table /\ monitor_id r = monitorID.
Proof.
  unfold findLatest. intros H. apply newest_In in H.
  apply filter_In in H. destruct H as [H E]. split; [exact H|].
  now apply Z.eqb_eq in E.
Qed.

Lemma reloadPrevious_below rt pb :
  countersBelow rt -> reloadPrevious rt = Some pb ->
  0 <= downCount pb < resendInterval (self rt).
Proof.
  intros [Ht Hp] H. unfold reloadPrevious in H.
  destruct (previousBeat rt) as [p|].
  - destruct (monType (self rt) =? "push")%string.
    + apply findLatest_In in H. destruct H. now apply Ht.
    + injection H as <-. now apply Hp.
  - apply findLatest_In in H. destruct H. now apply Ht.
Qed.

Lemma importanceBlock_law m first prev providers bean :
  0 < resendInterval m ->
  let b := fst (importanceBlock m first prev providers bean) in
  let fx := snd (importanceBlock m first prev providers bean) in
  let d := downCount bean in
  (important b = true -> downCount b = 0 /\ forall c e, ~ In (ResendLog c e) fx)
  /\ (important b = false -> status b <> DOWN -> downCount b = d /\ fx = [])
  /\ (important b = false -> status b = DOWN -> d + 1 < resendInterval m ->
      downCount b = d + 1 /\ fx = [])
  /\ (important b = false -> status b = DOWN -> resendInterval m <= d + 1 ->
      downCount b = 0
      /\ fx = ResendLog (d + 1) (resendInterval m)
               :: sendNotification false m b providers).
Proof.
  intros Hr. cbv zeta. unfold importanceBlock.
  assert (P : (0 <? resendInterval m) = true) by now apply Z.ltb_lt.
  destruct (isImportantBeat first prev (status bean)) eqn:I; cbn [fst snd].
  - cbn [important status downCount withDownCount withImportant].
    split; [|repeat split; discriminate].
    intros _. split; [reflexivity|].
    intros c e. destruct (isImportantForNotification _ _ _).
    + apply sendNotification_no_log.
    + intros [].
  - assert (F : first = false) by (destruct first; [discriminate I | reflexivity]).
    subst first. cbn [status withImportant]. rewrite P, andb_true_r.
    destruct (status_eqb (status bean) DOWN) eqn:Sd; cbn [fst snd].
    + cbn [downCount withDownCount withImportant].
      destruct (resendInterval m <=? downCount bean + 1) eqn:L; cbn [fst snd];
        cbn [important status downCount withDownCount withImportant].
      * apply Z.leb_le in L. apply status_eqb_eq in Sd.
        split; [discriminate|]. split; [intros _ N; contradiction|].
        split; [intros _ _ G; lia|]. intros _ _ _. split; reflexivity.
      * apply Z.leb_gt in L.
        split; [discriminate|]. apply status_eqb_eq in Sd.
        split; [intros _ N; contradiction|].
        split; [intros _ _ _; split; reflexivity|]. intros _ _ G. lia.
    + cbn [important status downCount withDownCount withImportant].
      split; [discriminate|]. split; [intros _ _; split; reflexivity|].
      split; intros _ G; rewrite G in Sd; discriminate Sd.
Qed.

(** Every tick either returns early (push inside its window) and leaves
    the table alone, or hands a bean with the counter of the previous
    beat to the importance block and stores what the block returns. *)
Lemma tick_block rt obs :
  let t := tick rt obs in
  let previous := reloadPrevious rt in
  let first := match previous with Some _ => false | None => true end in
  let d := match previous with Some pb => downCount pb | None => 0 end in
  self (next t) = patchTimeout (self rt)
  /\ ((stored t = None /\ effects t = [] /\ heartbeat (next t) = heartbeat rt
       /\ previousBeat (next t) = previous)
      \/ (exists x,
            let r := importanceBlock (patchTimeout (self rt)) first
                       (option_map status previous) (notificationList obs) x in
            downCount x = d
            /\ stored t = Some (fst r)
            /\ effects t = snd r
            /\ heartbeat (next t) = (heartbeat rt ++ [fst r])%list
            /\ previousBeat (next t) = Some (fst r))).
Proof.
  intros t previous first d. unfold t, beat. fold previous.
  pose proof (tryBody_counters (patchTimeout (self rt)) previous
                (basicInterval (self rt)) obs (dispense (self rt) previous obs)) as C.
  destruct (attempt (patchTimeout (self rt)) previous (basicInterval (self rt)) obs
              (dispense (self rt) previous obs)) as [b|e b|delay].
  - destruct (afterTry_stored rt (patchTimeout (self rt)) previous
                (basicInterval (self rt)) obs b 0) as (S1 & S2 & S3).
    rewrite S3. split; [reflexivity|]. right. exists b.
    cbv zeta. cbn [heartbeat previousBeat].
    split; [rewrite C; reflexivity|]. repeat split; assumption.
  - pose proof (catchBlock_counters (patchTimeout (self rt)) (retries rt) e b) as K.
    destruct (recover (patchTimeout (self rt)) (retries rt) e b) as [b' c].
    cbn [fst] in K.
    destruct (afterTry_stored rt (patchTimeout (self rt)) previous
                (basicInterval (self rt)) obs b' c) as (S1 & S2 & S3).
    rewrite S3. split; [reflexivity|]. right. exists b'.
    cbv zeta. cbn [heartbeat previousBeat].
    split; [rewrite K, C; reflexivity|]. repeat split; assumption.
  - split; [reflexivity|]. left. repeat split.
Qed.

Lemma tick_law rt obs :
  0 < resendInterval (self rt) ->
  countersBelow rt ->
  counterLaw (resendInterval (self rt)) (reloadPrevious rt) obs (tick rt obs)
  /\ countersBelow (next (tick rt obs))
  /\ resendInterval (self (next (tick rt obs))) = resendInterval (self rt).
Proof.
  intros Hr Inv.
  destruct (tick_block rt obs) as (Hs & Hc).
  destruct (patchTimeout_same (self rt)) as (_ & Id & _ & _ & Rs & _).
  assert (D : 0 <= match reloadPrevious rt with
                   | Some pb => downCount pb | None => 0 end
              < resendInterval (self rt)).
  { destruct (reloadPrevious rt) as [pb|] eqn:P; [|lia].
    now apply (reloadPrevious_below rt pb). }
  destruct Hc as [(S1 & S2 & S3 & S4) | (x & Dx & S1 & S2 & S3 & S4)].
  - split; [| split].
    + unfold counterLaw. rewrite S1. exact S2.
    + unfold countersBelow. rewrite Hs, Rs, Id, S3, S4. split; [apply Inv|].
      intros pb H. now apply (reloadPrevious_below rt pb).
    + now rewrite Hs, Rs.
  - destruct (importanceBlock_law (patchTimeout (self rt))
                match reloadPrevious rt with Some _ => false | None => true end
                (option_map status (reloadPrevious rt)) (notificationList obs) x)
      as (Li & Lk & Lc & Lr); [now rewrite Rs|].
    set (b := fst (importanceBlock (patchTimeout (self rt))
                     match reloadPrevious rt with Some _ => false | None => true end
                     (option_map status (reloadPrevious rt))
                     (notificationList obs) x)) in *.
    rewrite Dx in Lk, Lc, Lr. rewrite Rs in Lc, Lr.
    assert (B : 0 <= downCount b < resendInterval (self rt)).
    { destruct (important b) eqn:I.
      - destruct (Li eq_refl) as [-> _]. lia.
      - destruct (status_eqb (status b) DOWN) eqn:Sd.
        + apply status_eqb_eq in Sd.
          destruct (Z_lt_dec
                      (match reloadPrevious rt with
                       | Some pb => downCount pb | None => 0 end + 1)
                      (resendInterval (self rt))) as [G|G].
          * destruct (Lc eq_refl Sd G) as [-> _]. lia.
          * destruct (Lr eq_refl Sd ltac:(lia)) as [-> _]. lia.
        + assert (N : status b <> DOWN)
            by (intros G; rewrite G in Sd; discriminate Sd).
          destruct (Lk eq_refl N) as [-> _]. lia. }
    split; [| split].
    + unfold counterLaw. rewrite S1. split; [exact B|].
      split; [intros I; rewrite S2; now apply Li|].
      split; [intros I N; rewrite S2; now apply Lk|].
      split; [intros I Sd G; rewrite S2; now apply Lc|].
      intros I Sd G. destruct (Lr I Sd G) as [Z0 Fx].
      assert (Eq : match reloadPrevious rt with
                   | Some pb => downCount pb | None => 0 end + 1
                   = resendInterval (self rt)) by lia.
      split; [exact Eq|]. split; [exact Z0|].
      rewrite S2, Fx, Eq, Hs. reflexivity.
    + unfold countersBelow. rewrite Hs, Rs, Id, S3, S4. split.
      * intros hb H G. apply in_app_or in H. destruct H as [H|[<-|[]]].
        -- exact (proj1 Inv hb H G).
        -- exact B.
      * intros pb H. now injection H as <-.
    + now rewrite Hs, Rs.
Qed.

(** C5 (as the code has it). With [resendInterval > 0], along every
    sequence of ticks of a runtime whose readable counters start within
    [0, resendInterval) (in particular a monitor with no heartbeat yet),
    every tick keeps the law of the counter: the stored counter is
    within [0, resendInterval); an important beat stores 0; a beat that
    is not important and not DOWN keeps the counter of the previous
    beat; a DOWN beat that is not important counts one up, and when the
    count reaches [resendInterval] (it never goes beyond) the
    notifications are sent again to every provider, after the log line
    with that count, and 0 is stored. The [i]-th tick starts from the
    runtime the first [i] ticks left. *)
Theorem downCount_invariant :
  forall (rt : Runtime) (observed : list Observations),
    0 < resendInterval (self rt) ->
    countersBelow rt ->
    forall (i : nat) (o : Observations),
      nth_error observed i = Some o ->
      let before :=
        runtimeAfter demoMode numberToString monitorTypeList rt (firstn i observed) in
      nth_error (ticks rt observed) i = Some (tick before o)
      /\ counterLaw (resendInterval (self rt)) (reloadPrevious before) o
           (tick before o).
Proof.
  intros rt observed. revert rt.
  induction observed as [|obs rest IH]; intros rt Hr Inv i o Hn.
  - destruct i; discriminate Hn.
  - destruct (tick_law rt obs Hr Inv) as (L & Inv' & Rs).
    destruct i as [|i].
    + injection Hn as <-. cbn [firstn runtimeAfter fold_left run nth_error].
      split; [reflexivity | exact L].
    + cbn [nth_error] in Hn.
      cbn [firstn run nth_error]. unfold runtimeAfter. cbn [fold_left].
      fold (runtimeAfter demoMode numberToString monitorTypeList
              (next (tick rt obs)) (firstn i rest)).
      rewrite <- Rs. apply IH; [rewrite Rs; exact Hr | exact Inv' | exact Hn].
Qed.

(** ** Retries *)

Lemma catchBlock_down m count e bean :
  status bean = DOWN ->
  let retry := (0 <? maxretries m) && (count <? maxretries m) in
  status (fst (recover m count e bean)) = (if retry then PENDING else DOWN)
  /\ snd (recover m count e bean) = (if retry then count + 1 else count).
Proof.
  intros Hs retry. unfold catchBlock.
  destruct (errName e =? "CanceledError")%string;
    cbn [status withMsg]; rewrite Hs;
    cbn [status_eqb statusCode Z.eqb]; rewrite andb_false_r; fold retry;
    destruct retry; cbn [fst snd status withStatus withMsg];
    rewrite ?Hs; split; reflexivity.
Qed.

Lemma tick_of_throw rt obs e b :
  attempt (patchTimeout (self rt)) (reloadPrevious rt) (basicInterval (self rt)) obs
    (dispense (self rt) (reloadPrevious rt) obs) = Throw e b ->
  status b = DOWN ->
  let retry := (0 <? maxretries (self rt)) && (retries rt <? maxretries (self rt)) in
  let first := match reloadPrevious rt with Some _ => false | None => true end in
  exists b',
    stored (tick rt obs) = Some b'
    /\ next (tick rt obs)
       = {| self := patchTimeout (self rt); previousBeat := Some b';
            retries := if retry then retries rt + 1 else retries rt;
            isStop := isStop rt; heartbeat := (heartbeat rt ++ [b'])%list |}
    /\ status b' = (if retry then PENDING else DOWN)
    /\ important b'
       = isImportantBeat first (option_map status (reloadPrevious rt)) (status b').
Proof.
  intros A Sb retry first.
  destruct (patchTimeout_same (self rt)) as (_ & _ & _ & Mx & _).
  unfold beat. rewrite A.
  destruct (catchBlock_down (patchTimeout (self rt)) (retries rt) e b Sb) as [Cs Cc].
  rewrite Mx in Cs, Cc. fold retry in Cs, Cc.
  destruct (recover (patchTimeout (self rt)) (retries rt) e b) as [b1 c].
  cbn [fst snd] in Cs, Cc. subst c.
  match goal with
  | |- context [afterTry rt ?mm ?p ?bi ?o ?x ?c] =>
      destruct (afterTry_stored rt mm p bi o x c) as (S1 & _ & S3);
      pose proof (importanceBlock_keeps mm first (option_map status p)
                    (notificationList o) x) as K;
      pose proof (importanceBlock_important mm first (option_map status p)
                    (notificationList o) x) as I
  end.
  cbv zeta in K. destruct K as (Ks & _).
  eexists. split; [exact S1|]. split; [exact S3|].
  fold first. rewrite Ks, I, Cs. split; reflexivity.
Qed.

Lemma tick_of_normal rt obs b :
  attempt (patchTimeout (self rt)) (reloadPrevious rt) (basicInterval (self rt)) obs
    (dispense (self rt) (reloadPrevious rt) obs) = Normal b ->
  let first := match reloadPrevious rt with Some _ => false | None => true end in
  exists b',
    stored (tick rt obs) = Some b'
    /\ next (tick rt obs)
       = {| self := patchTimeout (self rt); previousBeat := Some b'; retries := 0;
            isStop := isStop rt; heartbeat := (heartbeat rt ++ [b'])%list |}
    /\ status b' = status b
    /\ important b'
       = isImportantBeat first (option_map status (reloadPrevious rt)) (status b').
Proof.
  intros A first. unfold beat. rewrite A.
  match goal with
  | |- context [afterTry rt ?mm ?p ?bi ?o ?x ?c] =>
      destruct (afterTry_stored rt mm p bi o x c) as (S1 & _ & S3);
      pose proof (importanceBlock_keeps mm first (option_map status p)
                    (notificationList o) x) as K;
      pose proof (importanceBlock_important mm first (option_map status p)
                    (notificationList o) x) as I
  end.
  cbv zeta in K. destruct K as (Ks & _).
  eexists. split; [exact S1|]. split; [exact S3|].
  fold first. rewrite Ks, I. split; reflexivity.
Qed.

Lemma patchTimeout_idem m : patchTimeout (patchTimeout m) = patchTimeout m.
Proof.
  destruct (timeout m) as [t|] eqn:E; [destruct (Qle_bool t 0) eqn:L|].
  - unfold patchTimeout at 2 3. rewrite E, L.
    unfold patchTimeout. cbn [timeout setTimeout_ interval].
    destruct (Qle_bool (inject_Z (interval m) * 1000 * (8 # 10)) 0); reflexivity.
  - unfold patchTimeout at 2 3. rewrite E, L.
    unfold patchTimeout. now rewrite E, L.
  - unfold patchTimeout at 2 3. rewrite E.
    unfold patchTimeout. cbn [timeout setTimeout_ interval].
    destruct (Qle_bool (inject_Z (interval m) * 1000 * (8 # 10)) 0); reflexivity.
Qed.

Lemma dispense_patch m previous obs :
  dispense (patchTimeout m) previous obs = dispense m previous obs.
Proof.
  destruct (patchTimeout_same m) as (_ & Id & Up & _).
  unfold dispense. now rewrite Id, Up.
Qed.

Lemma probeFails_patch m obs :
  probeFails monitorTypeList m obs -> probeFails monitorTypeList (patchTimeout m) obs.
Proof.
  intros H previous bi. rewrite patchTimeout_idem, dispense_patch. apply H.
Qed.

Lemma probeSucceeds_patch m obs :
  probeSucceeds monitorTypeList m obs ->
  probeSucceeds monitorTypeList (patchTimeout m) obs.
Proof.
  intros H previous bi. rewrite patchTimeout_idem, dispense_patch. apply H.
Qed.

Lemma builtin_not_special ty :
  mem ty builtinDrivers = true ->
  (ty =? "group")%string = false
  /\ ((ty =? "http") || (ty =? "keyword") || (ty =? "json-query"))%string = false
  /\ (ty =? "push")%string = false
  /\ (ty =? "grpc-keyword")%string = false.
Proof.
  intros H. unfold mem in H. apply existsb_exists in H.
  destruct H as (x & Hin & Heq). apply String.eqb_eq in Heq. subst x.
  cbn in Hin.
  repeat (destruct Hin as [<- | Hin]; [repeat split; reflexivity|]).
  destruct Hin.
Qed.

Lemma dispatch_driver m previous bi obs bean :
  mem (monType m) builtinDrivers = true ->
  underMaintenance obs = false ->
  dispatch monitorTypeList m previous bi obs bean = driverBranch obs bean.
Proof.
  intros H Hm. destruct (builtin_not_special _ H) as (G & W & P & R).
  unfold dispatch. now rewrite Hm, G, W, P, R, H.
Qed.

(** A driver that raises without touching the status, on a monitor that
    is not upside-down, is a failed probe. *)
Lemma driver_raise_fails m obs :
  mem (monType m) builtinDrivers = true ->
  isUpsideDown m = false ->
  underMaintenance obs = false ->
  setsStatus (driver obs) = None \/ setsStatus (driver obs) = Some DOWN ->
  raises (driver obs) <> None ->
  probeFails monitorTypeList m obs.
Proof.
  intros Ty Hu Hm Hs Hr previous bi.
  destruct (patchTimeout_same m) as (Ty' & _ & _).
  unfold tryBody. rewrite dispatch_driver by (rewrite ?Ty'; assumption).
  unfold driverBranch, dispense. rewrite Hu.
  destruct (raises (driver obs)) as [e|]; [|congruence].
  exists e.
  destruct Hs as [-> | ->];
    destruct (setsMsg (driver obs)), (setsPing (driver obs));
    eexists; split; reflexivity.
Qed.

(** A driver that finishes with the status UP is a successful probe. *)
Lemma driver_up_succeeds m obs :
  mem (monType m) builtinDrivers = true ->
  isUpsideDown m = false ->
  underMaintenance obs = false ->
  setsStatus (driver obs) = Some UP ->
  raises (driver obs) = None ->
  probeSucceeds monitorTypeList m obs.
Proof.
  intros Ty Hu Hm Hs Hr previous bi.
  destruct (patchTimeout_same m) as (Ty' & _ & Up & _).
  unfold tryBody. rewrite dispatch_driver by (rewrite ?Ty'; assumption).
  unfold driverBranch. rewrite Hs, Hr, Up, Hu.
  destruct (setsMsg (driver obs)), (setsPing (driver obs));
    eexists; split; reflexivity.
Qed.

(** A request that is rejected is a failed probe of an http monitor. *)
Lemma http_rejection_fails m obs e :
  monType m = "http" ->
  isUpsideDown m = false ->
  underMaintenance obs = false ->
  axios obs = AxiosRejected e ->
  probeFails monitorTypeList m obs.
Proof.
  intros Ty Hu Hm Ha previous bi.
  destruct (patchTimeout_same m) as (Ty' & _ & _).
  unfold tryBody, dispatch, httpBranch. rewrite Hm, Ty', Ty, Ha.
  cbn [String.eqb Ascii.eqb Bool.eqb orb]. cbv iota.
  exists e. eexists. split; [reflexivity|].
  unfold dispense. now rewrite Hu.
Qed.

(** An accepted response is a successful probe of an http monitor (the
    content check, when enabled, not finding every field null). *)
Lemma http_accepted_succeeds m obs res :
  monType m = "http" ->
  isUpsideDown m = false ->
  underMaintenance obs = false ->
  axios obs = AxiosResolved res ->
  getCheckContentParameter m
    && (0 <? List.length (contentFields res))%nat
    && forallb snd (contentFields res) = false ->
  probeSucceeds monitorTypeList m obs.
Proof.
  intros Ty Hu Hm Ha Hc previous bi.
  destruct (patchTimeout_same m) as (Ty' & _ & Up & _ & _ & _ & _ & Cc).
  unfold tryBody, dispatch, httpBranch. rewrite Hm, Ty', Ty, Ha, Up, Hu, Cc.
  cbn [String.eqb Ascii.eqb Bool.eqb orb]. cbv iota.
  rewrite Hc. eexists. split; reflexivity.
Qed.

Lemma patchTimeout_keyword m :
  keyword (patchTimeout m) = keyword m
  /\ isInvertKeyword (patchTimeout m) = isInvertKeyword m.
Proof.
  unfold patchTimeout.
  destruct (timeout m) as [t|]; [destruct (Qle_bool t 0)|]; split; reflexivity.
Qed.

(** A call of a grpc-keyword monitor that is not answered as asked
    leaves the bean DOWN and raises nothing. *)
Lemma grpc_failure_settles m obs :
  monType m = "grpc-keyword" ->
  isUpsideDown m = false ->
  grpcFails m obs ->
  probeSettlesDown monitorTypeList m obs.
Proof.
  intros Ty Hu (Hm & response & Hg & Hf) previous bi.
  destruct (patchTimeout_same m) as (Ty' & _ & Up & _).
  destruct (patchTimeout_keyword m) as (Kw & Iv).
  unfold tryBody, dispatch, grpcBranch. rewrite Hm, Ty', Ty, Hg, Up, Hu, Kw, Iv.
  cbn [String.eqb Ascii.eqb Bool.eqb orb]. cbv iota.
  destruct (grpcCode response =? 1) eqn:C; cbn [negb].
  - apply Z.eqb_eq in C. destruct Hf as [Hf | Hf]; [contradiction|].
    rewrite Hf. destruct (isInvertKeyword m); cbn [Bool.eqb negb];
      eexists; split; reflexivity.
  - eexists. split; reflexivity.
Qed.

(** A call that is answered as asked is a successful probe. *)
Lemma grpc_answer_succeeds m obs :
  monType m = "grpc-keyword" ->
  isUpsideDown m = false ->
  grpcSucceeds m obs ->
  probeSucceeds monitorTypeList m obs.
Proof.
  intros Ty Hu (Hm & response & Hg & Hc & Hk) previous bi.
  destruct (patchTimeout_same m) as (Ty' & _ & Up & _).
  destruct (patchTimeout_keyword m) as (Kw & Iv).
  unfold tryBody, dispatch, grpcBranch. rewrite Hm, Ty', Ty, Hg, Up, Hu, Kw, Iv, Hc, Hk.
  cbn [String.eqb Ascii.eqb Bool.eqb orb Z.eqb Pos.eqb negb]. cbv iota.
  rewrite Bool.eqb_reflx. eexists. split; reflexivity.
Qed.

Lemma probeSettlesDown_patch m obs :
  probeSettlesDown monitorTypeList m obs ->
  probeSettlesDown monitorTypeList (patchTimeout m) obs.
Proof.
  intros H previous bi. rewrite patchTimeout_idem, dispense_patch. apply H.
Qed.

Lemma reloadPrevious_kept rt pb :
  monType (self rt) <> "push" ->
  previousBeat rt = Some pb -> reloadPrevious rt = Some pb.
Proof.
  intros H P. unfold reloadPrevious. rewrite P.
  destruct (monType (self rt) =? "push")%string eqn:E; [|reflexivity].
  apply String.eqb_eq in E. contradiction.
Qed.

Lemma tick_fail rt obs n :
  maxretries (self rt) = n ->
  probeFails monitorTypeList (self rt) obs ->
  let retry := (0 <? n) && (retries rt <? n) in
  let first := match reloadPrevious rt with Some _ => false | None => true end in
  exists b,
    stored (tick rt obs) = Some b
    /\ next (tick rt obs)
       = {| self := patchTimeout (self rt); previousBeat := Some b;
            retries := if retry then retries rt + 1 else retries rt;
            isStop := isStop rt; heartbeat := (heartbeat rt ++ [b])%list |}
    /\ status b = (if retry then PENDING else DOWN)
    /\ important b
       = isImportantBeat first (option_map status (reloadPrevious rt)) (status b).
Proof.
  intros Mx F retry first.
  destruct (F (reloadPrevious rt) (basicInterval (self rt))) as (e & b & A & Sb).
  destruct (tick_of_throw rt obs e b A Sb) as (b' & S1 & S3 & St & Im).
  rewrite Mx in S3, St. fold retry in S3, St.
  exists b'. repeat split; assumption.
Qed.

Lemma tick_ok rt obs :
  probeSucceeds monitorTypeList (self rt) obs ->
  let first := match reloadPrevious rt with Some _ => false | None => true end in
  exists b,
    stored (tick rt obs) = Some b
    /\ next (tick rt obs)
       = {| self := patchTimeout (self rt); previousBeat := Some b; retries := 0;
            isStop := isStop rt; heartbeat := (heartbeat rt ++ [b])%list |}
    /\ status b = UP
    /\ important b
       = isImportantBeat first (option_map status (reloadPrevious rt)) (status b).
Proof.
  intros F first.
  destruct (F (reloadPrevious rt) (basicInterval (self rt))) as (b & A & Sb).
  destruct (tick_of_normal rt obs b A) as (b' & S1 & S3 & St & Im).
  rewrite Sb in St.
  exists b'. repeat split; assumption.
Qed.

Lemma tick_settled rt obs :
  probeSettlesDown monitorTypeList (self rt) obs ->
  let first := match reloadPrevious rt with Some _ => false | None => true end in
  exists b,
    stored (tick rt obs) = Some b
    /\ next (tick rt obs)
       = {| self := patchTimeout (self rt); previousBeat := Some b; retries := 0;
            isStop := isStop rt; heartbeat := (heartbeat rt ++ [b])%list |}
    /\ status b = DOWN
    /\ important b
       = isImportantBeat first (option_map status (reloadPrevious rt)) (status b).
Proof.
  intros F first.
  destruct (F (reloadPrevious rt) (basicInterval (self rt))) as (b & A & Sb).
  destruct (tick_of_normal rt obs b A) as (b' & S1 & S3 & St & Im).
  rewrite Sb in St.
  exists b'. repeat split; assumption.
Qed.

(** The trajectory of the specification, for every probe that fails by
    raising. A monitor with interval 60, maxretries 2, retryInterval 30
    and resendInterval 0 that has no heartbeat yet (and is not of the
    push type, whose probe is the arrival of a heartbeat), probed with
    the outcomes fail, fail, fail, success, stores beats of status
    PENDING, PENDING, DOWN, UP with important flags true, false, true,
    true; its retries counter goes 1, 2, 2 and ends at 0. *)
Theorem flap_with_retries :
  forall (m : Monitor) (table : list Heartbeat) (o1 o2 o3 o4 : Observations),
    interval m = 60 -> maxretries m = 2 -> retryInterval m = 30 ->
    resendInterval m = 0 ->
    monType m <> "push" ->
    findLatest table (monId m) = None ->
    probeFails monitorTypeList m o1 ->
    probeFails monitorTypeList m o2 ->
    probeFails monitorTypeList m o3 ->
    probeSucceeds monitorTypeList m o4 ->
    let beats := ticks (start m table) [o1; o2; o3; o4] in
    map (fun t => option_map status (stored t)) beats
    = [Some PENDING; Some PENDING; Some DOWN; Some UP]
    /\ map (fun t => option_map important (stored t)) beats
       = [Some true; Some false; Some true; Some true]
    /\ map (fun t => retries (next t)) beats = [1; 2; 2; 0].
Proof.
  intros m table o1 o2 o3 o4 _ Mx _ _ Ty Fresh F1 F2 F3 F4 beats.
  destruct (patchTimeout_same m) as (Ty' & _ & _ & Mx' & _).
  assert (P0 : reloadPrevious (start m table) = None).
  { unfold reloadPrevious, start. cbn. exact Fresh. }
  unfold beats. cbn [run map].
  (* first beat *)
  destruct (tick_fail (start m table) o1 2 Mx F1) as (b1 & S1 & N1 & St1 & I1).
  rewrite P0 in I1. cbn in St1, N1. rewrite St1 in I1. cbn in I1.
  set (rt1 := next (tick (start m table) o1)) in *.
  assert (E1 : self rt1 = patchTimeout m) by now rewrite N1.
  assert (P1 : reloadPrevious rt1 = Some b1).
  { apply reloadPrevious_kept; [now rewrite E1, Ty' | now rewrite N1]. }
  assert (R1 : retries rt1 = 1) by now rewrite N1.
  (* second beat *)
  destruct (tick_fail rt1 o2 2) as (b2 & S2 & N2 & St2 & I2);
    [now rewrite E1, Mx' | rewrite E1; now apply probeFails_patch |].
  rewrite P1, R1 in *. cbn in St2, N2. rewrite St2 in I2. cbn in I2.
  rewrite St1 in I2. cbn in I2.
  set (rt2 := next (tick rt1 o2)) in *.
  assert (E2 : self rt2 = patchTimeout m).
  { rewrite N2. cbn [self]. rewrite E1. apply patchTimeout_idem. }
  assert (P2 : reloadPrevious rt2 = Some b2).
  { apply reloadPrevious_kept; [now rewrite E2, Ty' | now rewrite N2]. }
  assert (R2 : retries rt2 = 2) by now rewrite N2.
  (* third beat *)
  destruct (tick_fail rt2 o3 2) as (b3 & S3 & N3 & St3 & I3);
    [now rewrite E2, Mx' | rewrite E2; now apply probeFails_patch |].
  rewrite P2, R2 in *. cbn in St3, N3. rewrite St3 in I3. cbn in I3.
  rewrite St2 in I3. cbn in I3.
  set (rt3 := next (tick rt2 o3)) in *.
  assert (E3 : self rt3 = patchTimeout m).
  { rewrite N3. cbn [self]. rewrite E2. apply patchTimeout_idem. }
  assert (P3 : reloadPrevious rt3 = Some b3).
  { apply reloadPrevious_kept; [now rewrite E3, Ty' | now rewrite N3]. }
  assert (R3 : retries rt3 = 2) by now rewrite N3.
  (* fourth beat *)
  destruct (tick_ok rt3 o4) as (b4 & S4 & N4 & St4 & I4);
    [rewrite E3; now apply probeSucceeds_patch |].
  rewrite P3 in *. rewrite St4 in I4. cbn in I4. rewrite St3 in I4. cbn in I4.
  assert (R4 : retries (next (tick rt3 o4)) = 0) by now rewrite N4.
  rewrite S1, S2, S3, S4, ?R1, ?R2, ?R3, ?R4. cbn [option_map].
  rewrite St1, St2, St3, St4, I1, I2, I3, I4. repeat split.
Qed.

(** C4 (where the code departs from it). The failure of a grpc-keyword
    probe does not raise: a status code other than 1, or a keyword that
    is not as asked, sets the bean DOWN and lets the [try] run to its
    end, where the retries are set to 0. So the retries are never
    counted for such a monitor, whatever [maxretries] is: with no
    heartbeat yet, the outcomes fail, fail, fail, success store beats of
    status DOWN, DOWN, DOWN, UP (not PENDING, PENDING, DOWN, UP) with
    important flags true, false, false, true, and the retries counter is
    0 after each of them. *)
Theorem grpc_keyword_failure_skips_the_retries :
  forall (m : Monitor) (table : list Heartbeat) (o1 o2 o3 o4 : Observations),
    monType m = "grpc-keyword" ->
    isUpsideDown m = false ->
    findLatest table (monId m) = None ->
    grpcFails m o1 -> grpcFails m o2 -> grpcFails m o3 ->
    grpcSucceeds m o4 ->
    let beats := ticks (start m table) [o1; o2; o3; o4] in
    map (fun t => option_map status (stored t)) beats
    = [Some DOWN; Some DOWN; Some DOWN; Some UP]
    /\ map (fun t => option_map important (stored t)) beats
       = [Some true; Some false; Some false; Some true]
    /\ map (fun t => retries (next t)) beats = [0; 0; 0; 0].
Proof.
  intros m table o1 o2 o3 o4 Ty Hu Fresh G1 G2 G3 G4 beats.
  pose proof (grpc_failure_settles m o1 Ty Hu G1) as F1.
  pose proof (grpc_failure_settles m o2 Ty Hu G2) as F2.
  pose proof (grpc_failure_settles m o3 Ty Hu G3) as F3.
  pose proof (grpc_answer_succeeds m o4 Ty Hu G4) as F4.
  destruct (patchTimeout_same m) as (Ty' & _).
  assert (NP : monType (patchTimeout m) <> "push")
    by (rewrite Ty', Ty; discriminate).
  assert (P0 : reloadPrevious (start m table) = None).
  { unfold reloadPrevious, start. cbn. exact Fresh. }
  unfold beats. cbn [run map].
  (* first beat *)
  destruct (tick_settled (start m table) o1 F1) as (b1 & S1 & N1 & St1 & I1).
  rewrite P0 in I1. cbn in N1. rewrite St1 in I1. cbn in I1.
  set (rt1 := next (tick (start m table) o1)) in *.
  assert (E1 : self rt1 = patchTimeout m) by now rewrite N1.
  assert (P1 : reloadPrevious rt1 = Some b1).
  { apply reloadPrevious_kept; [now rewrite E1 | now rewrite N1]. }
  assert (R1 : retries rt1 = 0) by now rewrite N1.
  (* second beat *)
  destruct (tick_settled rt1 o2) as (b2 & S2 & N2 & St2 & I2);
    [rewrite E1; now apply probeSettlesDown_patch |].
  rewrite P1 in I2. rewrite St2 in I2. cbn in I2. rewrite St1 in I2. cbn in I2.
  set (rt2 := next (tick rt1 o2)) in *.
  assert (E2 : self rt2 = patchTimeout m).
  { rewrite N2. cbn [self]. rewrite E1. apply patchTimeout_idem. }
  assert (P2 : reloadPrevious rt2 = Some b2).
  { apply reloadPrevious_kept; [now rewrite E2 | now rewrite N2]. }
  assert (R2 : retries rt2 = 0) by now rewrite N2.
  (* third beat *)
  destruct (tick_settled rt2 o3) as (b3 & S3 & N3 & St3 & I3);
    [rewrite E2; now apply probeSettlesDown_patch |].
  rewrite P2 in I3. rewrite St3 in I3. cbn in I3. rewrite St2 in I3. cbn in I3.
  set (rt3 := next (tick rt2 o3)) in *.
  assert (E3 : self rt3 = patchTimeout m).
  { rewrite N3. cbn [self]. rewrite E2. apply patchTimeout_idem. }
  assert (P3 : reloadPrevious rt3 = Some b3).
  { apply reloadPrevious_kept; [now rewrite E3 | now rewrite N3]. }
  assert (R3 : retries rt3 = 0) by now rewrite N3.
  (* fourth beat *)
  destruct (tick_ok rt3 o4) as (b4 & S4 & N4 & St4 & I4);
    [rewrite E3; now apply probeSucceeds_patch |].
  rewrite P3 in I4. rewrite St4 in I4. cbn in I4. rewrite St3 in I4. cbn in I4.
  assert (R4 : retries (next (tick rt3 o4)) = 0) by now rewrite N4.
  rewrite S1, S2, S3, S4, ?R1, ?R2, ?R3, ?R4. cbn [option_map].
  rewrite St1, St2, St3, St4, I1, I2, I3, I4. repeat split.
Qed.

(** ** Timeout normalisation *)

Lemma patchTimeout_unset m :
  timeoutUnset m ->
  timeout (patchTimeout m) = Some (inject_Z (interval m) * 1000 * (8 # 10))%Q.
Proof.
  unfold timeoutUnset, patchTimeout. destruct (timeout m) as [t|]; [|reflexivity].
  intros H. apply Qle_bool_iff in H. now rewrite H.
Qed.

Lemma patchTimeout_set m t :
  timeout m = Some t -> (0 < t)%Q -> patchTimeout m = m.
Proof.
  intros E H. unfold patchTimeout. rewrite E.
  destruct (Qle_bool t 0) eqn:L; [|reflexivity].
  apply Qle_bool_iff in L. exfalso. exact (Qlt_not_le _ _ H L).
Qed.

(** C2 (where the code departs from it). The patch runs on every tick
    when the timeout is unset or not positive, but it stores
    [interval * 1000 * 0.8]: for an interval of 60 s the timeout becomes
    48000, not 48 = 0.8 * 60, although the field is read as seconds
    everywhere else ([timeout * 1000] is handed to the HTTP client as
    milliseconds). *)
Theorem timeout_patch_is_in_milliseconds :
  forall (table : list Heartbeat) (obs : Observations),
    exists t,
      timeout (self (next (tick (start everyMinute table) obs))) = Some t
      /\ (t == 48000)%Q
      /\ ~ (t == (8 # 10) * inject_Z (interval everyMinute))%Q.
Proof.
  intros table obs.
  destruct (tick_counter (start everyMinute table) obs) as (Hs & _). rewrite Hs.
  eexists. split; [reflexivity|]. split; [reflexivity|].
  intros H. discriminate H.
Qed.

End BeatProperties.

(** ** Uptime aggregation *)

Lemma sqlSum_from xs acc :
  (toNumber
     (fold_left
        (fun acc x =>
           match x, acc with
           | None, _ => acc
           | Some v, None => Some v
           | Some v, Some a => Some (a + v)%Q
           end) xs acc)
   == toNumber acc + sumQ (values xs))%Q.
Proof.
  revert acc. unfold sumQ.
  induction xs as [|[v|] xs IH]; intros acc;
    cbn [fold_left values fold_right].
  - ring.
  - destruct acc as [a|]; rewrite IH; cbn [toNumber]; ring.
  - apply IH.
Qed.

Lemma sqlSum_sum xs : (toNumber (sqlSum xs) == sumQ (values xs))%Q.
Proof. unfold sqlSum. rewrite sqlSum_from. cbn [toNumber]. ring. Qed.

Lemma values_all {A} (f : A -> Q) rows :
  values (map (fun r => Some (f r)) rows) = map f rows.
Proof. induction rows as [|r rows IH]; cbn; [reflexivity | now rewrite IH]. Qed.

Lemma values_some {A} (keep : A -> bool) (f : A -> Q) rows :
  values (map (fun r => if keep r then Some (f r) else None) rows)
  = map f (filter keep rows).
Proof.
  induction rows as [|r rows IH]; cbn; [reflexivity|].
  destruct (keep r); cbn; now rewrite IH.
Qed.

Lemma sumQ_part {A} (keep : A -> bool) (f : A -> Q) rows :
  (forall r, In r rows -> 0 <= f r)%Q ->
  (0 <= sumQ (map f (filter keep rows)) <= sumQ (map f rows))%Q.
Proof.
  unfold sumQ.
  induction rows as [|r rows IH]; intros H; cbn [filter map fold_right].
  - split; apply Qle_refl.
  - assert (Hr : (0 <= f r)%Q) by (apply H; now left).
    destruct IH as [I1 I2]; [intros x Hx; apply H; now right|].
    destruct (keep r); cbn [map fold_right]; split; lra.
Qed.

Lemma trimmed_nonneg startTime r :
  startTime <= hbTime r -> 0 <= duration r -> (0 <= trimmed startTime r)%Q.
Proof.
  intros W D. unfold trimmed.
  destruct (Qle_bool _ _).
  - change 0%Q with (inject_Z 0). now rewrite <- Zle_Qle.
  - unfold secondsInWindow, Qle. cbn. lia.
Qed.

Lemma trimmed_least startTime r :
  (trimmed startTime r <= inject_Z (duration r))%Q
  /\ (trimmed startTime r <= (hbTime r - startTime) # 1000)%Q
  /\ (trimmed startTime r = inject_Z (duration r)
      \/ trimmed startTime r = (hbTime r - startTime) # 1000).
Proof.
  unfold trimmed, secondsInWindow.
  destruct (Qle_bool (inject_Z (duration r)) ((hbTime r - startTime) # 1000)) eqn:L.
  - apply Qle_bool_iff in L. repeat split; [apply Qle_refl | exact L | now left].
  - assert (G : ~ (inject_Z (duration r) <= (hbTime r - startTime) # 1000)%Q).
    { intros H. apply Qle_bool_iff in H. congruence. }
    apply Qnot_le_lt in G.
    repeat split; [now apply Qlt_le_weak | apply Qle_refl | now right].
Qed.

Lemma windowStart_second duration_ nowMs :
  windowStart duration_ nowMs <= nowMs - duration_ * 3600 * 1000
    < windowStart duration_ nowMs + 1000
  /\ windowStart duration_ nowMs mod 1000 = 0.
Proof.
  unfold windowStart. split.
  - pose proof (Z.mul_div_le (nowMs - duration_ * 3600 * 1000) 1000 eq_refl).
    pose proof (Z.mul_succ_div_gt (nowMs - duration_ * 3600 * 1000) 1000 eq_refl).
    lia.
  - apply Z_mod_mult.
Qed.

Lemma countsAsUp_iff r :
  countsAsUp r = true <-> status r = UP \/ status r = MAINTENANCE.
Proof.
  unfold countsAsUp. destruct (status r); cbn; split; intros H;
    try discriminate; try reflexivity; try tauto;
    destruct H; discriminate.
Qed.

(** C9 (as the code has it). The window starts at the whole second of
    the clock [duration] hours ago, and holds the monitor's beats of that
    second and later; a beat counts with the smaller of its duration and
    the seconds from the start of the window to it. On a cache miss,
    with [total] and [up] the sums of these trimmed durations (for [up],
    of the beats that are UP or MAINTENANCE), and provided the beats in
    the window have non-negative durations: the uptime is [up / total]
    when [total > 0]; otherwise it is 1 if the first row the status
    query returns for the monitor is UP and 0 if not (or if there is
    none); and it lies in [0, 1]. *)
Theorem uptime_ratio_bounds :
  forall (duration_ monitorID nowMs : Z) (table : list Heartbeat)
         (forceNoCache : bool) (cachedUptime : option Q),
    let startTime := windowStart duration_ nowMs in
    let rows := filter (fun r => inWindow startTime r && (monitor_id r =? monitorID))
                  table in
    let total := sumQ (map (trimmed startTime) rows) in
    let up := sumQ (map (trimmed startTime) (filter countsAsUp rows)) in
    let uptime := calcUptime duration_ monitorID forceNoCache cachedUptime nowMs table in
    (forceNoCache = true \/ cachedUptime = None) ->
    (forall r, In r rows -> 0 <= duration r) ->
    ((0 < total)%Q -> (uptime == up / total)%Q)
    /\ (~ (0 < total)%Q ->
        uptime = match find (fun r => monitor_id r =? monitorID) table with
                 | Some r => if status_eqb (status r) UP then 1%Q else 0%Q
                 | None => 0%Q
                 end)
    /\ (0 <= uptime <= 1)%Q
    /\ (forall r, countsAsUp r = true <-> status r = UP \/ status r = MAINTENANCE)
    /\ (startTime <= nowMs - duration_ * 3600 * 1000 < startTime + 1000
        /\ startTime mod 1000 = 0)
    /\ (forall r, In r rows
                  <-> In r table /\ monitor_id r = monitorID
                      /\ startTime <= hbTime r)
    /\ (forall r,
          (trimmed startTime r <= inject_Z (duration r))%Q
          /\ (trimmed startTime r <= (hbTime r - startTime) # 1000)%Q
          /\ (trimmed startTime r = inject_Z (duration r)
              \/ trimmed startTime r = (hbTime r - startTime) # 1000)).
Proof.
  intros duration_ monitorID nowMs table forceNoCache cachedUptime
         startTime rows total up uptime Miss NonNeg.
  assert (Frame :
            (startTime <= nowMs - duration_ * 3600 * 1000 < startTime + 1000
             /\ startTime mod 1000 = 0)
            /\ (forall r, In r rows
                          <-> In r table /\ monitor_id r = monitorID
                              /\ startTime <= hbTime r)
            /\ (forall r,
                  (trimmed startTime r <= inject_Z (duration r))%Q
                  /\ (trimmed startTime r <= (hbTime r - startTime) # 1000)%Q
                  /\ (trimmed startTime r = inject_Z (duration r)
                      \/ trimmed startTime r = (hbTime r - startTime) # 1000))).
  { split; [apply windowStart_second|]. split; [|intros r; apply trimmed_least].
    intros r. unfold rows, inWindow. rewrite filter_In, andb_true_iff.
    rewrite Z.leb_le, Z.eqb_eq. tauto. }
  assert (E : uptime = computeUptime duration_ monitorID nowMs table).
  { unfold uptime, calcUptime. destruct Miss as [-> | ->]; [reflexivity|].
    now destruct forceNoCache. }
  assert (Pos : forall r, In r rows -> (0 <= trimmed startTime r)%Q).
  { intros r H. apply trimmed_nonneg; [|now apply NonNeg].
    apply filter_In in H. destruct H as [_ H].
    apply andb_true_iff in H. destruct H as [H _]. now apply Z.leb_le in H. }
  destruct (sumQ_part countsAsUp (trimmed startTime) rows Pos) as [Up0 UpT].
  fold up in Up0, UpT. fold total in UpT.
  assert (T : (toNumber (sqlSum (map (fun r => Some (trimmed startTime r)) rows))
               == total)%Q).
  { rewrite sqlSum_sum, values_all. reflexivity. }
  assert (U : (toNumber
                 (sqlSum (map (fun r => if countsAsUp r
                                        then Some (trimmed startTime r) else None) rows))
               == up)%Q).
  { rewrite sqlSum_sum, values_some. reflexivity. }
  assert (Ratio : (0 < total)%Q -> (0 <= up / total <= 1)%Q).
  { intros H. split.
    - apply Qle_shift_div_l; [exact H|]. lra.
    - apply Qle_shift_div_r; [exact H|]. lra. }
  unfold computeUptime in E. fold startTime in E. fold rows in E.
  destruct (Qle_bool (toNumber (sqlSum (map (fun r => Some (trimmed startTime r)) rows))) 0)
    eqn:L; cbn [negb] in E.
  - apply Qle_bool_iff in L. rewrite T in L.
    assert (N : ~ (0 < total)%Q) by (intros H; lra).
    split; [intros H; contradiction|]. split; [intros _; exact E|].
    split; [|split; [apply countsAsUp_iff | exact Frame]].
    rewrite E. destruct (find _ table) as [r|]; [destruct (status_eqb _ _)|];
      split; discriminate.
  - assert (P : (0 < total)%Q).
    { apply Qnot_le_lt. intros H. rewrite <- T in H. apply Qle_bool_iff in H.
      congruence. }
    assert (V : (toNumber
                   (sqlSum (map (fun r => if countsAsUp r
                                          then Some (trimmed startTime r) else None) rows))
                 / toNumber (sqlSum (map (fun r => Some (trimmed startTime r)) rows))
                 == up / total)%Q).
    { rewrite T, U. reflexivity. }
    destruct (Ratio P) as [R0 R1].
    match type of E with
    | _ = (if negb (Qle_bool 0 ?q) then _ else _) =>
        destruct (Qle_bool 0 q) eqn:G; cbn [negb] in E
    end.
    + assert (Eq : (uptime == up / total)%Q) by (rewrite E; exact V).
      split; [intros _; exact Eq|]. split; [intros N; contradiction|].
      split; [|split; [apply countsAsUp_iff | exact Frame]].
      rewrite Eq. split; assumption.
    + exfalso. rewrite <- V in R0. apply Qle_bool_iff in R0. congruence.
Qed.

(** ** TLS expiry notifications *)

Lemma CertInfo_chain_ind (P : CertInfo -> Prop) :
  (forall cn ty fp d, P (mkCert cn ty fp d None)) ->
  (forall cn ty fp d up, P up -> P (mkCert cn ty fp d (Some up))) ->
  forall c, P c.
Proof.
  intros Hleaf Hlink. fix IH 1. intros [cn ty fp d [up|]].
  - apply Hlink, IH.
  - apply Hleaf.
Qed.

Section TlsProperties.

Variable rootCertificates : string -> bool.

Lemma walkChain_silent m providers limit targetDays c w :
  targetDays <= limit -> silentFrom rootCertificates limit c ->
  walkChain rootCertificates m targetDays providers c w = w.
Proof.
  intros Hl. revert w.
  induction c as [cn ty fp d | cn ty fp d up IH] using CertInfo_chain_ind;
    intros w H; cbn in H |- *.
  - destruct H as [-> | [Hd _]]; [reflexivity|].
    destruct (rootCertificates fp); [reflexivity|].
    assert (E : (targetDays <? d) = true) by (apply Z.ltb_lt; lia).
    now rewrite E.
  - destruct H as [-> | [Hd Hup]]; [reflexivity|].
    destruct (rootCertificates fp); [reflexivity|].
    assert (E : (targetDays <? d) = true) by (apply Z.ltb_lt; lia).
    rewrite E. now apply IH.
Qed.

Lemma filter_keeps_all {A} (p : A -> bool) (l : list A) :
  (forall x, In x l -> p x = true) -> filter p l = l.
Proof.
  induction l as [|x l IH]; intros H; cbn; [reflexivity|].
  rewrite (H x) by now left. f_equal. apply IH. intros y Hy. apply H. now right.
Qed.

Lemma updateTlsInfo_history m info w :
  noCertificateRow (monId m) (notification_sent_history w) ->
  notification_sent_history (updateTlsInfo m info w) = notification_sent_history w
  /\ outbox (updateTlsInfo m info w) = outbox w
  /\ tlsExpiryNotifyDays (updateTlsInfo m info w) = tlsExpiryNotifyDays w.
Proof.
  intros H. unfold updateTlsInfo.
  destruct (findTlsInfo (monitor_tls_info w) (monId m)) as [old|];
    [|repeat split].
  destruct (certInfo old) as [o|], (certInfo info) as [n|];
    [| repeat split | repeat split | repeat split].
  destruct (negb (fingerprint256 o =? fingerprint256 n)%string); [|repeat split].
  cbn. split; [|split; reflexivity].
  apply filter_keeps_all. intros r Hr. now rewrite (H r Hr).
Qed.

Lemma findTlsInfo_stored t monitorID info :
  findTlsInfo (storeTlsInfo t monitorID info) monitorID = Some info.
Proof.
  unfold findTlsInfo.
  induction t as [|row t IH]; cbn.
  - now rewrite Z.eqb_refl.
  - destruct (fst row =? monitorID) eqn:E; cbn.
    + now rewrite Z.eqb_refl.
    + now rewrite E.
Qed.

Lemma updateTlsInfo_same m info w :
  findTlsInfo (monitor_tls_info w) (monId m) = Some info ->
  notification_sent_history (updateTlsInfo m info w) = notification_sent_history w
  /\ outbox (updateTlsInfo m info w) = outbox w
  /\ tlsExpiryNotifyDays (updateTlsInfo m info w) = tlsExpiryNotifyDays w.
Proof.
  intros H. unfold updateTlsInfo. rewrite H.
  destruct (certInfo info) as [c|]; [|repeat split].
  rewrite String.eqb_refl. repeat split.
Qed.

Lemma find_none_of {A} (p : A -> bool) (l : list A) :
  (forall x, In x l -> p x = false) -> find p l = None.
Proof.
  induction l as [|x l IH]; intros H; cbn; [reflexivity|].
  rewrite (H x) by now left. apply IH. intros y Hy. apply H. now right.
Qed.

Lemma find_some_of {A} (p : A -> bool) (l : list A) (x : A) :
  In x l -> p x = true -> exists y, find p l = Some y.
Proof.
  intros Hin Hp. destruct (find p l) as [y|] eqn:E; [now exists y|].
  exfalso. pose proof (find_none _ _ E x Hin) as N. congruence.
Qed.

Lemma send_fresh m cn ty days targetDays providers w :
  noCertificateRow (monId m) (notification_sent_history w) ->
  existsb (fun n => negb (sendThrows n)) providers = true ->
  sendCertNotificationByTargetDays m cn ty days targetDays providers w
  = withHistory
      (withOutbox w (outbox w ++ certNotifications m cn ty days targetDays providers)%list)
      (notification_sent_history w ++ [certificateRow m targetDays])%list.
Proof.
  intros H S. unfold sendCertNotificationByTargetDays.
  rewrite find_none_of.
  - rewrite S. reflexivity.
  - intros r Hr. now rewrite (H r Hr).
Qed.

Lemma send_again m cn ty days targetDays sentAt providers w :
  In (certificateRow m sentAt) (notification_sent_history w) ->
  sentAt <= targetDays ->
  sendCertNotificationByTargetDays m cn ty days targetDays providers w = w.
Proof.
  intros Hin Hle. unfold sendCertNotificationByTargetDays.
  destruct (find_some_of
              (fun r => isCertificateRowOf (monId m) r && (sentDays r <=? targetDays))
              _ _ Hin) as (y & ->); [|reflexivity].
  unfold isCertificateRowOf, certificateRow. cbn.
  rewrite Z.eqb_refl. cbn. now apply Z.leb_le.
Qed.

(** The first check of a leaf with 10 days left against 7, 14, 21. *)
Lemma check_first m cn ty fp issuer info providers w :
  certInfo info = Some (mkCert cn ty fp 10 issuer) ->
  rootCertificates fp = false ->
  silentAbove rootCertificates 21 issuer ->
  providers <> [] ->
  existsb (fun n => negb (sendThrows n)) providers = true ->
  tlsExpiryNotifyDays w = Some [7; 14; 21] \/ tlsExpiryNotifyDays w = None ->
  noCertificateRow (monId m) (notification_sent_history w) ->
  let w' := checkCertExpiryNotifications rootCertificates m info providers w in
  outbox w' = (outbox w ++ certNotifications m cn ty 10 14 providers)%list
  /\ notification_sent_history w'
     = (notification_sent_history w ++ [certificateRow m 14])%list
  /\ tlsExpiryNotifyDays w' = Some [7; 14; 21]
  /\ monitor_tls_info w' = monitor_tls_info w.
Proof.
  intros Hinfo Hroot Hsil Hp Hs Hd Hn.
  assert (Walk : forall t up u, t <= 21 -> issuer = Some up ->
            walkChain rootCertificates m t providers up u = u).
  { intros t up u Ht E. apply (walkChain_silent m providers 21); [exact Ht|].
    now rewrite E in Hsil. }
  assert (Body : forall w0,
            noCertificateRow (monId m) (notification_sent_history w0) ->
            let w1 := fold_left
                        (fun u targetDays =>
                           walkChain rootCertificates m targetDays providers
                             (mkCert cn ty fp 10 issuer) u)
                        [7; 14; 21] w0 in
            outbox w1 = (outbox w0 ++ certNotifications m cn ty 10 14 providers)%list
            /\ notification_sent_history w1
               = (notification_sent_history w0 ++ [certificateRow m 14])%list
            /\ tlsExpiryNotifyDays w1 = tlsExpiryNotifyDays w0
            /\ monitor_tls_info w1 = monitor_tls_info w0).
  { intros w0 H0. cbn [fold_left walkChain]. rewrite Hroot.
    change (7 <? 10) with true. change (14 <? 10) with false.
    change (21 <? 10) with false. cbv iota.
    destruct issuer as [up|];
      rewrite ?(Walk 7 up), ?(Walk 14 up), ?(Walk 21 up) by (lia || reflexivity);
      rewrite (send_fresh m cn ty 10 14 providers w0) by assumption;
      (rewrite (send_again m cn ty 10 21 14);
       [ cbn; repeat split
       | cbn; apply in_or_app; right; now left
       | lia ]). }
  unfold checkCertExpiryNotifications. rewrite Hinfo.
  cbn [daysRemaining]. change (10 =? 0) with false. cbv iota.
  destruct providers as [|p ps]; [congruence|].
  cbn [List.length Nat.ltb Nat.leb negb].
  destruct Hd as [E | E]; rewrite E.
  - destruct (Body w Hn) as (B1 & B2 & B3 & B4). rewrite E in B3.
    repeat split; assumption.
  - destruct (Body (withNotifyDays w (Some [7; 14; 21])) Hn) as (B1 & B2 & B3 & B4).
    repeat split; assumption.
Qed.

(** A later check with the row of threshold 14 in place. *)
Lemma check_again m cn ty fp issuer info providers w :
  certInfo info = Some (mkCert cn ty fp 10 issuer) ->
  rootCertificates fp = false ->
  silentAbove rootCertificates 21 issuer ->
  tlsExpiryNotifyDays w = Some [7; 14; 21] ->
  In (certificateRow m 14) (notification_sent_history w) ->
  checkCertExpiryNotifications rootCertificates m info providers w = w.
Proof.
  intros Hinfo Hroot Hsil Hd Hin.
  assert (Walk : forall t up u, t <= 21 -> issuer = Some up ->
            walkChain rootCertificates m t providers up u = u).
  { intros t up u Ht E. apply (walkChain_silent m providers 21); [exact Ht|].
    now rewrite E in Hsil. }
  unfold checkCertExpiryNotifications. rewrite Hinfo.
  cbn [daysRemaining]. change (10 =? 0) with false. cbv iota.
  destruct (negb (0 <? List.length providers)%nat); [reflexivity|].
  rewrite Hd. cbn [fold_left walkChain]. rewrite Hroot.
  change (7 <? 10) with true. change (14 <? 10) with false.
  change (21 <? 10) with false. cbv iota.
  destruct issuer as [up|];
    rewrite ?(Walk 7 up), ?(Walk 14 up), ?(Walk 21 up) by (lia || reflexivity);
    rewrite (send_again m cn ty 10 14 14 providers w) by (assumption || lia);
    rewrite (send_again m cn ty 10 21 14 providers w) by (assumption || lia);
    reflexivity.
Qed.

(** C1 (as the code has it). Expiry notification enabled (and TLS errors
    not ignored), thresholds 7, 14, 21, no certificate row for the
    monitor, a leaf that is not a known root with 10 days left (issuers
    quiet), and at least one provider whose send succeeds. The first
    capture sends one notification to each provider, for threshold 14,
    and adds the single row (certificate, monitor, 14); threshold 21
    sends nothing because that row already counts for it ([days <= 21]),
    and threshold 7 is not reached. A second capture of the same chain
    sends nothing and adds no row. *)
Theorem cert_expiry_dedup :
  forall (m : Monitor) (cn ty fp : string) (issuer : option CertInfo) (v : bool)
         (providers : list Provider) (w : TlsStore),
    getIgnoreTls m = false ->
    isEnabledExpiryNotification m = true ->
    tlsExpiryNotifyDays w = Some [7; 14; 21] \/ tlsExpiryNotifyDays w = None ->
    noCertificateRow (monId m) (notification_sent_history w) ->
    rootCertificates fp = false ->
    silentAbove rootCertificates 21 issuer ->
    providers <> [] ->
    existsb (fun n => negb (sendThrows n)) providers = true ->
    let tlsInfo := {| valid := v; certInfo := Some (mkCert cn ty fp 10 issuer) |} in
    let first := handleTlsInfo rootCertificates m tlsInfo providers w in
    let second := handleTlsInfo rootCertificates m tlsInfo providers first in
    outbox first = (outbox w ++ certNotifications m cn ty 10 14 providers)%list
    /\ notification_sent_history first
       = (notification_sent_history w ++ [certificateRow m 14])%list
    /\ outbox second = outbox first
    /\ notification_sent_history second = notification_sent_history first.
Proof.
  intros m cn ty fp issuer v providers w Hi He Hd Hn Hroot Hsil Hp Hs
         tlsInfo first second.
  destruct (updateTlsInfo_history m tlsInfo w Hn) as (U1 & U2 & U3).
  assert (F : outbox first = (outbox w ++ certNotifications m cn ty 10 14 providers)%list
              /\ notification_sent_history first
                 = (notification_sent_history w ++ [certificateRow m 14])%list
              /\ tlsExpiryNotifyDays first = Some [7; 14; 21]
              /\ findTlsInfo (monitor_tls_info first) (monId m) = Some tlsInfo).
  { unfold first, handleTlsInfo. rewrite Hi, He. cbn [negb andb].
    destruct (check_first m cn ty fp issuer tlsInfo providers
                (updateTlsInfo m tlsInfo w))
      as (C1 & C2 & C3 & C4); try assumption.
    - reflexivity.
    - now rewrite U3.
    - now rewrite U1.
    - rewrite C1, C2, C3, C4, U1, U2.
      repeat split. unfold updateTlsInfo. cbn [monitor_tls_info withTlsInfo].
      apply findTlsInfo_stored. }
  destruct F as (F1 & F2 & F3 & F4).
  split; [exact F1|]. split; [exact F2|].
  destruct (updateTlsInfo_same m tlsInfo first F4) as (V1 & V2 & V3).
  unfold second, handleTlsInfo. rewrite Hi, He. cbn [negb andb].
  rewrite (check_again m cn ty fp issuer); try assumption.
  - split; assumption.
  - reflexivity.
  - now rewrite V3.
  - rewrite V1, F2. apply in_or_app. right. now left.
Qed.

End TlsProperties.

(* ===================================================================== *)
(** * Worked instances *)
(* ===================================================================== *)

(** The claim of C1 as written fails: with one provider, an empty
    history and a leaf with 10 days left, nothing is sent for threshold
    21 and only the row of threshold 14 is added. *)
Lemma cert_expiry_dedup_counterexample :
  let first := handleTlsInfo noRoots (exampleMonitor "http" false 0 0) capturedChain
                 [ops] emptyStore in
  ~ (List.length (filter (fun n => forTargetDays n =? 21) (outbox first)) = 1%nat
     /\ List.length (filter (fun n => forTargetDays n =? 14) (outbox first)) = 1%nat
     /\ In (certificateRow (exampleMonitor "http" false 0 0) 21)
          (notification_sent_history first)
     /\ In (certificateRow (exampleMonitor "http" false 0 0) 14)
          (notification_sent_history first)).
Proof.
  intros first [H _]. vm_compute in H. discriminate H.
Qed.

Lemma cert_expiry_dedup_witness :
  let m := exampleMonitor "http" false 0 0 in
  let first := handleTlsInfo noRoots m capturedChain [ops] emptyStore in
  let second := handleTlsInfo noRoots m capturedChain [ops] first in
  (getIgnoreTls m = false /\ isEnabledExpiryNotification m = true)
  /\ outbox first = certNotifications m "example.test" "server" 10 14 [ops]
  /\ notification_sent_history first = [certificateRow m 14]
  /\ outbox second = outbox first
  /\ notification_sent_history second = notification_sent_history first.
Proof.
  intros m first second. split; [split; reflexivity|].
  apply (cert_expiry_dedup noRoots m "example.test" "server" "AA:BB:CC" None true
           [ops] emptyStore).
  - reflexivity.
  - reflexivity.
  - left; reflexivity.
  - intros r [].
  - reflexivity.
  - exact I.
  - discriminate.
  - reflexivity.
Defined.

Lemma first_beat_notification_gate_witness :
  let bean := beatAt 0 UP 0 in
  status bean <> DOWN
  /\ sendNotification true (exampleMonitor "http" false 0 0) bean [ops] = [].
Proof.
  intros bean.
  assert (H : status bean <> DOWN) by discriminate.
  split; [exact H|].
  exact (proj1 (proj2 (proj2
           (first_beat_notification_gate (exampleMonitor "http" false 0 0) bean [ops])))
           H).
Defined.

Lemma group_aggregation_witness :
  let kid s := {| childActive := true; lastBeat := Some s |} in
  let rt := start (exampleMonitor "group" false 0 0) [] in
  let obs := observe 1000 [kid UP; kid PENDING; kid UP] refused in
  (monType (self rt) = "group" /\ underMaintenance obs = false
   /\ isUpsideDown (self rt) = false)
  /\ exists b,
       stored (beat false wholeNumber [] rt obs) = Some b
       /\ status b = status (groupBranch (children obs) b)
       /\ msg b = msg (groupBranch (children obs) b).
Proof.
  intros kid rt obs. split; [repeat split|].
  apply (proj2 (proj2 (proj2 (group_aggregation false wholeNumber [])))); reflexivity.
Defined.

Lemma push_window_check_witness :
  let rt := start (exampleMonitor "push" false 0 0) [beatAt 0 UP 0] in
  let obs := observe 30000 [] refused in
  let t := beat false wholeNumber [] rt obs in
  (monType (self rt) = "push" /\ underMaintenance obs = false)
  /\ retries (next t) = 0
  /\ heartbeatInterval t = Some 31000
  /\ stored t = None.
Proof.
  intros rt obs t. split; [split; reflexivity|].
  destruct (push_window_check false wholeNumber [] rt obs eq_refl eq_refl)
    as (_ & _ & H).
  destruct (H (beatAt 0 UP 0) eq_refl) as (H1 & H2 & H3 & _).
  - cbn. intros [F|F]; [now apply F | lia].
  - repeat split; assumption.
Defined.

(** The claim of C8 as written fails: with a retry left the stored beat
    is PENDING, and its message is the flip marker alone. *)
Lemma upside_down_inversion_counterexample :
  let t := beat false wholeNumber [] (start (exampleMonitor "http" true 1 0) [])
             (observe 1000 [] refused) in
  ~ (option_map status (stored t) = Some DOWN
     /\ option_map (fun b => includes (render (msg b)) "200 - OK") (stored t)
        = Some true).
Proof.
  intros t [H _]. vm_compute in H. discriminate H.
Qed.

Lemma upside_down_inversion_witness :
  let rt := start (exampleMonitor "http" true 0 0) [] in
  let obs := observe 1000 [] refused in
  (monType (self rt) = "http" /\ isUpsideDown (self rt) = true
   /\ underMaintenance obs = false /\ axios obs = AxiosResolved ok200)
  /\ exists b,
       stored (beat false wholeNumber [] rt obs) = Some b
       /\ msg b = Some "Flip UP to DOWN"
       /\ ping b = Some 12
       /\ status b = DOWN
       /\ retries (next (beat false wholeNumber [] rt obs)) = 0
       /\ important b = true.
Proof.
  intros rt obs. split; [repeat split|].
  apply (upside_down_inversion false wholeNumber [] rt obs ok200); reflexivity.
Defined.

Lemma flap_with_retries_witness :
  let m := exampleMonitor "port" false 2 0 in
  let down := observe 1000 [] refused in
  let up := observe 2000 [] connected in
  let beats := run false wholeNumber [] (start m []) [down; down; down; up] in
  (probeFails [] m down /\ probeSucceeds [] m up)
  /\ map (fun t => option_map status (stored t)) beats
     = [Some PENDING; Some PENDING; Some DOWN; Some UP]
  /\ map (fun t => option_map important (stored t)) beats
     = [Some true; Some false; Some true; Some true]
  /\ map (fun t => retries (next t)) beats = [1; 2; 2; 0].
Proof.
  intros m down up beats.
  assert (F : probeFails [] m down).
  { apply driver_raise_fails; try reflexivity; [now left | discriminate]. }
  assert (S : probeSucceeds [] m up).
  { apply driver_up_succeeds; reflexivity. }
  split; [split; assumption|].
  apply (flap_with_retries false wholeNumber [] m [] down down down up);
    try reflexivity; try assumption. discriminate.
Defined.

Lemma grpc_keyword_failure_skips_the_retries_witness :
  let m := exampleMonitor "grpc-keyword" false 2 0 in
  let down := observeGrpc 1000 unavailable in
  let up := observeGrpc 2000 found in
  let beats := run false wholeNumber [] (start m []) [down; down; down; up] in
  (monType m = "grpc-keyword" /\ maxretries m = 2
   /\ grpcFails m down /\ grpcSucceeds m up)
  /\ map (fun t => option_map status (stored t)) beats
     = [Some DOWN; Some DOWN; Some DOWN; Some UP]
  /\ map (fun t => option_map important (stored t)) beats
     = [Some true; Some false; Some false; Some true]
  /\ map (fun t => retries (next t)) beats = [0; 0; 0; 0].
Proof.
  intros m down up beats.
  assert (F : grpcFails m down).
  { split; [reflexivity|]. exists unavailable. split; [reflexivity|].
    left. discriminate. }
  assert (S : grpcSucceeds m up).
  { split; [reflexivity|]. exists found. repeat split. }
  split; [split; [reflexivity | split; [reflexivity | split; assumption]]|].
  apply (grpc_keyword_failure_skips_the_retries false wholeNumber [] m []
           down down down up); try reflexivity; assumption.
Defined.

(** The claim of C5 as written fails: a monitor whose last beat was
    stored with the counter at 7 and whose resend interval is 3 now
    counts to 8 before the reset. *)
Lemma downCount_invariant_counterexample :
  let m := exampleMonitor "port" false 0 3 in
  let t := beat false wholeNumber [] (start m [staleCounter])
             (observe 60000 [] refused) in
  0 < resendInterval m
  /\ In (ResendLog 8 (resendInterval m)) (effects t)
  /\ ~ 8 <= resendInterval m.
Proof.
  intros m t. split; [reflexivity|]. split.
  - vm_compute. left. reflexivity.
  - cbn. lia.
Qed.

Lemma downCount_invariant_witness :
  let m := exampleMonitor "port" false 0 3 in
  let down := observe 1000 [] refused in
  let observed := [down; down; down; down; down] in
  (0 < resendInterval (self (start m [])) /\ countersBelow (start m []))
  /\ forall i o,
       nth_error observed i = Some o ->
       let before := runtimeAfter false wholeNumber [] (start m [])
                       (firstn i observed) in
       nth_error (run false wholeNumber [] (start m []) observed) i
       = Some (beat false wholeNumber [] before o)
       /\ counterLaw 3 (reloadPrevious before) o (beat false wholeNumber [] before o).
Proof.
  intros m down observed.
  assert (Hr : 0 < resendInterval (self (start m []))) by reflexivity.
  assert (Inv : countersBelow (start m [])).
  { split; [intros hb [] | intros pb H; discriminate H]. }
  split; [split; assumption|].
  exact (downCount_invariant false wholeNumber [] (start m []) observed Hr Inv).
Defined.

(** The claim of C9 as written fails: the latest heartbeat of the paused
    monitor is UP, but the status query returns its oldest row, which is
    DOWN, so the uptime is 0 and not 1. *)
Lemma uptime_ratio_bounds_counterexample :
  option_map status (findLatest pausedTable 1) = Some UP
  /\ ~ (calcUptime 24 1 true None 360000000 pausedTable == 1)%Q.
Proof.
  split; [reflexivity|].
  intros H. vm_compute in H. discriminate H.
Qed.

Lemma uptime_ratio_bounds_witness :
  let startTime := windowStart 24 100000500 in
  let rows := filter (fun r => inWindow startTime r && (monitor_id r =? 1))
                recentTable in
  let uptime := calcUptime 24 1 true None 100000500 recentTable in
  (forall r, In r rows -> 0 <= duration r)
  /\ startTime = 13600000
  /\ (uptime == 2 # 3)%Q
  /\ (0 <= uptime <= 1)%Q.
Proof.
  intros startTime rows uptime.
  assert (H : forall r, In r rows -> 0 <= duration r).
  { intros r Hr. cbn in Hr.
    destruct Hr as [<- | [<- | [<- | []]]]; cbn; lia. }
  split; [exact H|]. split; [reflexivity|].
  destruct (uptime_ratio_bounds 24 1 100000500 recentTable true None
              (or_introl eq_refl) H) as (_ & _ & Bounds & _).
  split; [reflexivity | exact Bounds].
Defined.

(** The group result depends on the order of the children: a child
    without heartbeat that comes after a DOWN child brings the status
    back to PENDING, while in the other order the group is DOWN. *)
Remark group_result_depends_on_order :
  let missing := {| childActive := true; lastBeat := None |} in
  let down := {| childActive := true; lastBeat := Some DOWN |} in
  status (groupBranch [down; missing] (beatAt 0 DOWN 0)) = PENDING
  /\ status (groupBranch [missing; down] (beatAt 0 DOWN 0)) = DOWN.
Proof. split; reflexivity. Qed.

(** The window starts at the whole second: with the clock at
    87400.5 s and a window of 24 hours it starts at 1000 s, not at
    1000.5 s, so a DOWN beat at 1000.2 s is inside and counts with 0.2 s
    beside the 60 s of the UP beat. *)
Remark uptime_window_starts_at_the_whole_second :
  (calcUptime 24 1 true None 87400500
     [beatAt 1000200 DOWN 60; beatAt 2000000 UP 60] == 300 # 301)%Q
  /\ (calcUptime 24 1 true None 87400500
        [beatAt 1000000 DOWN 60; beatAt 2000000 UP 60] == 1)%Q.
Proof. split; reflexivity. Qed.

(** Why the bound of the uptime needs non-negative durations: a beat
    stored with a negative duration (the clock went back) makes the
    ratio leave [0, 1]. *)
Remark uptime_above_one_with_negative_duration :
  (calcUptime 24 1 true None 100000000
     [beatAt 20000000 UP 10; beatAt 20005000 DOWN (-5)] == 2)%Q.
Proof. reflexivity. Qed.

(** With the thresholds in descending order the same capture does send
    twice: the row of 21 does not count for threshold 14. *)
Remark cert_expiry_descending_thresholds :
  let store := withNotifyDays emptyStore (Some [21; 14; 7]) in
  let first := handleTlsInfo noRoots (exampleMonitor "http" false 0 0) capturedChain
                 [ops] store in
  map forTargetDays (outbox first) = [21; 14]
  /\ map sentDays (notification_sent_history first) = [21; 14].
Proof. split; reflexivity. Qed.

(* ===================================================================== *)
(** * Further properties of the code *)
(* ===================================================================== *)

(** ** Transition classifier, both predicates together *)

(** Whatever is important for notification is important; what is
    important without being notified is exactly a move into MAINTENANCE
    from UP or DOWN, or the move MAINTENANCE -> UP; a beat that repeats
    the previous status is not important, and a PENDING beat is
    important only as the first beat. *)
Theorem classifier_relation :
  forall (first : bool) (prev : option Status) (curr : Status),
    (isImportantForNotification first prev curr = true ->
     isImportantBeat first prev curr = true)
    /\ (isImportantBeat first prev curr = true
        /\ isImportantForNotification first prev curr = false
        <-> first = false
            /\ ((curr = MAINTENANCE /\ (prev = Some UP \/ prev = Some DOWN))
                \/ (prev = Some MAINTENANCE /\ curr = UP)))
    /\ (prev = Some curr -> isImportantBeat false prev curr = false)
    /\ isImportantBeat first prev PENDING = first.
Proof.
  intros first prev curr.
  destruct first, prev as [[]|], curr; cbv;
    repeat split; intros; try discriminate; try reflexivity;
    try (intuition (discriminate || congruence)).
Qed.

(** ** Group aggregation *)

Lemma childStep_up st child : childStep st child = UP -> st = UP.
Proof.
  unfold childStep.
  destruct (childActive child), (lastBeat child) as [[]|], st; cbn;
    intros H; try discriminate; reflexivity.
Qed.

Lemma fold_childStep_up kids st :
  fold_left childStep kids st = UP <-> st = UP /\ Forall harmless kids.
Proof.
  revert st. induction kids as [|k kids IH]; intros st; cbn [fold_left].
  - split; [intros ->; split; [reflexivity|constructor] | now intros [-> _]].
  - rewrite IH. split.
    + intros [H F]. pose proof (childStep_up _ _ H) as ->. split; [reflexivity|].
      constructor; [|exact F].
      unfold childStep in H. intros A. rewrite A in H. cbn in H.
      destruct (lastBeat k) as [[]|]; try discriminate; auto.
    + intros [-> F]. inversion F as [|? ? Hk Hr]; subst. split; [|exact Hr].
      unfold childStep. destruct (childActive k) eqn:A; [|reflexivity]. cbn.
      destruct (Hk A) as [-> | ->]; reflexivity.
Qed.

Lemma fold_childStep_range kids st :
  st <> MAINTENANCE -> fold_left childStep kids st <> MAINTENANCE.
Proof.
  revert st. induction kids as [|k kids IH]; intros st H; cbn [fold_left];
    [exact H|].
  apply IH. unfold childStep.
  destruct (childActive k), (lastBeat k) as [[]|], st; cbn; congruence.
Qed.

(** A group with at least one child is UP exactly when every active
    child has a last heartbeat that is UP or MAINTENANCE; in particular
    a group whose children are all inactive is UP. The group branch
    never yields MAINTENANCE. *)
Theorem group_up_iff_children_harmless :
  forall (child : Child) (rest : list Child) (bean : Heartbeat),
    (status (groupBranch (child :: rest) bean) = UP
     <-> Forall harmless (child :: rest))
    /\ (Forall (fun c => childActive c = false) (child :: rest) ->
        status (groupBranch (child :: rest) bean) = UP
        /\ msg (groupBranch (child :: rest) bean) = Some "All children up and running")
    /\ (forall kids, status (groupBranch kids bean) <> MAINTENANCE).
Proof.
  intros child rest bean.
  assert (S : forall kids,
            status (groupBranch kids bean)
            = match kids with [] => PENDING | _ => fold_left childStep kids UP end)
    by (intros; apply groupBranch_status_msg).
  assert (U : status (groupBranch (child :: rest) bean) = UP
              <-> Forall harmless (child :: rest)).
  { rewrite S, fold_childStep_up. split; [now intros [_ F] | now split]. }
  split; [exact U|]. split.
  - intros F.
    assert (G : status (groupBranch (child :: rest) bean) = UP).
    { apply U. eapply Forall_impl; [|exact F].
      intros c Hc A. congruence. }
    split; [exact G|].
    destruct (groupBranch_status_msg (child :: rest) bean) as [E ->].
    rewrite <- E, G. reflexivity.
  - intros kids. rewrite S. destruct kids as [|k kids]; [discriminate|].
    apply fold_childStep_range. discriminate.
Qed.

Section BeatFurther.

Variable demoMode : bool.
Variable numberToString : Q -> string.
Variable monitorTypeList : list string.

Local Notation tick := (beat demoMode numberToString monitorTypeList).
Local Notation ticks := (run demoMode numberToString monitorTypeList).
Local Notation attempt := (tryBody monitorTypeList).
Local Notation basicInterval := (normalInterval demoMode).
Local Notation recover := (catchBlock numberToString).
Local Notation finally := (runtimeAfter demoMode numberToString monitorTypeList).

(** ** The shape of a tick *)

Lemma tick_shape rt obs :
  tick rt obs
  = match attempt (patchTimeout (self rt)) (reloadPrevious rt)
            (basicInterval (self rt)) obs
            (dispense (self rt) (reloadPrevious rt) obs) with
    | Return delay =>
        {| next := {| self := patchTimeout (self rt);
                      previousBeat := reloadPrevious rt; retries := 0;
                      isStop := isStop rt; heartbeat := heartbeat rt |};
           stored := None; heartbeatInterval := Some delay; effects := [] |}
    | Normal b =>
        afterTry rt (patchTimeout (self rt)) (reloadPrevious rt)
          (basicInterval (self rt)) obs b 0
    | Throw e b =>
        afterTry rt (patchTimeout (self rt)) (reloadPrevious rt)
          (basicInterval (self rt)) obs
          (fst (recover (patchTimeout (self rt)) (retries rt) e b))
          (snd (recover (patchTimeout (self rt)) (retries rt) e b))
    end.
Proof.
  unfold beat.
  destruct (attempt _ _ _ _ _) as [b|e b|d]; try reflexivity.
  now destruct (recover _ _ _ _).
Qed.

(** The [try] and the [catch] touch the status, the message and the ping
    of the bean only. *)

Lemma sameFrame_refl a : sameFrame a a.
Proof. repeat split. Qed.

Lemma groupBranch_frame kids bean : sameFrame bean (groupBranch kids bean).
Proof.
  unfold groupBranch. destruct (0 <? List.length kids)%nat; [|repeat split].
  destruct (negb _); repeat split.
Qed.

Lemma tryBody_frame m previous bi obs bean :
  match attempt m previous bi obs bean with
  | Normal b | Throw _ b => sameFrame bean b
  | Return _ => True
  end.
Proof.
  assert (D : match dispatch monitorTypeList m previous bi obs bean with
              | Normal b | Throw _ b => sameFrame bean b
              | Return _ => True
              end).
  { unfold dispatch.
    destruct (underMaintenance obs); [repeat split|].
    destruct (monType m =? "group")%string; [apply groupBranch_frame|].
    destruct ((monType m =? "http") || (monType m =? "keyword")
              || (monType m =? "json-query"))%string.
    { unfold httpBranch. destruct (axios obs) as [e|res]; [repeat split|].
      destruct (monType m =? "http")%string.
      - destruct (getCheckContentParameter m && _ && _); repeat split.
      - destruct (monType m =? "keyword")%string.
        + destruct (Bool.eqb _ _); repeat split.
        + destruct (jsonataResult res =? expectedValue m)%string; repeat split. }
    destruct (monType m =? "push")%string.
    { unfold pushBranch. destruct previous as [pb|]; [|repeat split].
      destruct (negb _ || _); [repeat split | exact I]. }
    destruct (monType m =? "grpc-keyword")%string.
    { unfold grpcBranch. destruct (grpc obs) as [e|response]; [repeat split|].
      destruct (negb _); [repeat split|]. destruct (Bool.eqb _ _); repeat split. }
    destruct (mem (monType m) builtinDrivers || mem (monType m) monitorTypeList);
      [|destruct (mem (monType m) inheritedNames); repeat split].
    unfold driverBranch.
    destruct (setsStatus (driver obs)), (setsMsg (driver obs)),
      (setsPing (driver obs)), (raises (driver obs)); repeat split. }
  unfold tryBody.
  destruct (dispatch monitorTypeList m previous bi obs bean) as [b|e b|d];
    try exact D.
  destruct (isUpsideDown m); [|exact D].
  destruct (status_eqb _ DOWN); exact D.
Qed.

Lemma catchBlock_frame m count e bean :
  sameFrame bean (fst (recover m count e bean)).
Proof.
  unfold catchBlock.
  destruct (errName e =? "CanceledError")%string;
    (destruct (isUpsideDown m && _); [repeat split|]);
    destruct ((0 <? maxretries m) && (count <? maxretries m)); repeat split.
Qed.

Lemma catchBlock_count m count e bean :
  let c := snd (recover m count e bean) in
  c = 0 \/ c = count \/ (c = count + 1 /\ count < maxretries m).
Proof.
  cbv zeta. unfold catchBlock.
  set (b := if (errName e =? "CanceledError")%string then _ else _).
  destruct (isUpsideDown m && status_eqb (status b) UP); [now left|].
  destruct ((0 <? maxretries m) && (count <? maxretries m)) eqn:E;
    [| right; now left].
  apply andb_true_iff in E. destruct E as [_ E]. apply Z.ltb_lt in E.
  right; right. split; [reflexivity | exact E].
Qed.

Lemma httpBranch_no_return m obs bean d : httpBranch m obs bean <> Return d.
Proof.
  unfold httpBranch. destruct (axios obs) as [e|res]; [discriminate|].
  destruct (monType m =? "http")%string.
  - now destruct (getCheckContentParameter m && _ && _).
  - destruct (monType m =? "keyword")%string.
    + now destruct (Bool.eqb _ _).
    + now destruct (jsonataResult res =? expectedValue m)%string.
Qed.

Lemma driverBranch_no_return obs bean d : driverBranch obs bean <> Return d.
Proof.
  unfold driverBranch.
  now destruct (setsStatus _), (setsMsg _), (setsPing _), (raises _).
Qed.

Lemma grpcBranch_no_return m obs bean d : grpcBranch m obs bean <> Return d.
Proof.
  unfold grpcBranch. destruct (grpc obs) as [e|response]; [discriminate|].
  destruct (negb _); [discriminate|]. now destruct (Bool.eqb _ _).
Qed.

(** Only the push branch leaves the [try] by [return]. *)
Lemma tryBody_return m previous bi obs bean d :
  attempt m previous bi obs bean = Return d ->
  monType m = "push" /\ underMaintenance obs = false
  /\ pushBranch m previous bi obs bean = Return d.
Proof.
  unfold tryBody.
  destruct (dispatch monitorTypeList m previous bi obs bean) as [b|e b|d0] eqn:D.
  - destruct (isUpsideDown m); [destruct (status_eqb _ DOWN)|]; discriminate.
  - discriminate.
  - intros H. injection H as ->. unfold dispatch in D.
    destruct (underMaintenance obs); [discriminate|].
    destruct (monType m =? "group")%string; [discriminate|].
    destruct ((monType m =? "http") || (monType m =? "keyword")
              || (monType m =? "json-query"))%string.
    { exfalso. exact (httpBranch_no_return _ _ _ _ D). }
    destruct (monType m =? "push")%string eqn:P.
    { apply String.eqb_eq in P. repeat split; assumption. }
    destruct (monType m =? "grpc-keyword")%string.
    { exfalso. exact (grpcBranch_no_return _ _ _ _ D). }
    destruct (mem (monType m) builtinDrivers || mem (monType m) monitorTypeList).
    + exfalso. exact (driverBranch_no_return _ _ _ D).
    + now destruct (mem (monType m) inheritedNames).
Qed.

(** One tick: what it stores and what it leaves behind. *)
Lemma tick_step rt obs :
  let t := tick rt obs in
  let previous := reloadPrevious rt in
  self (next t) = patchTimeout (self rt)
  /\ isStop (next t) = isStop rt
  /\ (retries (next t) = 0 \/ retries (next t) = retries rt
      \/ (retries (next t) = retries rt + 1
          /\ retries rt < maxretries (self rt)))
  /\ match stored t with
     | None =>
         heartbeat (next t) = heartbeat rt /\ previousBeat (next t) = previous
         /\ effects t = [] /\ monType (self rt) = "push"
         /\ exists d, heartbeatInterval t = Some d /\ 1000 <= d
     | Some b =>
         heartbeat (next t) = (heartbeat rt ++ [b])%list
         /\ previousBeat (next t) = Some b
         /\ monitor_id b = monId (self rt)
         /\ hbTime b = now obs
         /\ duration b = match previous with
                         | Some pb => Z.quot (parseLocal obs (now obs) - parseLocal obs (hbTime pb))
                               1000
                         | None => 0
                         end
         /\ heartbeatInterval t
            = (if isStop rt then None
               else Some ((if status_eqb (status b) PENDING
                              && (0 <? retryInterval (self rt))
                           then retryInterval (self rt)
                           else basicInterval (self rt)) * 1000))
     end.
Proof.
  intros t previous. unfold t. rewrite tick_shape. fold previous.
  destruct (patchTimeout_same (self rt)) as (Ty & Id & Up & Mx & Rs & Ri & _).
  pose proof (tryBody_frame (patchTimeout (self rt)) previous
                (basicInterval (self rt)) obs (dispense (self rt) previous obs)) as F.
  assert (Fin : forall b c,
            sameFrame (dispense (self rt) previous obs) b ->
            let t' := afterTry rt (patchTimeout (self rt)) previous
                        (basicInterval (self rt)) obs b c in
            self (next t') = patchTimeout (self rt)
            /\ isStop (next t') = isStop rt
            /\ retries (next t') = c
            /\ exists b',
                 stored t' = Some b'
                 /\ heartbeat (next t') = (heartbeat rt ++ [b'])%list
                 /\ previousBeat (next t') = Some b'
                 /\ monitor_id b' = monId (self rt)
                 /\ hbTime b' = now obs
                 /\ duration b' = match previous with
                                  | Some pb => Z.quot (parseLocal obs (now obs) - parseLocal obs (hbTime pb))
                               1000
                                  | None => 0
                                  end
                 /\ heartbeatInterval t'
                    = (if isStop rt then None
                       else Some ((if status_eqb (status b') PENDING
                                      && (0 <? retryInterval (self rt))
                                   then retryInterval (self rt)
                                   else basicInterval (self rt)) * 1000))).
  { intros b c (F1 & F2 & F3 & _) t'. unfold t', afterTry.
    pose proof (importanceBlock_keeps (patchTimeout (self rt))
                  match previous with Some _ => false | None => true end
                  (option_map status previous) (notificationList obs) b) as K.
    cbv zeta in K. destruct K as (Ks & _ & _ & Kt & Ki & Kd).
    destruct (importanceBlock _ _ _ _ b) as [b' fx]. cbn [fst] in *.
    cbn [next self isStop retries stored heartbeat previousBeat heartbeatInterval].
    repeat split. exists b'. rewrite Ki, Kt, Kd, F1, F2, F3, Ri.
    repeat split. }
  destruct (attempt _ _ _ _ _) as [b|e b|d] eqn:A.
  - destruct (Fin b 0 F) as (S1 & S2 & S3 & b' & S4 & S5).
    rewrite S4. split; [exact S1|]. split; [exact S2|].
    split; [now left | exact S5].
  - pose proof (catchBlock_frame (patchTimeout (self rt)) (retries rt) e b) as G.
    pose proof (catchBlock_count (patchTimeout (self rt)) (retries rt) e b) as C.
    cbv zeta in C. rewrite Mx in C.
    destruct (Fin (fst (recover (patchTimeout (self rt)) (retries rt) e b))
                (snd (recover (patchTimeout (self rt)) (retries rt) e b)))
      as (S1 & S2 & S3 & b' & S4 & S5).
    { destruct F as (F1 & F2 & F3 & F4), G as (G1 & G2 & G3 & G4).
      repeat split; congruence. }
    rewrite S4. split; [exact S1|]. split; [exact S2|].
    split; [rewrite S3; exact C | exact S5].
  - destruct (tryBody_return _ _ _ _ _ _ A) as (P & _ & B).
    cbn [next self isStop retries stored heartbeat previousBeat heartbeatInterval
         effects].
    split; [reflexivity|]. split; [reflexivity|]. split; [now left|].
    repeat split.
    + now rewrite <- Ty.
    + exists d. split; [reflexivity|].
      rewrite pushBranch_cases in B. destruct previous as [pb|]; [|discriminate].
      destruct (negb _ || _); [discriminate|]. injection B as <-. lia.
Qed.

(** ** Invariants of a run *)

(** Ticks never change the monitor beyond the timeout patch, which is
    applied once: after every tick of a run the monitor is the patched
    monitor of the start, and the patched monitor is the monitor itself
    when its timeout is positive. The type, the id, the intervals, the
    retry bound and the flags are those of the start throughout. *)
Theorem ticks_keep_the_monitor :
  forall (rt : Runtime) (observed : list Observations),
    Forall (fun t => self (next t) = patchTimeout (self rt)) (ticks rt observed)
    /\ self (finally rt observed)
       = match observed with [] => self rt | _ => patchTimeout (self rt) end
    /\ (forall q, timeout (self rt) = Some q -> (0 < q)%Q ->
                  patchTimeout (self rt) = self rt)
    /\ monType (patchTimeout (self rt)) = monType (self rt)
    /\ monId (patchTimeout (self rt)) = monId (self rt)
    /\ interval (patchTimeout (self rt)) = interval (self rt)
    /\ retryInterval (patchTimeout (self rt)) = retryInterval (self rt)
    /\ resendInterval (patchTimeout (self rt)) = resendInterval (self rt)
    /\ maxretries (patchTimeout (self rt)) = maxretries (self rt)
    /\ isUpsideDown (patchTimeout (self rt)) = isUpsideDown (self rt).
Proof.
  intros rt observed.
  assert (Run : forall obsl r,
            Forall (fun t => self (next t) = patchTimeout (self r)) (ticks r obsl)
            /\ self (finally r obsl)
               = match obsl with [] => self r | _ => patchTimeout (self r) end).
  { induction obsl as [|o obsl IH]; intros r; cbn [run runtimeAfter fold_left].
    - split; [constructor | reflexivity].
    - destruct (tick_step r o) as (S & _).
      destruct (IH (next (tick r o))) as [I1 I2].
      fold (finally (next (tick r o)) obsl). rewrite I2, S, patchTimeout_idem.
      split; [|now destruct obsl].
      constructor; [exact S|].
      eapply Forall_impl; [|exact I1]. cbn. intros t ->.
      now rewrite S, patchTimeout_idem. }
  destruct (Run observed rt) as [R1 R2].
  destruct (patchTimeout_same (self rt)) as (Ty & Id & Up & Mx & Rs & Ri & Iv & _).
  repeat split; try assumption.
  intros q E H. exact (patchTimeout_set _ _ E H).
Qed.

(** The retries counter stays between 0 and [maxretries] (0 when
    [maxretries] is not positive) along every run that starts there, as
    a run started by [start] does. *)
Theorem retries_stay_within_maxretries :
  forall (rt : Runtime) (observed : list Observations),
    0 <= retries rt <= Z.max 0 (maxretries (self rt)) ->
    Forall (fun t => 0 <= retries (next t) <= Z.max 0 (maxretries (self rt)))
      (ticks rt observed).
Proof.
  intros rt observed. revert rt.
  induction observed as [|o obsl IH]; intros rt H; cbn [run]; [constructor|].
  destruct (tick_step rt o) as (S & _ & C & _).
  destruct (patchTimeout_same (self rt)) as (_ & _ & _ & Mx & _).
  assert (B : 0 <= retries (next (tick rt o)) <= Z.max 0 (maxretries (self rt))).
  { destruct C as [-> | [-> | [-> L]]]; lia. }
  constructor; [exact B|].
  specialize (IH (next (tick rt o))). rewrite S, Mx in IH. now apply IH.
Qed.

(** The heartbeat table is append-only: after a run it is the table of
    the start followed by the beans the ticks stored, in order, each
    carrying the id of the monitor. *)
Theorem heartbeat_table_grows_by_stored_beans :
  forall (rt : Runtime) (observed : list Observations),
    heartbeat (finally rt observed)
    = (heartbeat rt ++ storedBeans (ticks rt observed))%list
    /\ Forall (fun b => monitor_id b = monId (self rt))
         (storedBeans (ticks rt observed)).
Proof.
  intros rt observed. revert rt.
  induction observed as [|o obsl IH]; intros rt;
    cbn [run runtimeAfter fold_left storedBeans flat_map].
  - split; [now rewrite app_nil_r | constructor].
  - destruct (tick_step rt o) as (S & _ & _ & T).
    destruct (patchTimeout_same (self rt)) as (_ & Id & _).
    destruct (IH (next (tick rt o))) as [I1 I2].
    fold (finally (next (tick rt o)) obsl).
    fold (storedBeans (ticks (next (tick rt o)) obsl)).
    rewrite I1. rewrite S, Id in I2.
    destruct (stored (tick rt o)) as [b|].
    + destruct T as (T1 & _ & T3 & _). rewrite T1, <- app_assoc.
      split; [reflexivity|]. constructor; assumption.
    + destruct T as (T1 & _). rewrite T1. split; [reflexivity | exact I2].
Qed.

(** A stored bean carries the time of its tick. Its duration is the
    whole seconds from the time of the previous beat the tick looked at
    to its own, both read as local time of the server, and 0 when there
    was no previous beat. For a monitor that is not of the push type the
    previous beat of the next tick is this bean, so the duration of the
    next bean is the whole seconds between the two ticks less the change
    of the zone's offset between the two readings: it is the whole
    seconds between the ticks when the offset is the same at both. *)
Theorem beat_time_and_duration :
  forall (rt : Runtime) (o1 : Observations) (b1 : Heartbeat),
    stored (tick rt o1) = Some b1 ->
    hbTime b1 = now o1
    /\ duration b1 = match reloadPrevious rt with
                     | Some pb =>
                         Z.quot (parseLocal o1 (now o1) - parseLocal o1 (hbTime pb))
                           1000
                     | None => 0
                     end
    /\ (monType (self rt) <> "push" ->
        forall o2 b2,
          stored (tick (next (tick rt o1)) o2) = Some b2 ->
          duration b2
          = Z.quot (now o2 - now o1
                    - (zoneOffset o2 (now o2) - zoneOffset o2 (now o1))) 1000
          /\ (zoneOffset o2 (now o2) = zoneOffset o2 (now o1) ->
              duration b2 = Z.quot (now o2 - now o1) 1000)).
Proof.
  intros rt o1 b1 H1.
  destruct (tick_step rt o1) as (S & _ & _ & T). rewrite H1 in T.
  destruct T as (_ & P & _ & Tt & Td & _).
  split; [exact Tt|]. split; [exact Td|].
  intros NP o2 b2 H2.
  destruct (patchTimeout_same (self rt)) as (Ty & _).
  destruct (tick_step (next (tick rt o1)) o2) as (_ & _ & _ & T2).
  rewrite H2 in T2. destruct T2 as (_ & _ & _ & _ & Td2 & _).
  rewrite (reloadPrevious_kept _ b1) in Td2; [| now rewrite S, Ty | exact P].
  rewrite Td2, Tt. unfold parseLocal. split.
  - f_equal. lia.
  - intros Z0. f_equal. lia.
Qed.

(** The timer a tick sets. After a bean is stored a stopped runtime sets
    none; otherwise the delay is [retryInterval] seconds for a PENDING
    bean when [retryInterval > 0], and the beat interval otherwise, which
    is the monitor's interval, 1 when that is 0, and at least 20 in demo
    mode. A tick that stores nothing (a push monitor inside its window)
    always sets a timer, of at least the 1000 ms buffer. *)
Theorem next_tick_delay :
  forall (rt : Runtime) (obs : Observations),
    match stored (tick rt obs) with
    | Some b =>
        heartbeatInterval (tick rt obs)
        = (if isStop rt then None
           else Some ((if status_eqb (status b) PENDING
                          && (0 <? retryInterval (self rt))
                       then retryInterval (self rt)
                       else basicInterval (self rt)) * 1000))
    | None => exists d, heartbeatInterval (tick rt obs) = Some d /\ 1000 <= d
    end
    /\ (interval (self rt) = 0 -> basicInterval (self rt) = if demoMode then 20 else 1)
    /\ (interval (self rt) <> 0 ->
        basicInterval (self rt)
        = if demoMode then Z.max 20 (interval (self rt)) else interval (self rt)).
Proof.
  intros rt obs.
  destruct (tick_step rt obs) as (_ & _ & _ & T).
  split; [|split].
  - destruct (stored (tick rt obs)) as [b|].
    + now destruct T as (_ & _ & _ & _ & _ & T).
    + now destruct T as (_ & _ & _ & _ & T).
  - intros E. unfold normalInterval. rewrite E. now destruct demoMode.
  - intros E. unfold normalInterval.
    apply Z.eqb_neq in E. rewrite E.
    destruct demoMode; [|reflexivity]. cbn [andb].
    destruct (interval (self rt) <? 20) eqn:L.
    + apply Z.ltb_lt in L. now rewrite Z.max_l by lia.
    + apply Z.ltb_ge in L. now rewrite Z.max_r by lia.
Qed.

(** ** What the [catch] makes of an exception *)

Lemma catchBlock_result m count e bean :
  let retry := (0 <? maxretries m) && (count <? maxretries m) in
  let kept := isUpsideDown m && status_eqb (status bean) UP in
  status (fst (recover m count e bean))
  = (if kept then status bean else if retry then PENDING else status bean)
  /\ snd (recover m count e bean)
     = (if kept then 0 else if retry then count + 1 else count)
  /\ msg (fst (recover m count e bean))
     = Some (if (errName e =? "CanceledError")%string
             then "timeout by AbortSignal (" ++ renderTimeout numberToString m ++ "s)"
             else errMessage e)
  /\ ping (fst (recover m count e bean)) = ping bean.
Proof.
  intros retry kept. unfold catchBlock.
  destruct (errName e =? "CanceledError")%string;
    cbn [status withMsg]; fold kept; fold retry;
    destruct kept, retry; repeat split.
Qed.

(** ** Ticks under maintenance *)

(** Under maintenance a tick probes nothing, whatever the type of the
    monitor and whether it is upside-down or not: it stores a MAINTENANCE
    bean with the message "Monitor under maintenance" and no ping, sets
    the retries to 0, and neither runs a pre-command nor sends a
    notification. *)
Theorem maintenance_tick :
  forall (rt : Runtime) (obs : Observations),
    underMaintenance obs = true ->
    exists b,
      stored (tick rt obs) = Some b
      /\ status b = MAINTENANCE
      /\ msg b = Some "Monitor under maintenance"
      /\ ping b = None
      /\ retries (next (tick rt obs)) = 0
      /\ effects (tick rt obs) = [].
Proof.
  intros rt obs H. rewrite tick_shape.
  unfold tryBody, dispatch. rewrite H.
  cbn [status withStatus withMsg flipStatus].
  assert (E : (if isUpsideDown (patchTimeout (self rt))
               then if status_eqb MAINTENANCE DOWN
                    then Throw (Error "Flip UP to DOWN")
                           (withStatus
                              (withStatus
                                 (withMsg (dispense (self rt) (reloadPrevious rt) obs)
                                    (Some "Monitor under maintenance")) MAINTENANCE)
                              MAINTENANCE)
                    else Normal
                           (withStatus
                              (withStatus
                                 (withMsg (dispense (self rt) (reloadPrevious rt) obs)
                                    (Some "Monitor under maintenance")) MAINTENANCE)
                              MAINTENANCE)
               else Normal
                      (withStatus
                         (withMsg (dispense (self rt) (reloadPrevious rt) obs)
                            (Some "Monitor under maintenance")) MAINTENANCE))
              = Normal
                  (withStatus
                     (withMsg (dispense (self rt) (reloadPrevious rt) obs)
                        (Some "Monitor under maintenance")) MAINTENANCE)).
  { now destruct (isUpsideDown _). }
  rewrite E. clear E.
  match goal with
  | |- context [afterTry rt ?mm ?p ?bi ?o ?x ?c] =>
      destruct (afterTry_stored rt mm p bi o x c) as (S1 & S2 & S3);
      pose proof (importanceBlock_keeps mm
                    match p with Some _ => false | None => true end
                    (option_map status p) (notificationList o) x) as K
  end.
  cbv zeta in K. destruct K as (Ks & Km & Kp & _).
  eexists. split; [exact S1|]. rewrite Ks, Km, Kp, S3, S2.
  repeat split.
  unfold importanceBlock. cbn [status withStatus withMsg].
  destruct (reloadPrevious rt) as [pb|]; cbn [option_map].
  - destruct (status pb); reflexivity.
  - reflexivity.
Qed.

(** ** What is sent, and when *)



(** ** Sending again while down *)





(** ** Probes that raise before they set a status *)

Lemma tick_of_early_raise rt obs e :
  dispatch monitorTypeList (patchTimeout (self rt)) (reloadPrevious rt)
    (basicInterval (self rt)) obs (dispense (self rt) (reloadPrevious rt) obs)
  = Throw e (dispense (self rt) (reloadPrevious rt) obs) ->
  exists b,
    stored (tick rt obs) = Some b
    /\ msg b = Some (catchMessage numberToString (patchTimeout (self rt)) e)
    /\ ping b = None
    /\ status b = statusAfterRaise (self rt) (retries rt)
    /\ retries (next (tick rt obs)) = retriesAfterRaise (self rt) (retries rt).
Proof.
  intros D.
  destruct (patchTimeout_same (self rt)) as (_ & _ & Up & Mx & _).
  rewrite tick_shape. unfold tryBody. rewrite D.
  set (b0 := dispense (self rt) (reloadPrevious rt) obs).
  destruct (catchBlock_result (patchTimeout (self rt)) (retries rt) e b0)
    as (Cs & Cc & Cm & Cp).
  destruct (afterTry_stored rt (patchTimeout (self rt)) (reloadPrevious rt)
              (basicInterval (self rt)) obs
              (fst (recover (patchTimeout (self rt)) (retries rt) e b0))
              (snd (recover (patchTimeout (self rt)) (retries rt) e b0)))
    as (S1 & _ & S3).
  destruct (importanceBlock_keeps (patchTimeout (self rt))
              match reloadPrevious rt with Some _ => false | None => true end
              (option_map status (reloadPrevious rt)) (notificationList obs)
              (fst (recover (patchTimeout (self rt)) (retries rt) e b0)))
    as (K1 & K2 & K3 & _).
  eexists. split; [exact S1|]. rewrite S3. cbn [retries].
  rewrite K1, K2, K3, Cs, Cc, Cm, Cp, Up, Mx.
  unfold statusAfterRaise, retriesAfterRaise, b0, dispense. cbn [status ping].
  destruct (isUpsideDown (self rt));
    cbn [flipStatus status_eqb statusCode Z.eqb andb];
    repeat split; try reflexivity;
    destruct ((0 <? maxretries (self rt)) && (retries rt <? maxretries (self rt)));
    reflexivity.
Qed.

(** On a tick outside a maintenance window, a monitor whose type has no
    branch of its own in [beat] (it is none of the names compared with
    [===] and no key of the list of monitor types) stores a bean without
    ping. Its message is "Unknown Monitor Type", unless the type is a
    name that every object inherits (toString, constructor, ...): for
    such a name [this.type in monitorTypeList] holds, and the message is
    that of the call that fails, "monitorType.check is not a function".
    Either way the bean is PENDING while retries are left and DOWN
    afterwards, but UP when the monitor is upside-down. *)
Theorem unknown_monitor_type :
  forall (rt : Runtime) (obs : Observations),
    knownType monitorTypeList (monType (self rt)) = false ->
    underMaintenance obs = false ->
    exists b,
      stored (tick rt obs) = Some b
      /\ msg b = Some (if mem (monType (self rt)) inheritedNames
                       then "monitorType.check is not a function"
                       else "Unknown Monitor Type")
      /\ ping b = None
      /\ status b = statusAfterRaise (self rt) (retries rt)
      /\ retries (next (tick rt obs)) = retriesAfterRaise (self rt) (retries rt).
Proof.
  intros rt obs K Hm.
  destruct (patchTimeout_same (self rt)) as (Ty & _).
  assert (D : dispatch monitorTypeList (patchTimeout (self rt)) (reloadPrevious rt)
                (basicInterval (self rt)) obs
                (dispense (self rt) (reloadPrevious rt) obs)
              = Throw (if mem (monType (self rt)) inheritedNames
                       then TypeError "monitorType.check is not a function"
                       else Error "Unknown Monitor Type")
                  (dispense (self rt) (reloadPrevious rt) obs)).
  { unfold dispatch. rewrite Hm, Ty.
    unfold knownType in K.
    repeat (apply orb_false_iff in K; destruct K as [K ?]).
    repeat match goal with H : _ = false |- _ => rewrite H; clear H end.
    cbn [orb]. now destruct (mem (monType (self rt)) inheritedNames). }
  destruct (tick_of_early_raise rt obs _ D) as (b & S1 & M & H).
  exists b. split; [exact S1|]. split; [|exact H].
  rewrite M. unfold catchMessage.
  now destruct (mem (monType (self rt)) inheritedNames).
Qed.

(** A request of an http, keyword or json-query monitor that is rejected
    (connection error, timeout, unaccepted status code) stores a beat
    whose message is the error's, or the abort text for a cancelled
    request; an upside-down monitor reports it UP and resets the retries,
    any other monitor goes through the retries to DOWN. *)
Theorem rejected_request :
  forall (rt : Runtime) (obs : Observations) (e : JsError),
    underMaintenance obs = false ->
    monType (self rt) = "http" \/ monType (self rt) = "keyword"
    \/ monType (self rt) = "json-query" ->
    axios obs = AxiosRejected e ->
    exists b,
      stored (tick rt obs) = Some b
      /\ msg b = Some (catchMessage numberToString (patchTimeout (self rt)) e)
      /\ ping b = None
      /\ status b = statusAfterRaise (self rt) (retries rt)
      /\ retries (next (tick rt obs)) = retriesAfterRaise (self rt) (retries rt).
Proof.
  intros rt obs e Hm Ty A.
  destruct (patchTimeout_same (self rt)) as (Te & _).
  apply tick_of_early_raise.
  unfold dispatch, httpBranch. rewrite Hm, Te, A.
  destruct Ty as [-> | [-> | ->]]; reflexivity.
Qed.

(** ** Keyword monitors *)

Lemma includes_empty s : includes s "" = true.
Proof. unfold includes. destruct s; reflexivity. Qed.

(** An answered request of a keyword monitor (not upside-down) is UP
    exactly when the keyword is found in the body and the check is not
    inverted, or is not found and the check is inverted; the retries
    start again at 0 then. Otherwise the beat goes through the retries
    to DOWN. Either way the ping is the time the request took. *)
Theorem keyword_verdict :
  forall (rt : Runtime) (obs : Observations) (res : HttpResponse),
    monType (self rt) = "keyword" ->
    isUpsideDown (self rt) = false ->
    underMaintenance obs = false ->
    axios obs = AxiosResolved res ->
    exists b,
      stored (tick rt obs) = Some b
      /\ ping b = Some (elapsed obs)
      /\ (xorb (includes (resData res) (keyword (self rt)))
               (isInvertKeyword (self rt)) = true ->
          status b = UP /\ retries (next (tick rt obs)) = 0)
      /\ (xorb (includes (resData res) (keyword (self rt)))
               (isInvertKeyword (self rt)) = false ->
          status b = statusAfterRaise (self rt) (retries rt)
          /\ retries (next (tick rt obs)) = retriesAfterRaise (self rt) (retries rt)).
Proof.
  intros rt obs res Ty Up Hm A.
  assert (P : monType (patchTimeout (self rt)) = "keyword"
              /\ isUpsideDown (patchTimeout (self rt)) = false
              /\ maxretries (patchTimeout (self rt)) = maxretries (self rt)
              /\ keyword (patchTimeout (self rt)) = keyword (self rt)
              /\ isInvertKeyword (patchTimeout (self rt)) = isInvertKeyword (self rt)).
  { destruct (patchTimeout_same (self rt)) as (T1 & _ & T3 & T4 & _).
    destruct (patchTimeout_keyword (self rt)) as (T5 & T6).
    rewrite T1, T3, T4, T5, T6. now repeat split. }
  destruct P as (T1 & T3 & T4 & T5 & T6).
  rewrite tick_shape. unfold tryBody, dispatch, httpBranch.
  rewrite Hm, T1, A, T3, T5, T6.
  cbn [String.eqb Ascii.eqb Bool.eqb orb andb].
  unfold statusAfterRaise, retriesAfterRaise. rewrite Up.
  set (found := includes (resData res) (keyword (self rt))).
  set (b0 := withPing _ _).
  destruct found, (isInvertKeyword (self rt));
    cbn [Bool.eqb negb xorb].
  - match goal with
    | |- context [recover ?m ?c ?e ?x] =>
        destruct (catchBlock_result m c e x) as (Cs & Cc & _ & Cp);
        destruct (afterTry_stored rt m (reloadPrevious rt)
                    (basicInterval (self rt)) obs
                    (fst (recover m c e x)) (snd (recover m c e x)))
          as (S1 & _ & S3);
        destruct (importanceBlock_keeps m
                    match reloadPrevious rt with Some _ => false | None => true end
                    (option_map status (reloadPrevious rt)) (notificationList obs)
                    (fst (recover m c e x))) as (K1 & _ & K3 & _)
    end.
    eexists. split; [exact S1|]. rewrite S3, K1, K3, Cs, Cc, Cp, T3, T4.
    cbn [retries andb]. unfold b0, dispense. cbn [ping status withPing withMsg].
    rewrite Up. split; [reflexivity|]. split; [discriminate|].
    intros _. destruct ((0 <? maxretries (self rt)) && _); split; reflexivity.
  - match goal with
    | |- context [afterTry rt ?m ?p ?bi ?o ?x ?c] =>
        destruct (afterTry_stored rt m p bi o x c) as (S1 & _ & S3);
        destruct (importanceBlock_keeps m
                    match p with Some _ => false | None => true end
                    (option_map status p) (notificationList o) x)
          as (K1 & _ & K3 & _)
    end.
    eexists. split; [exact S1|]. rewrite S3, K1, K3. cbn [retries].
    split; [reflexivity|]. split; [intros _; split; reflexivity | discriminate].
  - match goal with
    | |- context [afterTry rt ?m ?p ?bi ?o ?x ?c] =>
        destruct (afterTry_stored rt m p bi o x c) as (S1 & _ & S3);
        destruct (importanceBlock_keeps m
                    match p with Some _ => false | None => true end
                    (option_map status p) (notificationList o) x)
          as (K1 & _ & K3 & _)
    end.
    eexists. split; [exact S1|]. rewrite S3, K1, K3. cbn [retries].
    split; [reflexivity|]. split; [intros _; split; reflexivity | discriminate].
  - match goal with
    | |- context [recover ?m ?c ?e ?x] =>
        destruct (catchBlock_result m c e x) as (Cs & Cc & _ & Cp);
        destruct (afterTry_stored rt m (reloadPrevious rt)
                    (basicInterval (self rt)) obs
                    (fst (recover m c e x)) (snd (recover m c e x)))
          as (S1 & _ & S3);
        destruct (importanceBlock_keeps m
                    match reloadPrevious rt with Some _ => false | None => true end
                    (option_map status (reloadPrevious rt)) (notificationList obs)
                    (fst (recover m c e x))) as (K1 & _ & K3 & _)
    end.
    eexists. split; [exact S1|]. rewrite S3, K1, K3, Cs, Cc, Cp, T3, T4.
    cbn [retries andb]. unfold b0, dispense. cbn [ping status withPing withMsg].
    rewrite Up. split; [reflexivity|]. split; [discriminate|].
    intros _. destruct ((0 <? maxretries (self rt)) && _); split; reflexivity.
Qed.

(** With an empty keyword every body contains the keyword: a keyword
    monitor that is neither inverted nor upside-down is UP whenever the
    request is answered, whatever the answer says. *)
Theorem empty_keyword_is_always_found :
  forall (rt : Runtime) (obs : Observations) (res : HttpResponse),
    monType (self rt) = "keyword" ->
    keyword (self rt) = "" ->
    isInvertKeyword (self rt) = false ->
    isUpsideDown (self rt) = false ->
    underMaintenance obs = false ->
    axios obs = AxiosResolved res ->
    exists b,
      stored (tick rt obs) = Some b
      /\ status b = UP
      /\ msg b = Some ((string_of_Z (resStatus res) ++ " - " ++ resStatusText res)
                        ++ ", keyword is found").
Proof.
  intros rt obs res Ty Kw Iv Up Hm A.
  assert (P : monType (patchTimeout (self rt)) = "keyword"
              /\ isUpsideDown (patchTimeout (self rt)) = false
              /\ keyword (patchTimeout (self rt)) = ""
              /\ isInvertKeyword (patchTimeout (self rt)) = false).
  { destruct (patchTimeout_same (self rt)) as (T1 & _ & T3 & _).
    destruct (patchTimeout_keyword (self rt)) as (T5 & T6).
    rewrite T1, T3, T5, T6. now repeat split. }
  destruct P as (T1 & T3 & T5 & T6).
  rewrite tick_shape. unfold tryBody, dispatch, httpBranch.
  rewrite Hm, T1, A, T3, T5, T6, includes_empty.
  cbn [String.eqb Ascii.eqb Bool.eqb orb andb negb].
  match goal with
  | |- context [afterTry rt ?m ?p ?bi ?o ?x ?c] =>
      destruct (afterTry_stored rt m p bi o x c) as (S1 & _);
      destruct (importanceBlock_keeps m
                  match p with Some _ => false | None => true end
                  (option_map status p) (notificationList o) x)
        as (K1 & K2 & _)
  end.
  eexists. split; [exact S1|]. rewrite K1, K2. cbn [status msg withStatus withMsg].
  split; reflexivity.
Qed.

End BeatFurther.

(* ===================================================================== *)
(** ** Further properties of the TLS tracker *)
(* ===================================================================== *)

Lemma findTlsInfo_other t monitorID other info :
  other <> monitorID ->
  findTlsInfo (storeTlsInfo t monitorID info) other = findTlsInfo t other.
Proof.
  intros N. unfold findTlsInfo. f_equal.
  induction t as [|row rest IH]; cbn.
  - assert (E : (monitorID =? other) = false) by (apply Z.eqb_neq; congruence).
    now rewrite E.
  - destruct (fst row =? monitorID) eqn:E; cbn.
    + apply Z.eqb_eq in E.
      assert (E1 : (monitorID =? other) = false) by (apply Z.eqb_neq; congruence).
      assert (E2 : (fst row =? other) = false) by (apply Z.eqb_neq; congruence).
      now rewrite E1, E2.
    + destruct (fst row =? other); [reflexivity | exact IH].
Qed.

Lemma sendCert_appends m cn ty days targetDays providers w :
  let w' := sendCertNotificationByTargetDays m cn ty days targetDays providers w in
  monitor_tls_info w' = monitor_tls_info w
  /\ tlsExpiryNotifyDays w' = tlsExpiryNotifyDays w
  /\ (exists added,
        outbox w' = (outbox w ++ added)%list
        /\ Forall (fun n => forTargetDays n = targetDays
                            /\ In (toProvider n) (map providerName providers)) added)
  /\ (exists rows,
        notification_sent_history w' = (notification_sent_history w ++ rows)%list
        /\ Forall (fun r => r = certificateRow m targetDays) rows).
Proof.
  cbv zeta. unfold sendCertNotificationByTargetDays.
  destruct (find _ (notification_sent_history w)).
  - repeat split; try (exists []; split; [now rewrite app_nil_r | constructor]).
  - assert (F : forall text,
              Forall (fun n => forTargetDays n = targetDays
                               /\ In (toProvider n) (map providerName providers))
                (map (fun n => {| toProvider := providerName n; certText := text;
                                  forTargetDays := targetDays |}) providers)).
    { intros text. apply Forall_forall. intros n Hn.
      apply in_map_iff in Hn. destruct Hn as (p & <- & Hp). cbn.
      split; [reflexivity | now apply in_map]. }
    destruct (existsb _ providers); cbn.
    + repeat split.
      * eexists. split; [reflexivity | apply F].
      * eexists. split; [reflexivity|]. repeat constructor.
    + repeat split.
      * eexists. split; [reflexivity | apply F].
      * exists []. split; [now rewrite app_nil_r | constructor].
Qed.

Section TlsFurther.

Variable rootCertificates : string -> bool.

Local Notation walk := (walkChain rootCertificates).
Local Notation check := (checkCertExpiryNotifications rootCertificates).
Local Notation handle := (handleTlsInfo rootCertificates).

Lemma walkChain_appends m targetDays providers c :
  forall w,
    let w' := walk m targetDays providers c w in
    monitor_tls_info w' = monitor_tls_info w
    /\ tlsExpiryNotifyDays w' = tlsExpiryNotifyDays w
    /\ (exists added,
          outbox w' = (outbox w ++ added)%list
          /\ Forall (fun n => forTargetDays n = targetDays
                              /\ In (toProvider n) (map providerName providers)) added)
    /\ (exists rows,
          notification_sent_history w' = (notification_sent_history w ++ rows)%list
          /\ Forall (fun r => r = certificateRow m targetDays) rows).
Proof.
  assert (Id : forall w : TlsStore,
            monitor_tls_info w = monitor_tls_info w
            /\ tlsExpiryNotifyDays w = tlsExpiryNotifyDays w
            /\ (exists added,
                  outbox w = (outbox w ++ added)%list
                  /\ Forall (fun n => forTargetDays n = targetDays
                                      /\ In (toProvider n) (map providerName providers))
                       added)
            /\ (exists rows,
                  notification_sent_history w = (notification_sent_history w ++ rows)%list
                  /\ Forall (fun r => r = certificateRow m targetDays) rows)).
  { intros w. repeat split;
      exists []; (split; [now rewrite app_nil_r | constructor]). }
  assert (One : forall cn ty d w,
            let w' := if targetDays <? d then w
                      else sendCertNotificationByTargetDays m cn ty d targetDays
                             providers w in
            monitor_tls_info w' = monitor_tls_info w
            /\ tlsExpiryNotifyDays w' = tlsExpiryNotifyDays w
            /\ (exists added,
                  outbox w' = (outbox w ++ added)%list
                  /\ Forall (fun n => forTargetDays n = targetDays
                                      /\ In (toProvider n) (map providerName providers))
                       added)
            /\ (exists rows,
                  notification_sent_history w'
                  = (notification_sent_history w ++ rows)%list
                  /\ Forall (fun r => r = certificateRow m targetDays) rows)).
  { intros cn ty d w. cbv zeta.
    destruct (targetDays <? d); [apply Id | apply sendCert_appends]. }
  induction c as [cn ty fp d | cn ty fp d up IH] using CertInfo_chain_ind;
    intros w; cbn [walkChain]; cbv zeta.
  - destruct (rootCertificates fp); [apply Id | apply One].
  - destruct (rootCertificates fp); [apply Id|].
    destruct (One cn ty d w) as (A1 & A2 & (a1 & A3 & A4) & (r1 & A5 & A6)).
    cbv zeta in A1, A2, A3, A5.
    match goal with
    | |- context [walk m targetDays providers up ?u] =>
        destruct (IH u) as (B1 & B2 & (a2 & B3 & B4) & (r2 & B5 & B6))
    end.
    cbv zeta in B1, B2, B3, B5.
    rewrite B1, B2, B3, B5, A1, A2, A3, A5.
    repeat split.
    + exists (a1 ++ a2)%list. split; [now rewrite app_assoc | now apply Forall_app].
    + exists (r1 ++ r2)%list. split; [now rewrite app_assoc | now apply Forall_app].
Qed.

Lemma walks_append m providers c (days scope : list Z) :
  forall w,
    (forall t, In t days -> In t scope) ->
    let w' := fold_left (fun u targetDays => walk m targetDays providers c u) days w in
    monitor_tls_info w' = monitor_tls_info w
    /\ tlsExpiryNotifyDays w' = tlsExpiryNotifyDays w
    /\ (exists added,
          outbox w' = (outbox w ++ added)%list
          /\ Forall (fun n => In (forTargetDays n) scope
                              /\ In (toProvider n) (map providerName providers)) added)
    /\ (exists rows,
          notification_sent_history w' = (notification_sent_history w ++ rows)%list
          /\ Forall (fun r => exists t, In t scope /\ r = certificateRow m t) rows).
Proof.
  induction days as [|t rest IH]; intros w Sc; cbn [fold_left]; cbv zeta.
  - repeat split; exists []; (split; [now rewrite app_nil_r | constructor]).
  - destruct (walkChain_appends m t providers c w)
      as (A1 & A2 & (a1 & A3 & A4) & (r1 & A5 & A6)).
    cbv zeta in A1, A2, A3, A5.
    destruct (IH (walk m t providers c w)) as (B1 & B2 & (a2 & B3 & B4) & (r2 & B5 & B6)).
    { intros t' Ht. apply Sc. now right. }
    cbv zeta in B1, B2, B3, B5.
    rewrite B1, B2, B3, B5, A1, A2, A3, A5.
    assert (St : In t scope) by (apply Sc; now left).
    repeat split.
    + exists (a1 ++ a2)%list. split; [now rewrite app_assoc|].
      apply Forall_app. split; [|exact B4].
      eapply Forall_impl; [|exact A4]. intros n [-> Hn]. now split.
    + exists (r1 ++ r2)%list. split; [now rewrite app_assoc|].
      apply Forall_app. split; [|exact B6].
      eapply Forall_impl; [|exact A6]. intros r ->. now exists t.
Qed.

Lemma check_appends m info providers w :
  let w' := check m info providers w in
  monitor_tls_info w' = monitor_tls_info w
  /\ (exists added,
        outbox w' = (outbox w ++ added)%list
        /\ Forall (fun n => In (forTargetDays n) (notifyDaysOf w)
                            /\ In (toProvider n) (map providerName providers)) added)
  /\ (exists rows,
        notification_sent_history w' = (notification_sent_history w ++ rows)%list
        /\ Forall (fun r => exists t, In t (notifyDaysOf w) /\ r = certificateRow m t)
             rows).
Proof.
  assert (Id : monitor_tls_info w = monitor_tls_info w
               /\ (exists added,
                     outbox w = (outbox w ++ added)%list
                     /\ Forall (fun n => In (forTargetDays n) (notifyDaysOf w)
                                         /\ In (toProvider n)
                                              (map providerName providers)) added)
               /\ (exists rows,
                     notification_sent_history w
                     = (notification_sent_history w ++ rows)%list
                     /\ Forall (fun r => exists t, In t (notifyDaysOf w)
                                                   /\ r = certificateRow m t) rows)).
  { repeat split; exists []; (split; [now rewrite app_nil_r | constructor]). }
  cbv zeta. unfold checkCertExpiryNotifications.
  destruct (certInfo info) as [leaf|]; [|exact Id].
  destruct (daysRemaining leaf =? 0); [exact Id|].
  destruct (negb _); [exact Id|].
  unfold notifyDaysOf.
  destruct (tlsExpiryNotifyDays w) as [days|].
  - destruct (walks_append m providers leaf days days w (fun t H => H))
      as (A1 & _ & A3 & A4).
    repeat split; assumption.
  - destruct (walks_append m providers leaf [7; 14; 21] [7; 14; 21]
                (withNotifyDays w (Some [7; 14; 21])) (fun t H => H))
      as (A1 & _ & A3 & A4).
    repeat split; assumption.
Qed.

(** What [handleTlsInfo] stores is what [getCertExpiry] reads back for
    the monitor: the days of the leaf when the chain is valid and the
    leaf has a number of days other than 0, nothing otherwise (a leaf
    that expires today reads as no valid certificate). What is stored
    for another monitor is not touched. *)
Theorem stored_certificate_is_read_back :
  forall (m : Monitor) (info : TlsInfo) (providers : list Provider) (w : TlsStore),
    let w' := handle m info providers w in
    getCertExpiry (monitor_tls_info w') (monId m)
    = match certInfo info with
      | Some c =>
          if valid info && negb (daysRemaining c =? 0)
          then {| certExpiryDaysRemaining := Some (daysRemaining c);
                  validCert := true |}
          else {| certExpiryDaysRemaining := None; validCert := false |}
      | None => {| certExpiryDaysRemaining := None; validCert := false |}
      end
    /\ forall other,
         other <> monId m ->
         getCertExpiry (monitor_tls_info w') other
         = getCertExpiry (monitor_tls_info w) other.
Proof.
  intros m info providers w w'.
  assert (T : monitor_tls_info w'
              = storeTlsInfo (monitor_tls_info w) (monId m) info).
  { unfold w', handleTlsInfo.
    assert (U : monitor_tls_info (updateTlsInfo m info w)
                = storeTlsInfo (monitor_tls_info w) (monId m) info).
    { unfold updateTlsInfo.
      destruct (findTlsInfo (monitor_tls_info w) (monId m)) as [old|];
        [|reflexivity].
      destruct (certInfo old), (certInfo info); try reflexivity.
      destruct (negb _); reflexivity. }
    destruct (negb (getIgnoreTls m) && isEnabledExpiryNotification m);
      [|exact U].
    destruct (check_appends m info providers (updateTlsInfo m info w)) as (C & _).
    cbv zeta in C. now rewrite C. }
  rewrite T. unfold getCertExpiry. split.
  - now rewrite findTlsInfo_stored.
  - intros other N. now rewrite findTlsInfo_other.
Qed.

(** Storing a certificate whose fingerprint differs from the stored one
    deletes the certificate rows of this monitor from the sent history;
    otherwise the history stays as it is. The rows of other monitors and
    of other types are kept in either case, in their order. *)
Theorem changed_certificate_clears_sent_history :
  forall (m : Monitor) (info : TlsInfo) (w : TlsStore),
    let h' := notification_sent_history (updateTlsInfo m info w) in
    (fingerprintChanged w m info = true -> noCertificateRow (monId m) h')
    /\ (fingerprintChanged w m info = false -> h' = notification_sent_history w)
    /\ filter (fun r => negb (isCertificateRowOf (monId m) r)) h'
       = filter (fun r => negb (isCertificateRowOf (monId m) r))
           (notification_sent_history w).
Proof.
  intros m info w h'. unfold h', updateTlsInfo, fingerprintChanged.
  assert (Ff : forall l : list SentHistory,
            filter (fun r => negb (isCertificateRowOf (monId m) r))
              (filter (fun r => negb (isCertificateRowOf (monId m) r)) l)
            = filter (fun r => negb (isCertificateRowOf (monId m) r)) l).
  { intros l. apply filter_keeps_all. intros x Hx.
    now apply filter_In in Hx. }
  destruct (findTlsInfo (monitor_tls_info w) (monId m)) as [old|];
    [|cbn; repeat split; discriminate].
  destruct (certInfo old) as [oc|], (certInfo info) as [nc|];
    try (cbn; repeat split; discriminate).
  destruct (negb (fingerprint256 oc =? fingerprint256 nc)%string); cbn.
  - split; [|split; [discriminate | apply Ff]].
    intros _ r Hr. apply filter_In in Hr. destruct Hr as [_ Hr].
    now apply negb_true_iff in Hr.
  - repeat split; discriminate.
Qed.

(** Once a threshold has been notified with at least one send that did
    not throw, the same threshold, and every higher one, sends nothing
    more for this monitor, whatever certificate it is asked about. *)
Theorem cert_notification_once_per_threshold :
  forall (m : Monitor) (cn ty cn' ty' : string) (days days' targetDays later : Z)
         (providers providers' : list Provider) (w : TlsStore),
    existsb (fun n => negb (sendThrows n)) providers = true ->
    targetDays <= later ->
    let once :=
      sendCertNotificationByTargetDays m cn ty days targetDays providers w in
    sendCertNotificationByTargetDays m cn' ty' days' later providers' once = once.
Proof.
  intros m cn ty cn' ty' days days' targetDays later providers providers' w Ok Le once.
  assert (Hin : exists r,
            In r (notification_sent_history once)
            /\ isCertificateRowOf (monId m) r = true
            /\ sentDays r <= targetDays).
  { unfold once, sendCertNotificationByTargetDays.
    destruct (find _ (notification_sent_history w)) as [r|] eqn:F.
    - apply find_some in F. destruct F as [Hin Hr].
      apply andb_true_iff in Hr. destruct Hr as [H1 H2]. apply Z.leb_le in H2.
      now exists r.
    - cbv zeta. rewrite Ok. exists (certificateRow m targetDays).
      cbn [notification_sent_history withHistory]. split.
      + apply in_or_app. right. now left.
      + unfold isCertificateRowOf, certificateRow. cbn.
        rewrite Z.eqb_refl. split; [reflexivity | lia]. }
  destruct Hin as (r & Hin & H1 & H2).
  unfold sendCertNotificationByTargetDays at 1.
  destruct (find_some_of
              (fun r => isCertificateRowOf (monId m) r && (sentDays r <=? later))
              (notification_sent_history once) r Hin) as (y & ->); [|reflexivity].
  rewrite H1. apply Z.leb_le. lia.
Qed.

(** When every provider throws, the threshold is not recorded: the next
    check of the same threshold sends again. *)
Theorem failed_cert_notification_is_sent_again :
  forall (m : Monitor) (cn ty : string) (days targetDays : Z)
         (providers : list Provider) (w : TlsStore),
    existsb (fun n => negb (sendThrows n)) providers = false ->
    sentAlready m targetDays w = false ->
    let once :=
      sendCertNotificationByTargetDays m cn ty days targetDays providers w in
    notification_sent_history once = notification_sent_history w
    /\ outbox once
       = (outbox w ++ certNotifications m cn ty days targetDays providers)%list
    /\ outbox (sendCertNotificationByTargetDays m cn ty days targetDays providers once)
       = (outbox once ++ certNotifications m cn ty days targetDays providers)%list.
Proof.
  intros m cn ty days targetDays providers w No Fresh once.
  assert (F : find (fun r => isCertificateRowOf (monId m) r
                             && (sentDays r <=? targetDays))
                (notification_sent_history w) = None).
  { apply find_none_of. intros x Hx.
    unfold sentAlready in Fresh.
    destruct (isCertificateRowOf (monId m) x && (sentDays x <=? targetDays)) eqn:E;
      [|reflexivity].
    assert (T : existsb (fun r => isCertificateRowOf (monId m) r
                                  && (sentDays r <=? targetDays))
                  (notification_sent_history w) = true)
      by (apply existsb_exists; now exists x).
    congruence. }
  assert (E : once = withOutbox w
                       (outbox w ++ certNotifications m cn ty days targetDays
                                      providers)%list).
  { unfold once, sendCertNotificationByTargetDays. now rewrite F, No. }
  rewrite E. cbn [notification_sent_history outbox withOutbox].
  split; [reflexivity|]. split; [reflexivity|].
  unfold sendCertNotificationByTargetDays.
  cbn [notification_sent_history outbox withOutbox]. now rewrite F, No.
Qed.

(** The expiry check sends nothing when TLS errors are ignored, when the
    expiry notification is off, when the monitor has no provider, when
    no certificate was captured, when the leaf has 0 days left, or when
    the leaf itself is a known root: the sent history is then what
    [updateTlsInfo] left. *)
Theorem no_expiry_notification_cases :
  forall (m : Monitor) (info : TlsInfo) (providers : list Provider) (w : TlsStore),
    getIgnoreTls m = true \/ isEnabledExpiryNotification m = false
    \/ providers = [] \/ certInfo info = None
    \/ (exists leaf,
          certInfo info = Some leaf
          /\ (daysRemaining leaf = 0
              \/ rootCertificates (fingerprint256 leaf) = true)) ->
    outbox (handle m info providers w) = outbox w
    /\ notification_sent_history (handle m info providers w)
       = notification_sent_history (updateTlsInfo m info w).
Proof.
  intros m info providers w H.
  assert (O : outbox (updateTlsInfo m info w) = outbox w).
  { unfold updateTlsInfo.
    destruct (findTlsInfo (monitor_tls_info w) (monId m)) as [old|];
      [|reflexivity].
    destruct (certInfo old), (certInfo info); try reflexivity.
    destruct (negb _); reflexivity. }
  unfold handleTlsInfo.
  destruct (negb (getIgnoreTls m) && isEnabledExpiryNotification m) eqn:G;
    [|now split].
  apply andb_true_iff in G. destruct G as [G1 G2].
  apply negb_true_iff in G1.
  destruct H as [H | [H | H]]; [congruence | congruence |].
  set (u := updateTlsInfo m info w) in *.
  assert (Same : outbox (check m info providers u) = outbox u
                 /\ notification_sent_history (check m info providers u)
                    = notification_sent_history u);
    [|destruct Same as [S1 S2]; now rewrite S1, S2].
  unfold checkCertExpiryNotifications.
  destruct H as [-> | [-> | (leaf & -> & [Z0 | Rt])]].
  - destruct (certInfo info); [|now split].
    destruct (daysRemaining c =? 0); now split.
  - now split.
  - rewrite Z0. now split.
  - destruct (daysRemaining leaf =? 0); [now split|].
    destruct (negb _); [now split|].
    assert (W : forall t v, walk m t providers leaf v = v).
    { intros t v. destruct leaf as [cn ty fp d up]. cbn in Rt |- *.
      now rewrite Rt. }
    assert (Fo : forall days v,
              fold_left (fun x targetDays => walk m targetDays providers leaf x)
                days v = v).
    { induction days as [|t rest IH]; intros v; cbn; [reflexivity|].
      now rewrite W. }
    destruct (tlsExpiryNotifyDays u); rewrite Fo; now split.
Qed.

(** The expiry check only ever adds: to the messages, ones for the
    configured thresholds (or 7, 14, 21) addressed to the providers of
    the monitor; to the sent history, certificate rows of this monitor
    for those thresholds. The stored certificates are not touched. *)
Theorem expiry_check_only_adds :
  forall (m : Monitor) (info : TlsInfo) (providers : list Provider) (w : TlsStore),
    let w' := check m info providers w in
    monitor_tls_info w' = monitor_tls_info w
    /\ (exists added,
          outbox w' = (outbox w ++ added)%list
          /\ Forall (fun n => In (forTargetDays n) (notifyDaysOf w)
                              /\ In (toProvider n) (map providerName providers)) added)
    /\ (exists rows,
          notification_sent_history w' = (notification_sent_history w ++ rows)%list
          /\ Forall (fun r => exists t, In t (notifyDaysOf w)
                                        /\ r = certificateRow m t) rows).
Proof. intros m info providers w. apply check_appends. Qed.

(** A chain whose certificates all have more days left than the largest
    threshold (up to the first known root) sends nothing and records
    nothing. *)
Theorem quiet_chain_sends_nothing :
  forall (m : Monitor) (info : TlsInfo) (leaf : CertInfo) (limit : Z)
         (providers : list Provider) (w : TlsStore),
    certInfo info = Some leaf ->
    silentFrom rootCertificates limit leaf ->
    Forall (fun t => t <= limit) (notifyDaysOf w) ->
    outbox (check m info providers w) = outbox w
    /\ notification_sent_history (check m info providers w)
       = notification_sent_history w.
Proof.
  intros m info leaf limit providers w Ci Q Le.
  unfold checkCertExpiryNotifications. rewrite Ci.
  destruct (daysRemaining leaf =? 0); [now split|].
  destruct (negb _); [now split|].
  assert (Fo : forall days v,
            Forall (fun t => t <= limit) days ->
            fold_left (fun x targetDays => walk m targetDays providers leaf x)
              days v = v).
  { induction days as [|t rest IH]; intros v Hd; cbn; [reflexivity|].
    inversion Hd; subst.
    rewrite (walkChain_silent rootCertificates m providers limit t leaf v)
      by assumption.
    now apply IH. }
  unfold notifyDaysOf in Le.
  destruct (tlsExpiryNotifyDays w); rewrite Fo by assumption; now split.
Qed.

End TlsFurther.

(* ===================================================================== *)
(** ** Further properties of the uptime aggregation *)
(* ===================================================================== *)

Lemma filter_within {A} (p q : A -> bool) (l : list A) :
  (forall x, p x = true -> q x = true) ->
  filter p (filter q l) = filter p l.
Proof.
  intros H. induction l as [|x l IH]; cbn; [reflexivity|].
  destruct (q x) eqn:Q; cbn.
  - destruct (p x); now rewrite IH.
  - destruct (p x) eqn:P; [|exact IH].
    apply H in P. congruence.
Qed.

Lemma find_within {A} (q : A -> bool) (l : list A) :
  find q (filter q l) = find q l.
Proof.
  induction l as [|x l IH]; cbn; [reflexivity|].
  destruct (q x) eqn:Q; cbn; [now rewrite Q | exact IH].
Qed.

Lemma computeUptime_ratio duration_ monitorID nowMs table :
  let startTime := windowStart duration_ nowMs in
  let rows := filter (fun r => inWindow startTime r && (monitor_id r =? monitorID))
                table in
  let total := sumQ (map (trimmed startTime) rows) in
  let up := sumQ (map (trimmed startTime) (filter countsAsUp rows)) in
  (0 < total)%Q ->
  (0 <= up / total)%Q ->
  (computeUptime duration_ monitorID nowMs table == up / total)%Q.
Proof.
  intros startTime rows total up Pos NonNeg.
  unfold computeUptime. fold startTime. fold rows.
  set (T := toNumber (sqlSum (map (fun r => Some (trimmed startTime r)) rows))).
  set (U := toNumber (sqlSum (map (fun r => if countsAsUp r
                                            then Some (trimmed startTime r)
                                            else None) rows))).
  assert (ET : (T == total)%Q).
  { unfold T, total. now rewrite sqlSum_sum, values_all. }
  assert (EU : (U == up)%Q).
  { unfold U, up. now rewrite sqlSum_sum, values_some. }
  assert (C1 : Qle_bool T 0 = false).
  { destruct (Qle_bool T 0) eqn:E; [|reflexivity].
    apply Qle_bool_iff in E. rewrite ET in E. lra. }
  rewrite C1. cbn [negb].
  assert (EQ : (U / T == up / total)%Q) by now rewrite ET, EU.
  assert (C2 : Qle_bool 0 (U / T) = true).
  { apply Qle_bool_iff. now rewrite EQ. }
  rewrite C2. cbn [negb]. exact EQ.
Qed.

(** The window starts at the whole second of the clock [duration] hours
    ago and holds the beats of that second and later. When every
    heartbeat of the monitor inside it is UP or MAINTENANCE the uptime
    is 1, and when none is it is 0 (a window whose trimmed durations sum
    to more than 0; no cached value is used). *)
Theorem uptime_of_uniform_window :
  forall (duration_ monitorID nowMs : Z) (table : list Heartbeat)
         (forceNoCache : bool) (cachedUptime : option Q),
    let startTime := windowStart duration_ nowMs in
    let rows := filter (fun r => inWindow startTime r && (monitor_id r =? monitorID))
                  table in
    let uptime := calcUptime duration_ monitorID forceNoCache cachedUptime nowMs table in
    (forceNoCache = true \/ cachedUptime = None) ->
    (0 < sumQ (map (trimmed startTime) rows))%Q ->
    ((forall r, In r rows -> countsAsUp r = true) -> (uptime == 1)%Q)
    /\ ((forall r, In r rows -> countsAsUp r = false) -> (uptime == 0)%Q).
Proof.
  intros duration_ monitorID nowMs table forceNoCache cachedUptime
         startTime rows uptime Miss Pos.
  assert (E : uptime = computeUptime duration_ monitorID nowMs table).
  { unfold uptime, calcUptime. destruct Miss as [-> | ->]; [reflexivity|].
    now destruct forceNoCache. }
  rewrite E. split; intros H.
  - assert (F : filter countsAsUp rows = rows) by now apply filter_keeps_all.
    rewrite computeUptime_ratio; fold startTime; fold rows; rewrite ?F.
    + field. lra.
    + exact Pos.
    + assert (Q1 : (sumQ (map (trimmed startTime) rows)
                    / sumQ (map (trimmed startTime) rows) == 1)%Q)
        by (field; lra).
      rewrite Q1. lra.
  - assert (F : filter countsAsUp rows = []).
    { clear - H. induction rows as [|r rows IH]; cbn; [reflexivity|].
      rewrite (H r (or_introl eq_refl)). apply IH.
      intros x Hx. apply H. now right. }
    rewrite computeUptime_ratio; fold startTime; fold rows; rewrite ?F; cbn [map sumQ fold_right].
    + field. lra.
    + exact Pos.
    + assert (Q0 : (0 / sumQ (map (trimmed startTime) rows) == 0)%Q)
        by (field; lra).
      rewrite Q0. lra.
Qed.

(** The uptime of a monitor depends on the heartbeats of that monitor
    only: the rows of other monitors can be dropped from the table. *)
Theorem uptime_ignores_other_monitors :
  forall (duration_ monitorID nowMs : Z) (table : list Heartbeat)
         (forceNoCache : bool) (cachedUptime : option Q),
    calcUptime duration_ monitorID forceNoCache cachedUptime nowMs
      (filter (fun r => monitor_id r =? monitorID) table)
    = calcUptime duration_ monitorID forceNoCache cachedUptime nowMs table.
Proof.
  intros duration_ monitorID nowMs table forceNoCache cachedUptime.
  unfold calcUptime.
  destruct (if forceNoCache then None else cachedUptime); [reflexivity|].
  unfold computeUptime.
  rewrite (filter_within
             (fun r => inWindow (windowStart duration_ nowMs) r
                       && (monitor_id r =? monitorID))
             (fun r => monitor_id r =? monitorID) table).
  - now rewrite (find_within (fun r => monitor_id r =? monitorID) table).
  - intros x Hx. now apply andb_true_iff in Hx.
Qed.

(* ===================================================================== *)
(** ** Properties of the request of the http probes *)
(* ===================================================================== *)

Lemma getProperty_set o key value :
  getProperty (setProperty o key value) key = Some value.
Proof.
  unfold getProperty. induction o as [|entry rest IH]; cbn.
  - now rewrite String.eqb_refl.
  - destruct (fst entry =? key)%string eqn:E; cbn.
    + now rewrite String.eqb_refl.
    + now rewrite E.
Qed.

Section RequestProperties.

Variable transport : nat -> bool -> RequestOptions -> AxiosOutcome.
Variable ntlm : bool.

Local Notation request := (makeAxiosRequest transport ntlm).

(** [makeAxiosRequest] always completes, after one request or two. It
    makes a second request only when it was not called as the final
    call and the first one was rejected with an incomplete response;
    that second request carries the header Accept-Encoding with
    "gzip, deflate". *)
Theorem request_is_retried_once_with_gzip :
  forall (fuel n : nat) (options : RequestOptions) (finalCall : bool),
    (2 <= fuel)%nat ->
    exists r,
      request fuel n options finalCall = Some r
      /\ (1 <= List.length (sent r) <= 2)%nat
      /\ (forall second,
            nth_error (sent r) 1 = Some second ->
            finalCall = false
            /\ getProperty (headers second) "Accept-Encoding" = Some "gzip, deflate"
            /\ exists first e,
                 nth_error (sent r) 0 = Some first
                 /\ transport n ntlm first = AxiosRejected e
                 /\ incompleteResponse e = true).
Proof.
  intros fuel n options finalCall Hf.
  destruct fuel as [|[|fuel]]; try lia.
  cbn [makeAxiosRequest].
  set (o1 := if ntlm then _ else options).
  destruct (transport n ntlm o1) as [e|res] eqn:T1.
  - destruct (negb finalCall && incompleteResponse e) eqn:G.
    + apply andb_true_iff in G. destruct G as [G1 G2].
      apply negb_true_iff in G1.
      set (o2 := {| headers := setProperty (headers o1) "Accept-Encoding"
                                 "gzip, deflate";
                    keepAlive := keepAlive o1 |}).
      set (o3 := if ntlm then _ else o2).
      assert (H3 : getProperty (headers o3) "Accept-Encoding" = Some "gzip, deflate").
      { unfold o3, o2. destruct ntlm; cbn [headers]; apply getProperty_set. }
      destruct (transport (S n) ntlm o3) as [e2|res2];
        cbn [andb negb]; eexists; (split; [reflexivity|]);
        cbn [sent List.length nth_error]; (split; [lia|]);
        intros second Hs; injection Hs as <-;
        (split; [exact G1|]); (split; [exact H3|]);
        exists o1, e; repeat split; assumption.
    + eexists. split; [reflexivity|]. cbn [sent List.length nth_error].
      split; [lia|]. intros second Hs. discriminate Hs.
  - eexists. split; [reflexivity|]. cbn [sent List.length nth_error].
    split; [lia|]. intros second Hs. discriminate Hs.
Qed.

(** The error of an incomplete response ("maxContentLength size of -1
    exceeded") never reaches the caller: the request is made again, and
    if the final request fails in that way too, the error is thrown with
    the message "response timeout: incomplete response within a
    interval". Any other error is thrown as it is, and an answer is
    returned as it is. *)
Theorem incomplete_response_error_is_renamed :
  forall (fuel n : nat) (options : RequestOptions) (finalCall : bool),
    (2 <= fuel)%nat ->
    exists r last,
      request fuel n options finalCall = Some r
      /\ nth_error (sent r) (List.length (sent r) - 1) = Some last
      /\ optionsAfter r = last
      /\ match outcome r with
         | AxiosResolved res =>
             transport (n + List.length (sent r) - 1) ntlm last = AxiosResolved res
         | AxiosRejected e =>
             incompleteResponse e = false
             /\ exists thrown,
                  transport (n + List.length (sent r) - 1) ntlm last
                  = AxiosRejected thrown
                  /\ errName e = errName thrown
                  /\ errMessage e
                     = (if incompleteResponse thrown
                        then "response timeout: incomplete response within a interval"
                        else errMessage thrown)
         end.
Proof.
  intros fuel n options finalCall Hf.
  destruct fuel as [|[|fuel]]; try lia.
  assert (Last : forall k o e,
            transport k ntlm o = AxiosRejected e ->
            let e' := if incompleteResponse e
                      then {| errName := errName e;
                              errMessage :=
                                "response timeout: incomplete response within a interval" |}
                      else e in
            incompleteResponse e' = false
            /\ exists thrown,
                 transport k ntlm o = AxiosRejected thrown
                 /\ errName e' = errName thrown
                 /\ errMessage e'
                    = (if incompleteResponse thrown
                       then "response timeout: incomplete response within a interval"
                       else errMessage thrown)).
  { intros k o e Ht e'. unfold e'. split.
    - destruct (incompleteResponse e) eqn:I; [reflexivity | exact I].
    - exists e. split; [exact Ht|].
      destruct (incompleteResponse e); split; reflexivity. }
  cbn [makeAxiosRequest].
  set (o1 := if ntlm then _ else options).
  destruct (transport n ntlm o1) as [e|res] eqn:T1.
  - destruct (negb finalCall && incompleteResponse e) eqn:G.
    + set (o2 := {| headers := setProperty (headers o1) "Accept-Encoding"
                                 "gzip, deflate";
                    keepAlive := keepAlive o1 |}).
      set (o3 := if ntlm then _ else o2).
      destruct (transport (S n) ntlm o3) as [e2|res2] eqn:T2;
        cbn [andb negb]; eexists; exists o3; (split; [reflexivity|]);
        cbn [sent outcome optionsAfter List.length nth_error Nat.sub];
        (split; [reflexivity|]); (split; [reflexivity|]);
        replace (n + 2 - 1)%nat with (S n) by lia.
      * now apply Last.
      * exact T2.
    + eexists. exists o1. split; [reflexivity|].
      cbn [sent outcome optionsAfter List.length nth_error Nat.sub].
      split; [reflexivity|]. split; [reflexivity|].
      replace (n + 1 - 1)%nat with n by lia. now apply Last.
  - eexists. exists o1. split; [reflexivity|].
    cbn [sent outcome optionsAfter List.length nth_error Nat.sub].
    split; [reflexivity|]. split; [reflexivity|].
    replace (n + 1 - 1)%nat with n by lia. exact T1.
Qed.

End RequestProperties.

(* ===================================================================== *)
(** ** Properties of the group hierarchy *)
(* ===================================================================== *)

Lemma isChildOf_iff parentID r :
  isChildOf parentID r = true <-> rowParent r = Some parentID.
Proof.
  unfold isChildOf. destruct (rowParent r) as [p|]; split; intros H.
  - apply Z.eqb_eq in H. now subst.
  - injection H as ->. apply Z.eqb_refl.
  - discriminate H.
  - discriminate H.
Qed.

Lemma getChildren_iff table monitorID r :
  In r (getChildren table monitorID)
  <-> In r table /\ rowParent r = Some monitorID.
Proof.
  unfold getChildren. rewrite filter_In. now rewrite isChildOf_iff.
Qed.

(** A monitor counts as having active parents exactly when every group
    above it is active; the answer comes as soon as the recursion may go
    as deep as the groups are nested. *)
Theorem parent_active_iff_every_ancestor_active :
  forall (fuel : nat) (table : list MonitorRow) (monitorID : Z)
         (chain : list MonitorRow),
    lineage table monitorID chain ->
    (List.length chain < fuel)%nat ->
    isParentActive fuel table monitorID = Some (forallb rowActive chain).
Proof.
  intros fuel table monitorID chain. revert fuel monitorID.
  induction chain as [|p above IH]; intros fuel monitorID L Hf;
    (destruct fuel as [|fuel]; [cbn in Hf; lia|]); cbn [isParentActive].
  - cbn in L. now rewrite L.
  - destruct L as [L1 L2]. rewrite L1.
    rewrite (IH fuel (rowId p) L2) by (cbn in Hf; lia). reflexivity.
Qed.

(** A monitor is under maintenance exactly when it, or one of the groups
    above it, has a maintenance that is active now. *)
Theorem maintenance_is_inherited_from_groups :
  forall (fuel : nat) (table : list MonitorRow) (monitor_maintenance : list (Z * Z))
         (maintenanceActive : Z -> bool) (monitorID : Z) (chain : list MonitorRow),
    lineage table monitorID chain ->
    (List.length chain < fuel)%nat ->
    isUnderMaintenance fuel table monitor_maintenance maintenanceActive monitorID
    = Some (existsb (ownMaintenance monitor_maintenance maintenanceActive)
              (monitorID :: map rowId chain)).
Proof.
  intros fuel table mm act monitorID chain. revert fuel monitorID.
  induction chain as [|p above IH]; intros fuel monitorID L Hf;
    (destruct fuel as [|fuel]; [cbn in Hf; lia|]);
    cbn [isUnderMaintenance]; cbv zeta;
    cbn [existsb map]; fold (ownMaintenance mm act monitorID);
    destruct (ownMaintenance mm act monitorID); try reflexivity.
  - cbn in L. now rewrite L.
  - destruct L as [L1 L2]. rewrite L1.
    rewrite (IH fuel (rowId p) L2) by (cbn in Hf; lia). reflexivity.
Qed.

Lemma pathLoop_lineage fuel table monitorID chain path :
  lineage table monitorID chain ->
  (List.length chain <= fuel)%nat ->
  pathLoop fuel table (getParent table monitorID) path
  = Some (fold_left (fun path p => rowName p ++ " / " ++ path) chain path).
Proof.
  revert fuel monitorID path.
  induction chain as [|p above IH]; intros fuel monitorID path L Hf.
  - cbn in L. rewrite L. now destruct fuel.
  - destruct L as [L1 L2]. rewrite L1.
    destruct fuel as [|fuel]; [cbn in Hf; lia|].
    cbn [pathLoop fold_left]. apply IH; [exact L2 | cbn in Hf; lia].
Qed.

(** The path name of a monitor is its name with the names of the groups
    above it put in front, outermost first, separated by " / "; a
    monitor whose parent column is empty has its own name as path. *)
Theorem path_name_lists_the_groups :
  forall (fuel : nat) (table : list MonitorRow) (this : MonitorRow)
         (chain : list MonitorRow),
    lineage table (rowId this) chain ->
    (List.length chain <= fuel)%nat ->
    getPathName fuel table this
    = Some (match rowParent this with
            | None => rowName this
            | Some _ =>
                fold_left (fun path p => rowName p ++ " / " ++ path) chain
                  (rowName this)
            end).
Proof.
  intros fuel table this chain L Hf. unfold getPathName.
  destruct (rowParent this); [|reflexivity].
  now apply pathLoop_lineage.
Qed.

(** When the parent links run in a circle (a group that is its own
    parent, or two groups inside each other), [isParentActive] never
    answers for a monitor on the circle, however deep the recursion may
    go. *)
Theorem parents_in_a_circle_never_answer :
  forall (table : list MonitorRow) (circle : Z -> Prop),
    (forall x, circle x ->
               exists p, getParent table x = Some p /\ circle (rowId p)) ->
    forall monitorID,
      circle monitorID ->
      forall fuel, isParentActive fuel table monitorID = None.
Proof.
  intros table circle Step monitorID C fuel. revert monitorID C.
  induction fuel as [|fuel IH]; intros monitorID C; [reflexivity|].
  cbn [isParentActive].
  destruct (Step monitorID C) as (p & -> & Cp).
  now rewrite (IH (rowId p) Cp).
Qed.

Lemma Descendant_through table monitorID c x :
  In c table -> rowParent c = Some monitorID ->
  Descendant table (rowId c) x -> Descendant table monitorID x.
Proof.
  intros Hc Pc D. induction D as [r Hr Pr | r via D IH Hr Pr].
  - apply DescendantBelow with (via := rowId c);
      [now apply DescendantChild | exact Hr | exact Pr].
  - eapply DescendantBelow; [exact IH | exact Hr | exact Pr].
Qed.

Lemma Descendant_split table monitorID x :
  Descendant table monitorID x
  <-> exists c, In c (getChildren table monitorID)
                /\ (x = rowId c \/ Descendant table (rowId c) x).
Proof.
  split.
  - intros D. induction D as [r Hr Pr | r via D IH Hr Pr].
    + exists r. split; [now apply getChildren_iff | now left].
    + destruct IH as (c & Hc & [E | Dc]).
      * exists c. split; [exact Hc|]. right. subst via.
        now apply DescendantChild.
      * exists c. split; [exact Hc|]. right.
        eapply DescendantBelow; eassumption.
  - intros (c & Hc & H). apply getChildren_iff in Hc. destruct Hc as [Hc Pc].
    destruct H as [-> | D].
    + now apply DescendantChild.
    + eapply Descendant_through; eassumption.
Qed.

Lemma fold_children fuel table (P : Z -> Z -> Prop) cs :
  (forall c, In c cs ->
             exists below, getAllChildrenIDs fuel table (rowId c) = Some below
                           /\ forall x, In x below <-> P (rowId c) x) ->
  forall acc,
  exists ids,
    fold_left
      (fun childrenIDs child =>
         match childrenIDs, getAllChildrenIDs fuel table (rowId child) with
         | Some ids, Some below => Some ((ids ++ [rowId child]) ++ below)%list
         | _, _ => None
         end) cs (Some acc) = Some ids
    /\ forall x, In x ids
                 <-> In x acc
                     \/ exists c, In c cs /\ (x = rowId c \/ P (rowId c) x).
Proof.
  induction cs as [|c cs IH]; intros H acc; cbn [fold_left].
  - exists acc. split; [reflexivity|]. intros x. split; [now left|].
    intros [Hx | (c & [] & _)]. exact Hx.
  - destruct (H c (or_introl eq_refl)) as (below & -> & Hb).
    destruct (IH (fun c' Hc' => H c' (or_intror Hc')) ((acc ++ [rowId c]) ++ below)%list)
      as (ids & -> & Hi).
    exists ids. split; [reflexivity|]. intros x. rewrite Hi.
    rewrite !in_app_iff. cbn [In]. rewrite Hb. split.
    + intros [[[Hx | [<- | []]] | Hx] | (c' & Hc' & Hx)].
      * now left.
      * right. exists c. split; [now left | now left].
      * right. exists c. split; [now left | now right].
      * right. exists c'. split; [now right | exact Hx].
    + intros [Hx | (c' & [<- | Hc'] & [-> | Hx])].
      * left. left. now left.
      * left. left. right. now left.
      * left. now right.
      * right. exists c'. split; [exact Hc' | now left].
      * right. exists c'. split; [exact Hc' | now right].
Qed.

(** In a table whose parent links form a forest (every monitor lies
    lower than its parent), [getAllChildrenIDs] answers as soon as the
    recursion may go as deep as the forest is high, and the ids it
    answers are those of the monitors below the one asked for: its
    children, their children, and so on. *)
Theorem all_children_ids_are_the_descendants :
  forall (table : list MonitorRow) (height : Z -> nat) (fuel : nat) (monitorID : Z),
    (forall r p, In r table -> rowParent r = Some p ->
                 (height (rowId r) < height p)%nat) ->
    (height monitorID < fuel)%nat ->
    exists ids,
      getAllChildrenIDs fuel table monitorID = Some ids
      /\ forall x, In x ids <-> Descendant table monitorID x.
Proof.
  intros table height fuel monitorID Forest. revert monitorID.
  induction fuel as [|fuel IH]; intros monitorID Hf; [lia|].
  cbn [getAllChildrenIDs].
  destruct (fold_children fuel table (Descendant table)
              (getChildren table monitorID)) with (acc := @nil Z)
    as (ids & E & Hi).
  - intros c Hc. apply getChildren_iff in Hc. destruct Hc as [Hc Pc].
    apply IH. specialize (Forest c monitorID Hc Pc). lia.
  - exists ids. split; [exact E|]. intros x. rewrite Hi, Descendant_split.
    split; [intros [[] | H]; exact H | intros H; now right].
Qed.

(** After [unlinkAllChildren] the group has no child left and nothing
    below it; the monitors keep their ids, names and activity, and the
    children of every other group are the rows they were. *)
Theorem unlinked_group_has_no_children :
  forall (table : list MonitorRow) (groupID : Z),
    let table' := unlinkAllChildren table groupID in
    getChildren table' groupID = []
    /\ (forall fuel, (0 < fuel)%nat ->
                     getAllChildrenIDs fuel table' groupID = Some [])
    /\ map (fun r => (rowId r, rowName r, rowActive r)) table'
       = map (fun r => (rowId r, rowName r, rowActive r)) table
    /\ (forall other, other <> groupID ->
                      getChildren table' other = getChildren table other).
Proof.
  intros table groupID table'.
  assert (G : getChildren table' groupID = []).
  { unfold table', getChildren, unlinkAllChildren. clear table'.
    induction table as [|r rest IH]; cbn; [reflexivity|].
    destruct (isChildOf groupID r) eqn:E; cbn; [exact IH|].
    rewrite E. exact IH. }
  split; [exact G|]. split; [|split].
  - intros [|fuel] Hf; [lia|]. cbn [getAllChildrenIDs]. now rewrite G.
  - unfold table', unlinkAllChildren. rewrite map_map. apply map_ext.
    intros r. now destruct (isChildOf groupID r).
  - intros other N. clear G. unfold table', getChildren, unlinkAllChildren.
    clear table'. induction table as [|r rest IH]; cbn; [reflexivity|].
    destruct (isChildOf groupID r) eqn:E.
    + apply isChildOf_iff in E.
      assert (E2 : isChildOf other r = false).
      { unfold isChildOf. rewrite E. apply Z.eqb_neq. congruence. }
      rewrite E2. cbn. exact IH.
    + destruct (isChildOf other r); [now rewrite IH | exact IH].
Qed.

(* ===================================================================== *)
(** ** Worked instances of the further properties *)
(* ===================================================================== *)

Lemma retries_stay_within_maxretries_witness :
  let rt := start (exampleMonitor "port" false 2 0) [] in
  let down := observe 1000 [] refused in
  let up := observe 2000 [] connected in
  0 <= retries rt <= Z.max 0 (maxretries (self rt))
  /\ Forall (fun t => 0 <= retries (next t) <= Z.max 0 (maxretries (self rt)))
       (run false wholeNumber [] rt [down; down; down; up]).
Proof.
  intros rt down up.
  assert (H : 0 <= retries rt <= Z.max 0 (maxretries (self rt))) by (cbn; lia).
  split; [exact H|].
  exact (retries_stay_within_maxretries false wholeNumber [] rt
           [down; down; down; up] H).
Defined.

Lemma beat_time_and_duration_witness :
  let rt := start (exampleMonitor "port" false 0 0) [] in
  let o1 := observe 1000 [] refused in
  exists b1,
    stored (beat false wholeNumber [] rt o1) = Some b1
    /\ hbTime b1 = now o1
    /\ duration b1 = 0
    /\ (monType (self rt) <> "push" ->
        forall o2 b2,
          stored (beat false wholeNumber []
                    (next (beat false wholeNumber [] rt o1)) o2) = Some b2 ->
          duration b2
          = Z.quot (now o2 - now o1
                    - (zoneOffset o2 (now o2) - zoneOffset o2 (now o1))) 1000
          /\ (zoneOffset o2 (now o2) = zoneOffset o2 (now o1) ->
              duration b2 = Z.quot (now o2 - now o1) 1000)).
Proof.
  intros rt o1.
  destruct (stored (beat false wholeNumber [] rt o1)) as [b1|] eqn:E;
    [|discriminate E].
  exists b1. split; [reflexivity|].
  exact (beat_time_and_duration false wholeNumber [] rt o1 b1 E).
Defined.

(** Across a change of the zone's offset the duration is off by the
    change: two ticks one minute apart, the clocks going forward by an
    hour in between, store a duration of -3540 s. *)
Remark duration_across_a_zone_change :
  let zone := clocksForwardAt 60000 in
  let rt := start (exampleMonitor "port" false 0 0) [] in
  let t1 := beat false wholeNumber [] rt (observeInZone 30000 zone refused) in
  let t2 := beat false wholeNumber [] (next t1) (observeInZone 90000 zone refused) in
  option_map duration (stored t2) = Some (-3540).
Proof. reflexivity. Qed.

Lemma maintenance_tick_witness :
  let rt := start (exampleMonitor "http" true 2 0) [] in
  let obs := observeMaintenance 1000 in
  underMaintenance obs = true
  /\ exists b,
       stored (beat false wholeNumber [] rt obs) = Some b
       /\ status b = MAINTENANCE
       /\ msg b = Some "Monitor under maintenance"
       /\ ping b = None
       /\ retries (next (beat false wholeNumber [] rt obs)) = 0
       /\ effects (beat false wholeNumber [] rt obs) = [].
Proof.
  intros rt obs. split; [reflexivity|].
  exact (maintenance_tick false wholeNumber [] rt obs eq_refl).
Defined.




Lemma unknown_monitor_type_witness :
  let rt := start (exampleMonitor "teapot" true 2 0) [] in
  let obs := observe 1000 [] refused in
  (knownType [] (monType (self rt)) = false /\ underMaintenance obs = false)
  /\ exists b,
       stored (beat false wholeNumber [] rt obs) = Some b
       /\ msg b = Some "Unknown Monitor Type"
       /\ ping b = None
       /\ status b = UP
       /\ retries (next (beat false wholeNumber [] rt obs)) = 0.
Proof.
  intros rt obs. split; [split; reflexivity|].
  exact (unknown_monitor_type false wholeNumber [] rt obs eq_refl eq_refl).
Defined.

(** A type named like a member every object inherits enters the branch
    of the registered monitor types, although none is registered under
    that name, and fails there. *)
Remark inherited_name_enters_the_plugin_branch :
  let rt := start (exampleMonitor "toString" false 0 0) [] in
  let t := beat false wholeNumber [] rt (observe 1000 [] refused) in
  option_map msg (stored t) = Some (Some "monitorType.check is not a function")
  /\ option_map status (stored t) = Some DOWN.
Proof. split; reflexivity. Qed.

Lemma rejected_request_witness :
  let rt := start (exampleMonitor "http" false 2 0) [] in
  let e := Error "connect ECONNREFUSED" in
  let obs := observeRejected 1000 e in
  (underMaintenance obs = false /\ monType (self rt) = "http"
   /\ axios obs = AxiosRejected e)
  /\ exists b,
       stored (beat false wholeNumber [] rt obs) = Some b
       /\ msg b = Some "connect ECONNREFUSED"
       /\ ping b = None
       /\ status b = PENDING
       /\ retries (next (beat false wholeNumber [] rt obs)) = 1.
Proof.
  intros rt e obs. split; [repeat split|].
  exact (rejected_request false wholeNumber [] rt obs e eq_refl
           (or_introl eq_refl) eq_refl).
Defined.

Lemma keyword_verdict_witness :
  let rt := start (exampleMonitor "keyword" false 0 0) [] in
  let obs := observe 1000 [] refused in
  (monType (self rt) = "keyword" /\ isUpsideDown (self rt) = false
   /\ underMaintenance obs = false /\ axios obs = AxiosResolved ok200)
  /\ exists b,
       stored (beat false wholeNumber [] rt obs) = Some b
       /\ ping b = Some (elapsed obs)
       /\ (xorb (includes (resData ok200) (keyword (self rt)))
                (isInvertKeyword (self rt)) = true ->
           status b = UP /\ retries (next (beat false wholeNumber [] rt obs)) = 0)
       /\ (xorb (includes (resData ok200) (keyword (self rt)))
                (isInvertKeyword (self rt)) = false ->
           status b = statusAfterRaise (self rt) (retries rt)
           /\ retries (next (beat false wholeNumber [] rt obs))
              = retriesAfterRaise (self rt) (retries rt)).
Proof.
  intros rt obs. split; [repeat split|].
  exact (keyword_verdict false wholeNumber [] rt obs ok200
           eq_refl eq_refl eq_refl eq_refl).
Defined.

Lemma empty_keyword_is_always_found_witness :
  let rt := start (exampleMonitor "keyword" false 0 0) [] in
  let obs := observe 1000 [] refused in
  (monType (self rt) = "keyword" /\ keyword (self rt) = ""
   /\ isInvertKeyword (self rt) = false /\ isUpsideDown (self rt) = false
   /\ underMaintenance obs = false /\ axios obs = AxiosResolved ok200)
  /\ exists b,
       stored (beat false wholeNumber [] rt obs) = Some b
       /\ status b = UP
       /\ msg b = Some "200 - OK, keyword is found".
Proof.
  intros rt obs. split; [repeat split|].
  exact (empty_keyword_is_always_found false wholeNumber [] rt obs ok200
           eq_refl eq_refl eq_refl eq_refl eq_refl eq_refl).
Defined.

Lemma cert_notification_once_per_threshold_witness :
  let m := exampleMonitor "http" false 0 0 in
  let once :=
    sendCertNotificationByTargetDays m "example.test" "server" 10 14 [ops]
      emptyStore in
  (existsb (fun n => negb (sendThrows n)) [ops] = true /\ 14 <= 21)
  /\ sendCertNotificationByTargetDays m "R3" "intermediate" 5 21 [ops] once = once.
Proof.
  intros m once. split; [split; [reflexivity | lia]|].
  apply (cert_notification_once_per_threshold m "example.test" "server" "R3"
           "intermediate" 10 5 14 21 [ops] [ops] emptyStore);
    [reflexivity | lia].
Defined.

Lemma failed_cert_notification_is_sent_again_witness :
  let m := exampleMonitor "http" false 0 0 in
  let once :=
    sendCertNotificationByTargetDays m "example.test" "server" 10 14 [pager]
      emptyStore in
  (existsb (fun n => negb (sendThrows n)) [pager] = false
   /\ sentAlready m 14 emptyStore = false)
  /\ notification_sent_history once = notification_sent_history emptyStore
  /\ outbox once
     = (outbox emptyStore
          ++ certNotifications m "example.test" "server" 10 14 [pager])%list
  /\ outbox (sendCertNotificationByTargetDays m "example.test" "server" 10 14
               [pager] once)
     = (outbox once
          ++ certNotifications m "example.test" "server" 10 14 [pager])%list.
Proof.
  intros m once. split; [split; reflexivity|].
  exact (failed_cert_notification_is_sent_again m "example.test" "server" 10 14
           [pager] emptyStore eq_refl eq_refl).
Defined.

Lemma no_expiry_notification_cases_witness :
  let m := exampleMonitor "http" false 0 0 in
  @nil Provider = []
  /\ outbox (handleTlsInfo noRoots m capturedChain [] emptyStore)
     = outbox emptyStore
  /\ notification_sent_history (handleTlsInfo noRoots m capturedChain [] emptyStore)
     = notification_sent_history (updateTlsInfo m capturedChain emptyStore).
Proof.
  intros m. split; [reflexivity|].
  apply (no_expiry_notification_cases noRoots m capturedChain [] emptyStore).
  right. right. left. reflexivity.
Defined.

Lemma quiet_chain_sends_nothing_witness :
  let m := exampleMonitor "http" false 0 0 in
  let info := {| valid := true; certInfo := Some freshCertificate |} in
  (certInfo info = Some freshCertificate
   /\ silentFrom noRoots 21 freshCertificate
   /\ Forall (fun t => t <= 21) (notifyDaysOf emptyStore))
  /\ outbox (checkCertExpiryNotifications noRoots m info [ops] emptyStore)
     = outbox emptyStore
  /\ notification_sent_history
       (checkCertExpiryNotifications noRoots m info [ops] emptyStore)
     = notification_sent_history emptyStore.
Proof.
  intros m info.
  assert (S : silentFrom noRoots 21 freshCertificate)
    by (cbn; right; split; [lia | exact I]).
  assert (F : Forall (fun t => t <= 21) (notifyDaysOf emptyStore))
    by (cbn; repeat constructor; lia).
  split; [repeat split; assumption|].
  exact (quiet_chain_sends_nothing noRoots m info freshCertificate 21 [ops]
           emptyStore eq_refl S F).
Defined.

Lemma uptime_of_uniform_window_witness :
  let startTime := windowStart 24 100000500 in
  let rows := filter (fun r => inWindow startTime r && (monitor_id r =? 1))
                steadyTable in
  let uptime := calcUptime 24 1 true None 100000500 steadyTable in
  (0 < sumQ (map (trimmed startTime) rows))%Q
  /\ ((forall r, In r rows -> countsAsUp r = true) -> (uptime == 1)%Q)
  /\ ((forall r, In r rows -> countsAsUp r = false) -> (uptime == 0)%Q).
Proof.
  intros startTime rows uptime.
  assert (P : (0 < sumQ (map (trimmed startTime) rows))%Q)
    by (vm_compute; reflexivity).
  split; [exact P|].
  exact (uptime_of_uniform_window 24 1 100000500 steadyTable true None
           (or_introl eq_refl) P).
Defined.

Lemma request_is_retried_once_with_gzip_witness :
  (2 <= 2)%nat
  /\ exists r,
       makeAxiosRequest truncatedOnce false 2 0 plainOptions false = Some r
       /\ (1 <= List.length (sent r) <= 2)%nat
       /\ (forall second,
             nth_error (sent r) 1 = Some second ->
             false = false
             /\ getProperty (headers second) "Accept-Encoding" = Some "gzip, deflate"
             /\ exists first e,
                  nth_error (sent r) 0 = Some first
                  /\ truncatedOnce 0 false first = AxiosRejected e
                  /\ incompleteResponse e = true).
Proof.
  split; [lia|].
  apply (request_is_retried_once_with_gzip truncatedOnce false 2 0 plainOptions
           false).
  lia.
Defined.

Lemma incomplete_response_error_is_renamed_witness :
  (2 <= 2)%nat
  /\ exists r last,
       makeAxiosRequest truncatedOnce false 2 0 plainOptions true = Some r
       /\ nth_error (sent r) (List.length (sent r) - 1) = Some last
       /\ optionsAfter r = last
       /\ match outcome r with
          | AxiosResolved res =>
              truncatedOnce (0 + List.length (sent r) - 1) false last
              = AxiosResolved res
          | AxiosRejected e =>
              incompleteResponse e = false
              /\ exists thrown,
                   truncatedOnce (0 + List.length (sent r) - 1) false last
                   = AxiosRejected thrown
                   /\ errName e = errName thrown
                   /\ errMessage e
                      = (if incompleteResponse thrown
                         then "response timeout: incomplete response within a interval"
                         else errMessage thrown)
          end.
Proof.
  split; [lia|].
  apply (incomplete_response_error_is_renamed truncatedOnce false 2 0 plainOptions
           true).
  lia.
Defined.

Lemma parent_active_iff_every_ancestor_active_witness :
  (lineage groupTable 3 [webGroup; prodGroup] /\ (2 < 3)%nat)
  /\ isParentActive 3 groupTable 3 = Some false.
Proof.
  assert (L : lineage groupTable 3 [webGroup; prodGroup])
    by (repeat split; reflexivity).
  split; [split; [exact L | lia]|].
  apply (parent_active_iff_every_ancestor_active 3 groupTable 3
           [webGroup; prodGroup] L).
  cbn. lia.
Defined.

Lemma maintenance_is_inherited_from_groups_witness :
  (lineage groupTable 3 [webGroup; prodGroup] /\ (2 < 3)%nat)
  /\ isUnderMaintenance 3 groupTable [(1, 7)] (fun id => id =? 7) 3 = Some true.
Proof.
  assert (L : lineage groupTable 3 [webGroup; prodGroup])
    by (repeat split; reflexivity).
  split; [split; [exact L | lia]|].
  apply (maintenance_is_inherited_from_groups 3 groupTable [(1, 7)]
           (fun id => id =? 7) 3 [webGroup; prodGroup] L).
  cbn. lia.
Defined.

Lemma path_name_lists_the_groups_witness :
  (lineage groupTable (rowId apiMonitor) [webGroup; prodGroup] /\ (2 <= 2)%nat)
  /\ getPathName 2 groupTable apiMonitor = Some "prod / web / api".
Proof.
  assert (L : lineage groupTable (rowId apiMonitor) [webGroup; prodGroup])
    by (repeat split; reflexivity).
  split; [split; [exact L | lia]|].
  apply (path_name_lists_the_groups 2 groupTable apiMonitor
           [webGroup; prodGroup] L).
  cbn. lia.
Defined.

Lemma parents_in_a_circle_never_answer_witness :
  (forall x, x = 1 ->
             exists p, getParent knotTable x = Some p /\ rowId p = 1)
  /\ forall fuel, isParentActive fuel knotTable 1 = None.
Proof.
  assert (S : forall x, x = 1 ->
                        exists p, getParent knotTable x = Some p /\ rowId p = 1).
  { intros x ->. eexists. split; reflexivity. }
  split; [exact S|].
  exact (parents_in_a_circle_never_answer knotTable (fun x => x = 1) S 1 eq_refl).
Defined.

Lemma all_children_ids_are_the_descendants_witness :
  let height := fun id => Z.to_nat (4 - id) in
  ((forall r p, In r groupTable -> rowParent r = Some p ->
                (height (rowId r) < height p)%nat)
   /\ (height 1%Z < 4)%nat)
  /\ exists ids,
       getAllChildrenIDs 4 groupTable 1 = Some ids
       /\ forall x, In x ids <-> Descendant groupTable 1 x.
Proof.
  intros height.
  assert (F : forall r p, In r groupTable -> rowParent r = Some p ->
                          (height (rowId r) < height p)%nat).
  { intros r p [<- | [<- | [<- | []]]] H; cbn in H; try discriminate H;
      injection H as <-; cbn; lia. }
  assert (H : (height 1%Z < 4)%nat) by (cbn; lia).
  split; [split; assumption|].
  exact (all_children_ids_are_the_descendants groupTable height 4 1 F H).
Defined.
